(** * names: the baby-names data model and its derived metrics

    A shallow embedding of [names_model.py], [names_operations.py] and the
    commands of [names.py], with the properties of the specification
    proved (or refuted) against it.

    Modelling conventions.
    - Python [float] counts are exact rationals ([Q]); [==] on floats is
      [Qeq_bool], [<] is [Qltb].  Rounding, infinities and NaN are outside
      the model.
    - Python [int] (years, ranks, [n], [top_n]) is [Z].
    - Python [str] is [string] (one-byte characters); [str.lower] acts on the
      ASCII letters.
    - A Python [dict] is an association list in insertion order: assigning to
      an existing key replaces the value in place, a new key is appended.
    - [sorted]/[list.sort] are stable; they are modelled by the stable
      insertion sort, [reverse=True] flipping the comparison only.
    - [DataFrame.sort_values] is a parameter: pandas' default sort is not
      stable.
    - Calls into plotext and the reading of a file by a command may raise:
      they return a value or the exception.
    - [d[k]] on a missing key raises [KeyError]: such code returns [option].
    - A CSV file is the table pandas hands back, every count cell already
      passed through [parse_count] ([None] = no data). *)

From Stdlib Require Import List NArith ZArith QArith Qabs Bool Lia Lqa.
From Stdlib Require Import String Ascii Sorted Permutation Morphisms.
Import ListNotations.

Local Open Scope Q_scope.

(* ================================================================== *)
(** * Python values: ordering, sorting, dictionaries, sets, slices *)

(** [<] on the keys handed to [sorted]. *)
Class PyOrd (K : Type) := { py_lt : K -> K -> bool }.

(** [==] on dictionary keys and set elements. *)
Class PyKey (K : Type) := { key_eqb : K -> K -> bool }.

Definition Qltb (x y : Q) : bool := negb (Qle_bool y x).

#[export] Instance PyOrd_Q : PyOrd Q := {| py_lt := Qltb |}.
#[export] Instance PyOrd_Z : PyOrd Z := {| py_lt := Z.ltb |}.
#[export] Instance PyOrd_string : PyOrd string := {| py_lt := String.ltb |}.
#[export] Instance PyKey_Z : PyKey Z := {| key_eqb := Z.eqb |}.
#[export] Instance PyKey_string : PyKey string := {| key_eqb := String.eqb |}.

Section Sorted.
Context {A K : Type} `{PyOrd K}.
Variable key : A -> K.
Variable reverse : bool.

(** [precedes y x]: [y] goes strictly before [x] in the output. *)
Definition precedes (y x : A) : bool :=
  if reverse then py_lt (key x) (key y) else py_lt (key y) (key x).

Fixpoint sort_insert (x : A) (l : list A) : list A :=
  match l with
  | [] => [x]
  | y :: l' => if precedes y x then y :: sort_insert x l' else x :: y :: l'
  end.

(** [sorted(l, key=key, reverse=reverse)]. *)
Definition sorted (l : list A) : list A := fold_right sort_insert [] l.

(** [ties k x]: the key of [x] is neither below nor above [k]. *)
Definition ties (k : K) (x : A) : bool :=
  negb (py_lt (key x) k) && negb (py_lt k (key x)).

(** The order of the output: no later element precedes an earlier one. *)
Definition in_order (a b : A) : Prop := precedes b a = false.
End Sorted.

Definition increasing {K : Type} `{PyOrd K} (x y : K) : Prop :=
  py_lt x y = true.

(** [before a b l]: an occurrence of [a] comes before one of [b] in [l]. *)
Definition before {A : Type} (a b : A) (l : list A) : Prop :=
  exists l1 l2 l3, l = l1 ++ a :: l2 ++ b :: l3.

Definition dict (K V : Type) : Type := list (K * V).

Section Dict.
Context {K V : Type} `{PyKey K}.

Fixpoint dict_get (d : dict K V) (k : K) : option V :=
  match d with
  | [] => None
  | (k', v) :: d' => if key_eqb k' k then Some v else dict_get d' k
  end.

(** [d.get(k, dflt)]. *)
Definition dict_get_default (d : dict K V) (k : K) (dflt : V) : V :=
  match dict_get d k with Some v => v | None => dflt end.

(** [d[k] = v]. *)
Fixpoint dict_set (d : dict K V) (k : K) (v : V) : dict K V :=
  match d with
  | [] => [(k, v)]
  | (k', v') :: d' =>
      if key_eqb k' k then (k', v) :: d' else (k', v') :: dict_set d' k v
  end.

Definition dict_keys (d : dict K V) : list K := map fst d.
Definition dict_values (d : dict K V) : list V := map snd d.

(** [dict(pairs)] and [{k: v for ...}]. *)
Definition dict_of_pairs (l : list (K * V)) : dict K V :=
  fold_left (fun d kv => dict_set d (fst kv) (snd kv)) l [].
End Dict.

Section PySet.
Context {K : Type} `{PyKey K}.

Definition set_add (s : list K) (x : K) : list K :=
  if existsb (key_eqb x) s then s else s ++ [x].

(** [set(l)]; the order of the elements is never observed: every set of the
    program is consumed by [sorted]. *)
Definition set_of_list (l : list K) : list K := fold_left set_add l [].

(** [a | b]. *)
Definition set_union (a b : list K) : list K := fold_left set_add b a.
End PySet.

(** [l[:n]], also for a negative [n]. *)
Definition slice_to {A : Type} (l : list A) (n : Z) : list A :=
  if (0 <=? n)%Z then firstn (Z.to_nat n) l
  else firstn (Z.to_nat (Z.of_nat (List.length l) + n)) l.

Fixpoint enumerate_from {A : Type} (start : Z) (l : list A) : list (Z * A) :=
  match l with
  | [] => []
  | x :: l' => (start, x) :: enumerate_from (start + 1) l'
  end.

(** [enumerate(l)]. *)
Definition enumerate {A : Type} (l : list A) : list (Z * A) :=
  enumerate_from 0 l.

Definition lower_ascii (c : ascii) : ascii :=
  let n := nat_of_ascii c in
  if ((65 <=? n) && (n <=? 90))%nat then ascii_of_nat (n + 32) else c.

(** [s.lower()]. *)
Fixpoint lower (s : string) : string :=
  match s with
  | EmptyString => EmptyString
  | String c s' => String (lower_ascii c) (lower s')
  end.

Definition is_space (c : ascii) : bool :=
  let n := nat_of_ascii c in
  (((9 <=? n) && (n <=? 13)) || ((28 <=? n) && (n <=? 32)))%nat.

(** [s.strip() == ""]. *)
Fixpoint strip_is_empty (s : string) : bool :=
  match s with
  | EmptyString => true
  | String c s' => is_space c && strip_is_empty s'
  end.

(** Exceptions as [option]: [None] is a raised [KeyError]. *)
Definition bind {A B : Type} (m : option A) (f : A -> option B) : option B :=
  match m with Some a => f a | None => None end.

Notation "x <- m ;; k" := (bind m (fun x => k))
  (at level 61, m at next level, right associativity).

Fixpoint mapM {A B : Type} (f : A -> option B) (l : list A) : option (list B) :=
  match l with
  | [] => Some []
  | x :: l' => y <- f x ;; ys <- mapM f l' ;; Some (y :: ys)
  end.

Fixpoint foldM {A S : Type} (f : S -> A -> option S) (l : list A) (s : S)
  : option S :=
  match l with
  | [] => Some s
  | x :: l' => s' <- f s x ;; foldM f l' s'
  end.

(* ================================================================== *)
(** * names_model.py *)

Record YearlyCount := { year : Z; count : Q }.

Record NameData := {
  name : string;
  boys_total : Q;
  girls_total : Q;
  boys_yearly : option (list YearlyCount);
  girls_yearly : option (list YearlyCount)
}.

Definition total_count (self : NameData) : Q :=
  boys_total self + girls_total self.

Definition gender_score (self : NameData) : Q :=
  if Qeq_bool (total_count self) 0 then 0
  else (girls_total self - boys_total self) / total_count self.

Definition is_not_none {A : Type} (o : option A) : bool :=
  match o with Some _ => true | None => false end.

Definition has_yearly_data (self : NameData) : bool :=
  is_not_none (boys_yearly self) || is_not_none (girls_yearly self).

Record Ranks := { overall : Z; boys : Z; girls : Z }.

Record NamesDataset := {
  _names : dict string NameData;
  _yearly_loaded : bool;
  _ranks_cache : option (dict string Ranks)
}.

(** [NamesDataset()]. *)
Definition new_dataset : NamesDataset :=
  {| _names := []; _yearly_loaded := false; _ranks_cache := None |}.

(** A source file as [pd.read_csv] and [parse_count] deliver it: the year of
    each "Count" column, and per row the name cell ([None] when pandas reads
    it as missing) with its parsed count cells, one per "Count" column. *)
Record Table := {
  count_years : list Z;
  rows : list (option string * list (option Q))
}.

(** [sum(axis=1, skipna=True)] over one row. *)
Definition sum_skipna (cells : list (option Q)) : Q :=
  fold_left (fun acc c => match c with Some q => acc + q | None => acc end)
            cells 0.

Definition _load_aggregated (filepath : Table) : list (string * Q) :=
  flat_map (fun r => match fst r with
                     | Some n => [(n, sum_skipna (snd r))]
                     | None => []
                     end) (rows filepath).

Definition load (boys_file girls_file : Table) : NamesDataset :=
  let boys_dict := dict_of_pairs (_load_aggregated boys_file) in
  let girls_dict := dict_of_pairs (_load_aggregated girls_file) in
  let all_names :=
    set_union (set_of_list (dict_keys boys_dict))
              (set_of_list (dict_keys girls_dict)) in
  fold_left
    (fun dataset name =>
       let boys_count := dict_get_default boys_dict name 0 in
       let girls_count := dict_get_default girls_dict name 0 in
       let name_data := {| name := name;
                           boys_total := boys_count;
                           girls_total := girls_count;
                           boys_yearly := None;
                           girls_yearly := None |} in
       {| _names := dict_set (_names dataset) (lower name) name_data;
          _yearly_loaded := _yearly_loaded dataset;
          _ranks_cache := _ranks_cache dataset |})
    (sorted (fun n => n) false all_names)
    new_dataset.

(** One row of the long-form frame [name, name_lower, year, count]. *)
Record LongRow := {
  lr_name : string;
  lr_name_lower : string;
  lr_year : Z;
  lr_count : Q
}.

Definition _load_yearly_raw (filepath : Table) : list LongRow :=
  let result :=
    flat_map (fun r => match fst r with
                       | Some n => if strip_is_empty n then [] else [(n, snd r)]
                       | None => []
                       end) (rows filepath) in
  flat_map
    (fun jy =>
       flat_map (fun r => match nth (fst jy) (snd r) None with
                          | Some c => [ {| lr_name := fst r;
                                           lr_name_lower := lower (fst r);
                                           lr_year := snd jy;
                                           lr_count := c |} ]
                          | None => []
                          end) result)
    (combine (seq 0 (List.length (count_years filepath))) (count_years filepath)).

(** The loop state of [_build_yearly_dict]:
    [(result, current_name, current_list)]. *)
Definition build_step
  (st : dict string (list YearlyCount) * option string * list YearlyCount)
  (row : LongRow)
  : dict string (list YearlyCount) * option string * list YearlyCount :=
  let '(result, current_name, current_list) := st in
  let yc := {| year := lr_year row; count := lr_count row |} in
  match current_name with
  | None => (result, Some (lr_name_lower row), [yc])
  | Some cn =>
      if String.eqb (lr_name_lower row) cn
      then (result, current_name, current_list ++ [yc])
      else (dict_set result cn current_list, Some (lr_name_lower row), [yc])
  end.

Definition _build_yearly_dict (df : list LongRow)
  : dict string (list YearlyCount) :=
  let '(result, current_name, current_list) :=
    fold_left build_step df ([], None, []) in
  match current_name with
  | Some cn => dict_set result cn current_list
  | None => result
  end.

Section SortValues.
(** [df.sort_values("name_lower", ignore_index=True)] is pandas' sort.  The
    code passes no [kind], and the default one does not promise to keep
    rows with equal names in frame order, so the sort is a parameter; what
    a property needs of it ([sorts_by_name] below) is a hypothesis of that
    property. *)
Variable sort_values : list LongRow -> list LongRow.

Definition load_yearly_data (self : NamesDataset) (boys_file girls_file : Table)
  : NamesDataset :=
  if _yearly_loaded self then self
  else
    let boys_yearly_df := sort_values (_load_yearly_raw boys_file) in
    let girls_yearly_df := sort_values (_load_yearly_raw girls_file) in
    let boys_yearly_dict := _build_yearly_dict boys_yearly_df in
    let girls_yearly_dict := _build_yearly_dict girls_yearly_df in
    let populate (item : string * NameData) : string * NameData :=
      let '(name_lower, name_data) := item in
      let name_data :=
        match dict_get boys_yearly_dict name_lower with
        | Some l => {| name := name name_data;
                       boys_total := boys_total name_data;
                       girls_total := girls_total name_data;
                       boys_yearly := Some l;
                       girls_yearly := girls_yearly name_data |}
        | None => name_data
        end in
      let name_data :=
        match dict_get girls_yearly_dict name_lower with
        | Some l => {| name := name name_data;
                       boys_total := boys_total name_data;
                       girls_total := girls_total name_data;
                       boys_yearly := boys_yearly name_data;
                       girls_yearly := Some l |}
        | None => name_data
        end in
      (name_lower, name_data) in
    {| _names := map populate (_names self);
       _yearly_loaded := true;
       _ranks_cache := _ranks_cache self |}.
End SortValues.

Definition get_name (self : NamesDataset) (n : string) : option NameData :=
  dict_get (_names self) (lower n).

Definition get_all_names (self : NamesDataset) : list NameData :=
  dict_values (_names self).

(** [{name.name: rank + 1 for rank, name in enumerate(by_x)}]. *)
Definition rank_map (by_x : list NameData) : dict string Z :=
  dict_of_pairs
    (map (fun rn => (name (snd rn), (fst rn + 1)%Z)) (enumerate by_x)).

Definition _compute_ranks (self : NamesDataset) : option NamesDataset :=
  let all_names := dict_values (_names self) in
  let by_total := sorted total_count true all_names in
  let overall_ranks := rank_map by_total in
  let by_boys := sorted boys_total true all_names in
  let boys_ranks := rank_map by_boys in
  let by_girls := sorted girls_total true all_names in
  let girls_ranks := rank_map by_girls in
  cache <- foldM
    (fun cache name_data =>
       o <- dict_get overall_ranks (name name_data) ;;
       b <- dict_get boys_ranks (name name_data) ;;
       g <- dict_get girls_ranks (name name_data) ;;
       Some (dict_set cache (name name_data)
                      {| overall := o; boys := b; girls := g |}))
    all_names [] ;;
  Some {| _names := _names self;
          _yearly_loaded := _yearly_loaded self;
          _ranks_cache := Some cache |}.

Definition get_ranked_names (self : NamesDataset) (top_n : Z)
  : option (NamesDataset * list (NameData * Ranks)) :=
  self <- (if is_not_none (_ranks_cache self) then Some self
           else _compute_ranks self) ;;
  cache <- _ranks_cache self ;;
  let all_names := sorted total_count true (dict_values (_names self)) in
  let all_names :=
    if (0 <? top_n)%Z then slice_to all_names top_n else all_names in
  res <- mapM (fun nd => r <- dict_get cache (name nd) ;; Some (nd, r))
              all_names ;;
  Some (self, res).

(* ================================================================== *)
(** * names_operations.py *)

Inductive Gender := Boys | Girls | Combined.

(** [x or []]. *)
Definition or_empty {A : Type} (o : option (list A)) : list A :=
  match o with Some l => l | None => [] end.

(** [not x] on an optional list: true for [None] and for [[]]. *)
Definition falsy {A : Type} (o : option (list A)) : bool :=
  match o with Some (_ :: _) => false | _ => true end.

Definition by_year (l : list YearlyCount) : dict Z Q :=
  dict_of_pairs (map (fun yc => (year yc, count yc)) l).

Definition get_time_series (name_data : NameData) (gender : Gender)
  : list (Z * Q) :=
  if negb (has_yearly_data name_data) then []
  else
    match gender with
    | Boys =>
        map (fun yc => (year yc, count yc)) (or_empty (boys_yearly name_data))
    | Girls =>
        map (fun yc => (year yc, count yc)) (or_empty (girls_yearly name_data))
    | Combined =>
        let boys_by_year := by_year (or_empty (boys_yearly name_data)) in
        let girls_by_year := by_year (or_empty (girls_yearly name_data)) in
        let all_years :=
          sorted (fun y => y) false
                 (set_union (set_of_list (dict_keys boys_by_year))
                            (set_of_list (dict_keys girls_by_year))) in
        map (fun y => (y, dict_get_default boys_by_year y 0
                          + dict_get_default girls_by_year y 0)) all_years
    end.

Definition calculate_yearly_gender_scores (name_data : NameData)
  : list (Z * Q) :=
  if falsy (boys_yearly name_data) || falsy (girls_yearly name_data) then []
  else
    let boys_by_year := by_year (or_empty (boys_yearly name_data)) in
    let girls_by_year := by_year (or_empty (girls_yearly name_data)) in
    let all_years :=
      sorted (fun y => y) false
             (set_union (set_of_list (dict_keys boys_by_year))
                        (set_of_list (dict_keys girls_by_year))) in
    flat_map
      (fun y =>
         let boys_count := dict_get_default boys_by_year y 0 in
         let girls_count := dict_get_default girls_by_year y 0 in
         let total := boys_count + girls_count in
         if Qltb 0 total
         then [(y, (girls_count - boys_count) / total)]
         else [])
      all_years.

Definition find_closest_to_score (names : list NameData) (target : Q) (n : Z)
  : list NameData :=
  let scored :=
    map (fun nd => (nd, Qabs (gender_score nd - target))) names in
  let scored := sorted snd false scored in
  map fst (slice_to scored n).

(* ================================================================== *)
(** * names.py: the [nearest] command *)

(** What reaches the console: a line of markup, or a table (its rendering
    by [rich] is left out; the title of the only table here is determined
    by the target). *)
Inductive Event :=
| ConsolePrint (markup : string)
| ConsoleTable (target : Q) (table_rows : list (NameData * Ranks)).

(** How a command ends: normally, by [raise SystemExit(code)], or by an
    uncaught [KeyError]. *)
Inductive Outcome :=
| Returned (dataset : NamesDataset) (console : list Event)
| SystemExit (dataset : NamesDataset) (console : list Event) (code : Z)
| KeyError.

Definition nearest (dataset : NamesDataset) (target : Q) (n top : Z)
  : Outcome :=
  if negb (Qle_bool (-1) target && Qle_bool target 1)
  then SystemExit dataset
         [ConsolePrint "[red]Error: target must be between -1.0 and 1.0[/red]"] 1
  else
    match get_ranked_names dataset top with
    | None => KeyError
    | Some (dataset, names_with_ranks) =>
        let names_only := map fst names_with_ranks in
        let closest := find_closest_to_score names_only target n in
        let ranks_map :=
          dict_of_pairs (map (fun nr => (name (fst nr), snd nr))
                             names_with_ranks) in
        match mapM (fun nd => r <- dict_get ranks_map (name nd) ;;
                              Some (nd, r)) closest with
        | None => KeyError
        | Some closest_with_ranks =>
            Returned dataset [ConsoleTable target closest_with_ranks]
        end
    end.

(** The states a dataset goes through: built by [load], then touched only
    by [load_yearly_data] (whatever pandas' sort does) and
    [get_ranked_names]. *)
Inductive reachable : NamesDataset -> Prop :=
| reach_load boys_file girls_file :
    reachable (load boys_file girls_file)
| reach_yearly sort_values ds boys_file girls_file :
    reachable ds ->
    reachable (load_yearly_data sort_values ds boys_file girls_file)
| reach_ranked ds top_n ds' res :
    reachable ds -> get_ranked_names ds top_n = Some (ds', res) ->
    reachable ds'.

(* ================================================================== *)
(** * Vocabulary of the specification *)

(** The value a series holds for a year: that of its last entry for the
    year (the one a dictionary built from the series keeps), 0 without
    one. *)
Definition value_at (series : list (Z * Q)) (y : Z) : Q :=
  match find (fun p => (fst p =? y)%Z) (rev series) with
  | Some p => snd p
  | None => 0
  end.

Definition series_of (l : list YearlyCount) : list (Z * Q) :=
  map (fun yc => (year yc, count yc)) l.

(** The yearly scores as the specification words them: nothing when a
    sequence is absent; otherwise, over the years of either sequence in
    ascending order, the score of each year whose combined count is
    positive. *)
Definition yearly_gender_scores_claimed (name_data : NameData)
  : list (Z * Q) :=
  match boys_yearly name_data, girls_yearly name_data with
  | Some b, Some g =>
      flat_map
        (fun y =>
           let boys_count := value_at (series_of b) y in
           let girls_count := value_at (series_of g) y in
           if Qltb 0 (boys_count + girls_count)
           then [(y, (girls_count - boys_count) / (boys_count + girls_count))]
           else [])
        (sorted (fun y => y) false
                (set_union (set_of_list (map year b))
                           (set_of_list (map year g))))
  | _, _ => []
  end.

(** The spelling the specification promises for the display name of key
    [k]: that of the first name of the sources that normalizes to [k]. *)
Definition first_occurrence (boys_file girls_file : Table) (k : string)
  : option string :=
  find (fun n => String.eqb (lower n) k)
       (map fst (_load_aggregated boys_file)
        ++ map fst (_load_aggregated girls_file)).

(** The closest entities as the specification words them: the first [n]
    of the stable ascending sort by distance, [n] being a number of
    entities. *)
Definition first_n_closest (names : list NameData) (target : Q) (n : Z)
  : list NameData :=
  firstn (Z.to_nat n)
         (sorted (fun nd => Qabs (gender_score nd - target)) false names).

(** The rank of an entity in one dimension of a rank cache. *)
Definition rank_in (cache : dict string Ranks) (dimension : Ranks -> Z)
           (nd : NameData) : option Z :=
  option_map dimension (dict_get cache (name nd)).

(** The ranks 1..k. *)
Definition ranks_upto (k : nat) : list (option Z) :=
  map (fun i => Some (Z.of_nat i)) (seq 1 k).

(** One dimension of a rank cache is a dense ranking of the entities by
    [count]: the ranks are the numbers 1..k, each once; the entity at
    position [i] of the descending stable sort holds rank [i + 1]; that sort
    is a permutation of the entities, never increasing in [count], with
    tied entities in catalog order; so a smaller rank never goes with a
    smaller count, and of two entities with equal counts the one that
    comes first in the catalog has the smaller rank. *)
Definition dense_ranking (cache : dict string Ranks) (dimension : Ranks -> Z)
           (count : NameData -> Q) (entities : list NameData) : Prop :=
  let by_rank := sorted count true entities in
  Permutation (map (rank_in cache dimension) entities)
              (ranks_upto (List.length entities)) /\
  (forall i nd, nth_error by_rank i = Some nd ->
                rank_in cache dimension nd = Some (Z.of_nat i + 1)%Z) /\
  Permutation by_rank entities /\
  StronglySorted (fun a b => count b <= count a) by_rank /\
  (forall c, filter (fun nd => Qeq_bool (count nd) c) by_rank
             = filter (fun nd => Qeq_bool (count nd) c) entities) /\
  (forall a b ra rb,
      In a entities -> In b entities ->
      rank_in cache dimension a = Some ra ->
      rank_in cache dimension b = Some rb ->
      (ra < rb)%Z -> count b <= count a) /\
  (forall a b ra rb,
      before a b entities -> count a == count b ->
      rank_in cache dimension a = Some ra ->
      rank_in cache dimension b = Some rb ->
      (ra < rb)%Z).

(** The rank [_compute_ranks] reads back for an entity in one dimension. *)
Definition position_rank (count : NameData -> Q) (entities : list NameData)
           (nd : NameData) : Z :=
  dict_get_default (rank_map (sorted count true entities)) (name nd) 0%Z.

Definition ranks_of (entities : list NameData) (nd : NameData) : Ranks :=
  {| overall := position_rank total_count entities nd;
     boys := position_rank boys_total entities nd;
     girls := position_rank girls_total entities nd |}.

(** [self._ranks_cache[name.name]], with a default that is never used. *)
Definition cached_ranks (cache : dict string Ranks) (nd : NameData) : Ranks :=
  dict_get_default cache (name nd) {| overall := 0; boys := 0; girls := 0 |}.

(** The rank cache once [get_ranked_names] has run: the cache it found, or
    the one [_compute_ranks] builds. *)
Definition ranks_cache_after (ds : NamesDataset) : dict string Ranks :=
  match _ranks_cache ds with
  | Some cache => cache
  | None => map (fun nd => (name nd, ranks_of (dict_values (_names ds)) nd))
                (dict_values (_names ds))
  end.

Definition dataset_after (ds : NamesDataset) : NamesDataset :=
  {| _names := _names ds;
     _yearly_loaded := _yearly_loaded ds;
     _ranks_cache := Some (ranks_cache_after ds) |}.

(** What holds of every dataset the program builds: distinct keys, each the
    lower-cased display name of its entity, and a rank cache, once
    computed, with exactly the display names as keys. *)
Definition catalog_ok (ds : NamesDataset) : Prop :=
  NoDup (dict_keys (_names ds)) /\
  Forall (fun item => fst item = lower (name (snd item))) (_names ds) /\
  match _ranks_cache ds with
  | None => True
  | Some cache => dict_keys cache = map name (dict_values (_names ds))
  end.

(* ================================================================== *)
(** * Sample data *)

Definition entity (n : string) (b g : Q) : NameData :=
  {| name := n; boys_total := b; girls_total := g;
     boys_yearly := None; girls_yearly := None |}.

(** Scored -0.9, -0.1, 0.05, 0.2, 0.95. *)
Definition sample_scored : list NameData :=
  [entity "Ash" 19 1; entity "Kit" 11 9; entity "Sky" 19 21;
   entity "Remy" 4 6; entity "Zoe" 1 39].

Definition sample_boys : Table :=
  {| count_years := [1996; 1997]%Z;
     rows := [(Some "Ash", [Some 10; Some 9]); (Some "Kit", [Some 5; Some 6]);
              (Some "Sky", [Some 19; None]); (Some "Remy", [None; Some 4]);
              (Some "Max", [Some 30; Some 1]); (None, [Some 1; Some 1])]
  |}%string.

Definition sample_girls : Table :=
  {| count_years := [1996; 1997]%Z;
     rows := [(Some "Ash", [Some 1; None]); (Some "Kit", [Some 4; Some 5]);
              (Some "Sky", [Some 20; Some 1]); (Some "Remy", [Some 6; Some 0]);
              (Some "Zoe", [Some 30; Some 9])]
  |}%string.

(** Two spellings of one name in the boys' file. *)
Definition cased_boys : Table :=
  {| count_years := [1996]%Z;
     rows := [(Some "Alex", [Some 2]); (Some "alex", [Some 1])] |}%string.

Definition empty_table : Table := {| count_years := [1996]%Z; rows := [] |}.

(** An entity whose boys sequence is loaded but empty. *)
Definition girls_only : NameData :=
  {| name := "Zoe"; boys_total := 0; girls_total := 5;
     boys_yearly := Some [];
     girls_yearly := Some [ {| year := 2000; count := 5 |} ] |}.

(** An entity with boys data only. *)
Definition boys_only : NameData :=
  {| name := "Max"; boys_total := 31; girls_total := 0;
     boys_yearly := Some [ {| year := 1996; count := 30 |};
                           {| year := 1997; count := 1 |} ];
     girls_yearly := None |}.

(** An entity whose only year has explicit zero counts for both sexes, as
    [load_yearly_data] stores them for cells that read 0. *)
Definition zero_year_only : NameData :=
  {| name := "Ash"; boys_total := 0; girls_total := 0;
     boys_yearly := Some [ {| year := 1996; count := 0 |} ];
     girls_yearly := Some [ {| year := 1996; count := 0 |} ] |}.

(** An entity with a year of explicit zero counts. *)
Definition with_zero_year : NameData :=
  {| name := "Kit"; boys_total := 3; girls_total := 1;
     boys_yearly := Some [ {| year := 1996; count := 0 |};
                           {| year := 1997; count := 3 |} ];
     girls_yearly := Some [ {| year := 1996; count := 0 |};
                            {| year := 1998; count := 1 |} ] |}.

(* ================================================================== *)
(** * The rest of names_model.py and names_operations.py *)

(** [s.lstrip()]. *)
Fixpoint lstrip (s : string) : string :=
  match s with
  | EmptyString => EmptyString
  | String c s' => if is_space c then lstrip s' else s
  end.

(** [s.rstrip()]. *)
Fixpoint rstrip (s : string) : string :=
  match s with
  | EmptyString => EmptyString
  | String c s' =>
      match rstrip s' with
      | EmptyString => if is_space c then EmptyString else String c EmptyString
      | r => String c r
      end
  end.

(** [s.strip()]. *)
Definition strip (s : string) : string := rstrip (lstrip s).

(** [s.replace(x, "")] for a one-character [x]. *)
Fixpoint remove_char (x : ascii) (s : string) : string :=
  match s with
  | EmptyString => EmptyString
  | String c s' =>
      if Ascii.eqb c x then remove_char x s' else String c (remove_char x s')
  end.

Definition double_quote : ascii := ascii_of_nat 34.

Section ParseCount.
(** Python's [float(s)]; [None] stands for [ValueError]. *)
Variable float : string -> option Q.

(** A cell is a string, or missing ([pd.isna]). *)
Definition parse_count (value : option string) : option Q :=
  match value with
  | None => None
  | Some value =>
      let value := strip value in
      if (String.eqb value "[x]" || String.eqb value "S"
          || String.eqb value "")%bool
      then None
      else float (remove_char "," (remove_char double_quote value))
  end.
End ParseCount.

(** [ensure_yearly_loaded] returns at once on a loaded dataset; otherwise it
    calls [self._load_yearly_data], an attribute the class does not have:
    [None] is that [AttributeError]. *)
Definition ensure_yearly_loaded (self : NamesDataset) : option NamesDataset :=
  if _yearly_loaded self then Some self else None.

Definition filter_names_by_score (names : list NameData)
           (score_range : option (Q * Q)) (top_n : option Z)
  : list NameData :=
  let result := names in
  let result :=
    match score_range with
    | Some (min_score, max_score) =>
        filter (fun n => Qle_bool min_score (gender_score n)
                         && Qle_bool (gender_score n) max_score) result
    | None => result
    end in
  match top_n with
  | Some t => if (0 <? t)%Z then slice_to result t else result
  | None => result
  end.

(* ================================================================== *)
(** * The rest of names.py *)

Definition esc : ascii := ascii_of_nat 27.

(** The class [[0-9;]]. *)
Definition is_sgr_param (c : ascii) : bool :=
  let n := nat_of_ascii c in
  (((48 <=? n) && (n <=? 57)) || (n =? 59))%nat.

(** What is left after the longest run of [[0-9;]] at the head. *)
Fixpoint skip_params (s : string) : string :=
  match s with
  | EmptyString => EmptyString
  | String c s' => if is_sgr_param c then skip_params s' else s
  end.

(** A match of [\x1b\[[0-9;]*m] at the head of [s]: what follows it.  The
    star is greedy and [m] is not in its class, so the match, when there is
    one, ends at the [m] after the longest run. *)
Definition match_ansi (s : string) : option string :=
  match s with
  | String c1 (String c2 s') =>
      if Ascii.eqb c1 esc && Ascii.eqb c2 "["
      then match skip_params s' with
           | String c3 rest => if Ascii.eqb c3 "m" then Some rest else None
           | EmptyString => None
           end
      else None
  | _ => None
  end.

(** [ANSI_ESCAPE_PATTERN.sub("", s)]: left to right, a match is dropped and
    the scan goes on after it, any other character is kept.  [fuel] bounds
    the characters left to scan. *)
Fixpoint sub_ansi (fuel : nat) (s : string) : string :=
  match fuel with
  | O => EmptyString
  | S fuel' =>
      match s with
      | EmptyString => EmptyString
      | String c s' =>
          match match_ansi s with
          | Some rest => sub_ansi fuel' rest
          | None => String c (sub_ansi fuel' s')
          end
      end
  end.

Definition strip_ansi_codes (text : string) : string :=
  sub_ansi (String.length text) text.

(** A rank cell of a table: the rank, or ["-"]. *)
Inductive RankCell :=
| Dash
| RankShown (rank : Z).

(** A row of a table, cell by cell.  A cell holds the value the code
    formats; the formatting itself ([str], [+.4f], the thousands
    separators) is left to the console. *)
Record TableRow := {
  row_rank : Z;
  row_name : string;
  row_gender_score : Q;
  row_girls_rank : RankCell;
  row_boys_rank : RankCell;
  row_overall_rank : Z;
  row_girls : Z;
  row_boys : Z;
  row_total_count : Z
}.

Record RichTable := {
  table_title : string;
  table_rows : list TableRow
}.

(** [int(x)] on a float: truncation towards zero. *)
Definition int_of_float (x : Q) : Z := (Qnum x ÷ Z.pos (Qden x))%Z.

Definition create_table (title : string)
           (names_with_ranks : list (NameData * Ranks)) : RichTable :=
  {| table_title := title;
     table_rows :=
       map (fun item : Z * (NameData * Ranks) =>
              let '(rank, (name_data, ranks)) := item in
              let girls_rank :=
                if Qeq_bool (girls_total name_data) 0 then Dash
                else RankShown (girls ranks) in
              let boys_rank :=
                if Qeq_bool (boys_total name_data) 0 then Dash
                else RankShown (boys ranks) in
              {| row_rank := rank;
                 row_name := name name_data;
                 row_gender_score := gender_score name_data;
                 row_girls_rank := girls_rank;
                 row_boys_rank := boys_rank;
                 row_overall_rank := overall ranks;
                 row_girls := int_of_float (girls_total name_data);
                 row_boys := int_of_float (boys_total name_data);
                 row_total_count := int_of_float (total_count name_data) |})
           (enumerate_from 1 names_with_ranks) |}.

(** What a command sends to the console: [console.print(s)] for a string
    (a line of markup, or the text of a graph), [console.print()], and
    [console.print(table)]. *)
Inductive Output :=
| OutLine (text : string)
| OutBlank
| OutTable (table : RichTable).

(** How a command ends: normally, by [raise SystemExit(code)], or by an
    uncaught exception. *)
Inductive Run :=
| Finished (dataset : NamesDataset) (console : list Output)
| Exited (dataset : NamesDataset) (console : list Output) (code : Z)
| Crashed.

Definition score (dataset : NamesDataset) (top : Z) : Run :=
  match get_ranked_names dataset top with
  | None => Crashed
  | Some (dataset, names_with_ranks) =>
      let n := 10%Z in
      let masculine :=
        slice_to (sorted (fun x => gender_score (fst x)) false
                         names_with_ranks) n in
      let feminine :=
        slice_to (sorted (fun x => gender_score (fst x)) true
                         names_with_ranks) n in
      let neutral :=
        slice_to (sorted (fun x => Qabs (gender_score (fst x))) false
                         names_with_ranks) n in
      Finished dataset
        [OutTable (create_table "Top Masculine Names" masculine); OutBlank;
         OutTable (create_table "Top Feminine Names" feminine); OutBlank;
         OutTable (create_table "Most Gender-Neutral Names" neutral)]
  end.

Definition popular (dataset : NamesDataset) (n : Z) : Run :=
  match get_ranked_names dataset 0 with
  | None => Crashed
  | Some (dataset, all_ranked) =>
      let boys :=
        slice_to (sorted (fun x => boys_total (fst x)) true all_ranked) n in
      let girls :=
        slice_to (sorted (fun x => girls_total (fst x)) true all_ranked) n in
      Finished dataset
        [OutTable (create_table "Top Boys Names" boys); OutBlank;
         OutTable (create_table "Top Girls Names" girls)]
  end.

(** The outcome of a call that may raise: its value, or the exception, as
    the text [str(e)] gives for it. *)
Inductive Try (A : Type) : Type :=
| Value (a : A)
| Raised (e : string).

Arguments Value {A} a.
Arguments Raised {A} e.

(** The two lines [display_name_graphs] has for what it cannot show. *)
Definition no_historical_data (name_data : NameData) : Output :=
  OutLine (String.append "[yellow]No historical data found for '"
             (String.append (name name_data) "'[/yellow]")).

Definition could_not_load (e : string) : Output :=
  OutLine (String.append "[yellow]Could not load historical data: "
             (String.append e "[/yellow]")).

Section Graphs.
Variable sort_values : list LongRow -> list LongRow.

(** [create_popularity_graph] and [create_gender_score_graph] drive
    plotext.  Each is taken as a whole: for a series and a title, the text
    it returns, or the exception it raises. *)
Variable create_popularity_graph : list (Z * Q) -> string -> Try string.
Variable create_gender_score_graph : list (Z * Q) -> string -> Try string.

(** [dataset.load_yearly_data(BOYS_FILE, GIRLS_FILE)] as a command runs it:
    reading a file may raise.  Nothing is read once the yearly data is
    loaded; otherwise the boys' file is read first, and an exception leaves
    the dataset as it was, since nothing is assigned before both frames are
    built. *)
Definition load_yearly_files (dataset : NamesDataset)
           (boys_file girls_file : Try Table) : Try NamesDataset :=
  if _yearly_loaded dataset then Value dataset
  else
    match boys_file with
    | Raised e => Raised e
    | Value boys_table =>
        match girls_file with
        | Raised e => Raised e
        | Value girls_table =>
            Value (load_yearly_data sort_values dataset boys_table girls_table)
        end
    end.

(** [display_name_graphs(name_data)], with the files [load_yearly_data]
    reads.  [name_data] is the object the dataset stores under [key]:
    [load_yearly_data] fills it in place, so what is read after the call is
    the entry under [key].  The body runs under [try]: the first exception
    ends it, and the handler prints its line after what was printed
    before. *)
Definition display_name_graphs (dataset : NamesDataset)
           (boys_file girls_file : Try Table) (key : string)
           (name_data : NameData)
  : NamesDataset * list Output :=
  match load_yearly_files dataset boys_file girls_file with
  | Raised e => (dataset, [could_not_load e])
  | Value dataset =>
      let name_data :=
        match dict_get (_names dataset) key with
        | Some nd => nd
        | None => name_data
        end in
      if negb (has_yearly_data name_data)
      then (dataset, [no_historical_data name_data])
      else
        let time_series := get_time_series name_data Combined in
        let popularity :=
          match time_series with
          | [] => Value []
          | _ :: _ =>
              match create_popularity_graph time_series
                      (String.append "Popularity Trend: " (name name_data))
              with
              | Raised e => Raised e
              | Value pop_graph => Value [OutLine pop_graph; OutBlank]
              end
          end in
        match popularity with
        | Raised e => (dataset, [could_not_load e])
        | Value shown =>
            if negb (falsy (boys_yearly name_data))
               && negb (falsy (girls_yearly name_data))
            then
              match calculate_yearly_gender_scores name_data with
              | [] => (dataset, shown)
              | gender_scores =>
                  match create_gender_score_graph gender_scores
                          (String.append "Gender Score Evolution: "
                                         (name name_data))
                  with
                  | Raised e => (dataset, shown ++ [could_not_load e])
                  | Value gender_graph =>
                      (dataset, shown ++ [OutLine gender_graph])
                  end
              end
            else (dataset, shown)
        end
  end.

(** [ranks] is [None] when no pair of the listing has the name: then
    [create_table] fails on [ranks.overall]. *)
Definition lookup (dataset : NamesDataset) (boys_file girls_file : Try Table)
           (n : string) : Run :=
  match get_name dataset n with
  | None =>
      Exited dataset
        [OutLine (String.append "[red]Name '"
                    (String.append n "' not found in dataset.[/red]"))] 1
  | Some name_data =>
      match get_ranked_names dataset 0 with
      | None => Crashed
      | Some (dataset, all_ranked) =>
          match find (fun nr => String.eqb (name (fst nr)) (name name_data))
                     all_ranked with
          | None => Crashed
          | Some (_, ranks) =>
              let '(dataset, graphs) :=
                display_name_graphs dataset boys_file girls_file
                                    (lower n) name_data in
              Finished dataset
                ([OutTable (create_table
                              (String.append "Statistics for '"
                                 (String.append (name name_data) "'"))
                              [(name_data, ranks)]);
                  OutBlank;
                  OutLine "[bold]Historical Trends (1996-2024)[/bold]";
                  OutBlank] ++ graphs)
          end
      end
  end.
End Graphs.

(** ** Words for the properties of the rest *)

(** No cell of the table holds a negative count. *)
Definition cells_nonneg (t : Table) : Prop :=
  Forall (fun r =>
            Forall (fun c => match c with Some q => 0 <= q | None => True end)
                   (snd r))
         (rows t).

(** The name occurs in the name column of one of the two sources. *)
Definition in_sources (boys_file girls_file : Table) (n : string) : Prop :=
  In (Some n) (map fst (rows boys_file))
  \/ In (Some n) (map fst (rows girls_file)).

(** What [load_yearly_data] leaves alone in an entry: key, display name and
    totals. *)
Definition entry_totals (item : string * NameData)
  : string * string * Q * Q :=
  (fst item, name (snd item), boys_total (snd item), girls_total (snd item)).

Definition yearly_count_of (row : LongRow) : YearlyCount :=
  {| year := lr_year row; count := lr_count row |}.

(** The rows of a long-form frame for one lower-cased name, in frame
    order. *)
Definition rows_named (k : string) (df : list LongRow) : list LongRow :=
  filter (fun r => String.eqb (lr_name_lower r) k) df.

(** The yearly sequence a frame holds for a name: its rows as yearly
    counts, or nothing when it has no row for the name. *)
Definition grouped (df : list LongRow) (k : string)
  : option (list YearlyCount) :=
  match rows_named k df with
  | [] => None
  | rows_k => Some (map yearly_count_of rows_k)
  end.

(** An entity with the yearly sequences found for it put in; a sequence
    not found leaves the field as it was. *)
Definition with_yearly (nd : NameData)
           (found_boys found_girls : option (list YearlyCount)) : NameData :=
  {| name := name nd;
     boys_total := boys_total nd;
     girls_total := girls_total nd;
     boys_yearly := match found_boys with
                    | Some l => Some l
                    | None => boys_yearly nd
                    end;
     girls_yearly := match found_girls with
                     | Some l => Some l
                     | None => girls_yearly nd
                     end |}.

(** A frame in which the rows of each name are contiguous, names
    ascending: what [sort_values("name_lower")] delivers. *)
Definition sorted_by_name (df : list LongRow) : Prop :=
  StronglySorted (in_order lr_name_lower false) df.

(** What the properties ask of pandas' sort: it keeps the rows, each once,
    and orders them by lower-cased name.  Where rows with the same name
    end up relative to each other is left open. *)
Definition sorts_by_name (sort_values : list LongRow -> list LongRow) : Prop :=
  forall df, Permutation (sort_values df) df /\ sorted_by_name (sort_values df).

(** Two such sorts: the stable one, and one that leaves the rows of each
    name in reverse frame order. *)
Definition stable_sort_values (df : list LongRow) : list LongRow :=
  sorted lr_name_lower false df.

Definition reversing_sort_values (df : list LongRow) : list LongRow :=
  rev (sorted lr_name_lower true df).

(** A yearly sequence holds the same counts as another, each as often, in
    whatever order; an absent sequence matches an absent one only. *)
Definition same_counts (found listed : option (list YearlyCount)) : Prop :=
  match found, listed with
  | Some l, Some l' => Permutation l l'
  | None, None => True
  | _, _ => False
  end.

(** Plotting functions for the samples: one that returns the title as the
    text of the graph, one that raises. *)
Definition sample_graph (series : list (Z * Q)) (title : string)
  : Try string := Value title.

Definition failing_graph (series : list (Z * Q)) (title : string)
  : Try string := Raised "no canvas".





(** A ranked listing as the tables show it: display names with their
    ranks. *)
Definition named_ranks (res : list (NameData * Ranks))
  : list (string * Ranks) :=
  map (fun p => (name (fst p), snd p)) res.

(** No character of the string is ESC. *)
Fixpoint esc_free (s : string) : bool :=
  match s with
  | EmptyString => true
  | String c s' => negb (Ascii.eqb c esc) && esc_free s'
  end.

(** Every character of the string is a digit or a semicolon. *)
Fixpoint all_sgr_params (s : string) : bool :=
  match s with
  | EmptyString => true
  | String c s' => is_sgr_param c && all_sgr_params s'
  end.

(** The escape sequence [ESC [ params m]. *)
Definition sgr_code (params : string) : string :=
  String esc (String "[" (String.append params "m")).

(** The cache [_compute_ranks] builds for the entities as they are now. *)
Definition computed_cache (ds : NamesDataset) : dict string Ranks :=
  map (fun nd => (name nd, ranks_of (dict_values (_names ds)) nd))
      (dict_values (_names ds)).

(** A rank cache, when there is one, is the one the current entities
    give. *)
Definition cache_fresh (ds : NamesDataset) : Prop :=
  match _ranks_cache ds with
  | None => True
  | Some cache => cache = computed_cache ds
  end.

(** No two entities have the same count. *)
Definition distinct_counts (count : NameData -> Q) (entities : list NameData)
  : Prop :=
  forall a b, In a entities -> In b entities -> count a == count b -> a = b.

(* ================================================================== *)
(** * The ordering laws of the key types *)

(** [<] is a strict weak order: what makes the stable sort well defined. *)
Class StrictWeak (K : Type) `{PyOrd K} := {
  py_lt_irrefl : forall x, py_lt x x = false;
  py_lt_trans : forall x y z,
      py_lt x y = true -> py_lt y z = true -> py_lt x z = true;
  py_lt_incomp : forall x y z,
      py_lt x y = false -> py_lt y z = false -> py_lt x z = false
}.

Lemma Qltb_lt x y : Qltb x y = true <-> x < y.
Proof.
  unfold Qltb. rewrite negb_true_iff. split; intro Hxy.
  - apply Qnot_le_lt. intro Hle. apply Qle_bool_iff in Hle. congruence.
  - destruct (Qle_bool y x) eqn:E; [|reflexivity].
    apply Qle_bool_iff in E. exfalso. exact (Qlt_not_le _ _ Hxy E).
Qed.

Lemma Qltb_ge x y : Qltb x y = false <-> y <= x.
Proof. unfold Qltb. rewrite negb_false_iff. apply Qle_bool_iff. Qed.

#[export] Instance StrictWeak_Q : StrictWeak Q.
Proof.
  split; simpl.
  - intro x. apply Qltb_ge. apply Qle_refl.
  - intros x y z H1 H2. apply Qltb_lt in H1, H2. apply Qltb_lt.
    eapply Qlt_trans; eassumption.
  - intros x y z H1 H2. apply Qltb_ge in H1, H2. apply Qltb_ge.
    eapply Qle_trans; eassumption.
Qed.

#[export] Instance StrictWeak_Z : StrictWeak Z.
Proof.
  split; simpl.
  - intro x. apply Z.ltb_irrefl.
  - intros x y z H1 H2. apply Z.ltb_lt in H1, H2. apply Z.ltb_lt. lia.
  - intros x y z H1 H2. apply Z.ltb_ge in H1, H2. apply Z.ltb_ge. lia.
Qed.

Lemma ascii_compare_nat a b :
  Ascii.compare a b = (nat_of_ascii a ?= nat_of_ascii b)%nat.
Proof.
  unfold Ascii.compare. rewrite N2Nat.inj_compare.
  unfold nat_of_ascii. reflexivity.
Qed.

Lemma string_compare_refl s : String.compare s s = Eq.
Proof.
  induction s as [|a s IH]; simpl; [reflexivity|].
  rewrite ascii_compare_nat, Nat.compare_refl. exact IH.
Qed.

Lemma string_compare_lt_trans s1 : forall s2 s3,
  String.compare s1 s2 = Lt -> String.compare s2 s3 = Lt ->
  String.compare s1 s3 = Lt.
Proof.
  induction s1 as [|a s1 IH]; intros [|b s2] [|c s3]; simpl;
    try discriminate; try reflexivity.
  rewrite !ascii_compare_nat.
  destruct (Nat.compare_spec (nat_of_ascii a) (nat_of_ascii b)) as [E1|L1|G1];
    try discriminate;
    destruct (Nat.compare_spec (nat_of_ascii b) (nat_of_ascii c)) as [E2|L2|G2];
    try discriminate; intros H1 H2.
  - rewrite E1, E2, Nat.compare_refl. eapply IH; eassumption.
  - rewrite E1. apply Nat.compare_lt_iff in L2. rewrite L2. reflexivity.
  - rewrite <- E2. apply Nat.compare_lt_iff in L1. rewrite L1. reflexivity.
  - assert (L : (nat_of_ascii a < nat_of_ascii c)%nat) by lia.
    apply Nat.compare_lt_iff in L. rewrite L. reflexivity.
Qed.

Lemma string_ltb_lt s1 s2 :
  String.ltb s1 s2 = true <-> String.compare s1 s2 = Lt.
Proof.
  unfold String.ltb. destruct (String.compare s1 s2); split; congruence.
Qed.

(** The order on strings is total: what is not below is equal or above. *)
Lemma string_ltb_false_cases s1 s2 :
  String.ltb s1 s2 = false -> s1 = s2 \/ String.ltb s2 s1 = true.
Proof.
  unfold String.ltb. rewrite (String.compare_antisym s2 s1).
  destruct (String.compare s1 s2) eqn:E; simpl; intro Hf.
  - left. apply String.compare_eq_iff. exact E.
  - discriminate.
  - right. reflexivity.
Qed.

#[export] Instance StrictWeak_string : StrictWeak string.
Proof.
  split; simpl.
  - intro x. unfold String.ltb. rewrite string_compare_refl. reflexivity.
  - intros x y z H1 H2. apply string_ltb_lt in H1, H2. apply string_ltb_lt.
    eapply string_compare_lt_trans; eassumption.
  - intros x y z H1 H2.
    destruct (String.ltb x z) eqn:E; [|reflexivity]. exfalso.
    destruct (string_ltb_false_cases _ _ H1) as [->|H1']; [congruence|].
    destruct (string_ltb_false_cases _ _ H2) as [->|H2']; [congruence|].
    apply string_ltb_lt in H1', H2', E.
    pose proof (string_compare_lt_trans _ _ _ H2' H1') as H3.
    pose proof (string_compare_lt_trans _ _ _ H3 E) as H4.
    rewrite string_compare_refl in H4. discriminate.
Qed.

Lemma string_lt_total (x y : string) :
  py_lt x y = false -> x = y \/ py_lt y x = true.
Proof. apply string_ltb_false_cases. Qed.

(* ================================================================== *)
(** * [sorted]: permutation, order, stability *)

Section SortedFacts.
Context {A K : Type} `{StrictWeak K}.
Variable key : A -> K.
Variable reverse : bool.

Local Abbreviation prec := (precedes key reverse).
Local Abbreviation ins := (sort_insert key reverse).
Local Abbreviation srt := (sorted key reverse).
Local Abbreviation in_order := (in_order key reverse).

Lemma precedes_asym x y : prec x y = true -> prec y x = false.
Proof.
  unfold precedes. destruct reverse; intro Hxy.
  - destruct (py_lt (key x) (key y)) eqn:E; [|reflexivity].
    pose proof (py_lt_trans _ _ _ Hxy E) as Hc.
    rewrite py_lt_irrefl in Hc. discriminate.
  - destruct (py_lt (key y) (key x)) eqn:E; [|reflexivity].
    pose proof (py_lt_trans _ _ _ Hxy E) as Hc.
    rewrite py_lt_irrefl in Hc. discriminate.
Qed.

Lemma precedes_incomp x y z :
  prec x y = false -> prec y z = false -> prec x z = false.
Proof.
  unfold precedes. destruct reverse; intros Hxy Hyz.
  - exact (py_lt_incomp _ _ _ Hyz Hxy).
  - exact (py_lt_incomp _ _ _ Hxy Hyz).
Qed.

Lemma sort_insert_perm x l : Permutation (ins x l) (x :: l).
Proof.
  induction l as [|y l IH]; simpl; [reflexivity|].
  destruct (prec y x); [|reflexivity].
  rewrite IH. apply perm_swap.
Qed.

Lemma sorted_perm l : Permutation (srt l) l.
Proof.
  induction l as [|x l IH]; simpl; [reflexivity|].
  rewrite sort_insert_perm. apply perm_skip. exact IH.
Qed.

Lemma sorted_length l : List.length (srt l) = List.length l.
Proof. apply Permutation_length, sorted_perm. Qed.

Lemma sorted_In x l : In x (srt l) <-> In x l.
Proof.
  split; apply Permutation_in; [|symmetry]; apply sorted_perm.
Qed.

Lemma sorted_NoDup l : NoDup l -> NoDup (srt l).
Proof.
  intro Hnd. eapply Permutation_NoDup; [symmetry; apply sorted_perm|exact Hnd].
Qed.

Lemma sort_insert_in_order x l :
  StronglySorted in_order l -> StronglySorted in_order (ins x l).
Proof.
  induction 1 as [|y l Hs IH Hall]; simpl.
  - constructor; constructor.
  - destruct (prec y x) eqn:E.
    + constructor; [exact IH|].
      eapply Permutation_Forall; [symmetry; apply sort_insert_perm|].
      constructor; [|exact Hall].
      apply precedes_asym. exact E.
    + constructor; [constructor; assumption|].
      constructor; [exact E|].
      eapply Forall_impl; [|exact Hall].
      intros b Hb. unfold in_order in *.
      eapply precedes_incomp; eassumption.
Qed.

Lemma sorted_in_order l : StronglySorted in_order (srt l).
Proof.
  induction l as [|x l IH]; simpl; [constructor|].
  apply sort_insert_in_order. exact IH.
Qed.

Lemma ties_not_precedes k x y :
  ties key k x = true -> ties key k y = true -> prec y x = false.
Proof.
  unfold ties, precedes. rewrite !andb_true_iff, !negb_true_iff.
  intros [Hx1 Hx2] [Hy1 Hy2]. destruct reverse.
  - exact (py_lt_incomp _ _ _ Hx1 Hy2).
  - exact (py_lt_incomp _ _ _ Hy1 Hx2).
Qed.

Lemma sort_insert_stable k x l :
  filter (ties key k) (ins x l) = filter (ties key k) (x :: l).
Proof.
  induction l as [|y l IH]; [reflexivity|].
  simpl sort_insert. destruct (prec y x) eqn:E; [|reflexivity].
  change (filter (ties key k) (y :: ins x l))
    with (if ties key k y then y :: filter (ties key k) (ins x l)
          else filter (ties key k) (ins x l)).
  rewrite IH. simpl.
  destruct (ties key k y) eqn:Ty, (ties key k x) eqn:Tx; try reflexivity.
  rewrite (ties_not_precedes k x y Tx Ty) in E. discriminate.
Qed.

Lemma before_cons (x a b : A) l : before a b l -> before a b (x :: l).
Proof.
  intros [l1 [l2 [l3 ->]]]. exists (x :: l1), l2, l3. reflexivity.
Qed.

Lemma before_head (a b : A) l : In b l -> before a b (a :: l).
Proof.
  intro Hin. apply in_split in Hin. destruct Hin as [l2 [l3 ->]].
  exists [], l2, l3. reflexivity.
Qed.

Lemma before_inv (x a b : A) l :
  before a b (x :: l) -> (x = a /\ In b l) \/ before a b l.
Proof.
  intros [[|y l1] [l2 [l3 Heq]]]; simpl in Heq; injection Heq as -> ->.
  - left. split; [reflexivity|]. apply in_or_app. right. left. reflexivity.
  - right. exists l1, l2, l3. reflexivity.
Qed.

Lemma sort_insert_before x a b l : before a b l -> before a b (ins x l).
Proof.
  induction l as [|y l IH]; intro Hb.
  - destruct Hb as [[|? ?] [? [? Heq]]]; discriminate.
  - simpl. destruct (prec y x); [|apply before_cons; exact Hb].
    apply before_inv in Hb. destruct Hb as [[-> Hin]|Hb].
    + apply before_head.
      eapply Permutation_in; [symmetry; apply sort_insert_perm|].
      right. exact Hin.
    + apply before_cons, IH. exact Hb.
Qed.

Lemma sort_insert_before_tie a b l :
  In b l -> prec b a = false -> before a b (ins a l).
Proof.
  intros Hin Htie. induction l as [|y l IH]; [destruct Hin|].
  simpl. destruct (prec y a) eqn:E; [|apply before_head; exact Hin].
  apply before_cons, IH. destruct Hin as [->|Hin]; [congruence|exact Hin].
Qed.

(** Stability, by positions: an element stays before a later one that does
    not strictly precede it. *)
Lemma sorted_before a b l :
  before a b l -> prec b a = false -> before a b (srt l).
Proof.
  intros Hb Htie. induction l as [|x l IH].
  - destruct Hb as [[|? ?] [? [? Heq]]]; discriminate.
  - simpl. apply before_inv in Hb. destruct Hb as [[-> Hin]|Hb].
    + apply sort_insert_before_tie; [|exact Htie].
      apply sorted_In. exact Hin.
    + apply sort_insert_before, IH. exact Hb.
Qed.

(** Stability: the elements whose keys tie with [k] come out in the order
    in which they went in. *)
Lemma sorted_stable k l :
  filter (ties key k) (srt l) = filter (ties key k) l.
Proof.
  induction l as [|x l IH]; [reflexivity|].
  simpl sorted. rewrite sort_insert_stable. simpl. rewrite IH. reflexivity.
Qed.
(** The three properties determine the output: any stable sort, whatever
    its algorithm, returns what [sorted] returns. *)
Lemma stable_sort_unique l : forall l',
  Permutation l' l -> StronglySorted in_order l' ->
  (forall k, filter (ties key k) l' = filter (ties key k) l) ->
  l' = srt l.
Proof.
  assert (Huniq : forall l1 l2,
             Permutation l1 l2 ->
             StronglySorted in_order l1 -> StronglySorted in_order l2 ->
             (forall k, filter (ties key k) l1 = filter (ties key k) l2) ->
             l1 = l2).
  { induction l1 as [|x t1 IH]; intros l2 Hperm Hs1 Hs2 Hf.
    - apply Permutation_nil in Hperm. symmetry. exact Hperm.
    - destruct l2 as [|y t2];
        [symmetry in Hperm; apply Permutation_nil in Hperm; discriminate|].
      inversion Hs1 as [|? ? Hs1' Hall1]; subst.
      inversion Hs2 as [|? ? Hs2' Hall2]; subst.
      rewrite Forall_forall in Hall1, Hall2.
      assert (Hyx : prec y x = false).
      { assert (Hy : In y (x :: t1))
          by (eapply Permutation_in; [symmetry; exact Hperm|left; reflexivity]).
        destruct Hy as [->|Hy]; [|apply Hall1; exact Hy].
        unfold precedes. destruct reverse; apply py_lt_irrefl. }
      assert (Hxy : prec x y = false).
      { assert (Hx : In x (y :: t2))
          by (eapply Permutation_in; [exact Hperm|left; reflexivity]).
        destruct Hx as [->|Hx]; [|apply Hall2; exact Hx].
        unfold precedes. destruct reverse; apply py_lt_irrefl. }
      assert (Tx : ties key (key x) x = true).
      { unfold ties. rewrite py_lt_irrefl. reflexivity. }
      assert (Ty : ties key (key x) y = true).
      { unfold ties, precedes in *.
        destruct reverse; rewrite Hxy, Hyx; reflexivity. }
      pose proof (Hf (key x)) as Hhead. simpl in Hhead.
      rewrite Tx, Ty in Hhead. injection Hhead as <- _.
      f_equal. apply IH; try assumption.
      + eapply Permutation_cons_inv. exact Hperm.
      + intro k. specialize (Hf k). simpl in Hf.
        destruct (ties key k x); [injection Hf as Hf|]; exact Hf. }
  intros l' Hperm Hs Hf. apply Huniq.
  - rewrite Hperm. symmetry. apply sorted_perm.
  - exact Hs.
  - apply sorted_in_order.
  - intro k. rewrite Hf. symmetry. apply sorted_stable.
Qed.
End SortedFacts.

Lemma before_nth {A : Type} (a b : A) (l : list A) (i j : nat) :
  NoDup l -> before a b l ->
  nth_error l i = Some a -> nth_error l j = Some b -> (i < j)%nat.
Proof.
  intros Hnd [l1 [l2 [l3 Heq]]] Hi Hj.
  assert (Ha : nth_error l (List.length l1) = Some a).
  { rewrite Heq, nth_error_app2 by lia. rewrite Nat.sub_diag. reflexivity. }
  assert (Hb : nth_error l (List.length l1 + S (List.length l2)) = Some b).
  { rewrite Heq, nth_error_app2 by lia.
    replace (List.length l1 + S (List.length l2) - List.length l1)%nat
      with (S (List.length l2)) by lia.
    simpl. rewrite nth_error_app2 by lia. rewrite Nat.sub_diag. reflexivity. }
  rewrite NoDup_nth_error in Hnd.
  assert (Hil : (i < List.length l)%nat)
    by (apply nth_error_Some; congruence).
  assert (Hjl : (j < List.length l)%nat)
    by (apply nth_error_Some; congruence).
  assert (Ei : i = List.length l1) by (apply Hnd; [exact Hil|congruence]).
  assert (Ej : j = (List.length l1 + S (List.length l2))%nat)
    by (apply Hnd; [exact Hjl|congruence]).
  lia.
Qed.

Lemma StronglySorted_weaken {A : Type} (R S : A -> A -> Prop) (l : list A) :
  (forall a b, R a b -> S a b) -> StronglySorted R l -> StronglySorted S l.
Proof.
  intros HRS Hs. induction Hs as [|x l Hs IH Hall]; constructor.
  - exact IH.
  - eapply Forall_impl; [|exact Hall]. intro b. apply HRS.
Qed.

(** Sorting distinct values of a totally ordered type (names, years) gives
    a strictly increasing list. *)
Section SortedStrict.
Context {K : Type} `{StrictWeak K}.
Hypothesis py_lt_total :
  forall x y : K, py_lt x y = false -> x = y \/ py_lt y x = true.

Lemma in_order_increasing (l : list K) :
  NoDup l -> StronglySorted (in_order (fun x => x) false) l ->
  StronglySorted increasing l.
Proof.
  intros Hnd Hs. induction Hs as [|x l Hs IH Hall]; [constructor|].
  inversion Hnd as [|? ? Hx Hnd']; subst.
  constructor; [apply IH; exact Hnd'|].
  rewrite Forall_forall in *. intros y Hy.
  specialize (Hall y Hy). unfold in_order, precedes in Hall.
  destruct (py_lt_total _ _ Hall) as [->|Hlt]; [contradiction|exact Hlt].
Qed.

Lemma sorted_increasing (l : list K) :
  NoDup l -> StronglySorted increasing (sorted (fun x => x) false l).
Proof.
  intro Hnd. apply in_order_increasing.
  - apply sorted_NoDup. exact Hnd.
  - apply sorted_in_order.
Qed.
End SortedStrict.

Lemma Z_ltb_total (x y : Z) : py_lt x y = false -> x = y \/ py_lt y x = true.
Proof.
  simpl. intro Hge. apply Z.ltb_ge in Hge.
  destruct (Z.eq_dec x y) as [->|Hne]; [left; reflexivity|].
  right. apply Z.ltb_lt. lia.
Qed.

(* ================================================================== *)
(** * Dictionaries and sets *)

(** [==] on keys decides equality. *)
Class PyKeyLaws (K : Type) `{PyKey K} := {
  key_eqb_eq : forall x y : K, key_eqb x y = true <-> x = y
}.

#[export] Instance PyKeyLaws_Z : PyKeyLaws Z.
Proof. split. intros x y. apply Z.eqb_eq. Qed.

#[export] Instance PyKeyLaws_string : PyKeyLaws string.
Proof. split. intros x y. apply String.eqb_eq. Qed.

Section DictFacts.
Context {K V : Type} `{PyKeyLaws K}.
Implicit Types (d : dict K V) (k : K) (v : V).

Lemma key_eqb_refl k : key_eqb k k = true.
Proof. apply key_eqb_eq. reflexivity. Qed.

Lemma key_eqb_neq k k' : k <> k' -> key_eqb k k' = false.
Proof.
  intro Hne. destruct (key_eqb k k') eqn:E; [|reflexivity].
  apply key_eqb_eq in E. contradiction.
Qed.

Lemma key_dec k k' : k = k' \/ k <> k'.
Proof.
  destruct (key_eqb k k') eqn:E.
  - left. apply key_eqb_eq. exact E.
  - right. intro Heq. apply key_eqb_eq in Heq. congruence.
Qed.

Lemma dict_get_Some_In d k v : dict_get d k = Some v -> In (k, v) d.
Proof.
  induction d as [|[k' v'] d IH]; simpl; [discriminate|].
  destruct (key_eqb k' k) eqn:E.
  - apply key_eqb_eq in E. intros [= ->]. left. congruence.
  - intro Hg. right. apply IH. exact Hg.
Qed.

Lemma dict_get_None d k : dict_get d k = None <-> ~ In k (dict_keys d).
Proof.
  induction d as [|[k' v'] d IH]; simpl.
  - split; [intros _ []|reflexivity].
  - destruct (key_eqb k' k) eqn:E.
    + apply key_eqb_eq in E. split; [discriminate|].
      intro Hn. exfalso. apply Hn. left. exact E.
    + rewrite IH. split.
      * intros Hn [Heq|Hin]; [|contradiction].
        apply key_eqb_eq in Heq. congruence.
      * intros Hn Hin. apply Hn. right. exact Hin.
Qed.

Lemma dict_get_In_keys d k :
  In k (dict_keys d) -> exists v, dict_get d k = Some v.
Proof.
  intro Hin. destruct (dict_get d k) as [v|] eqn:E; [eauto|].
  apply dict_get_None in E. contradiction.
Qed.

(** With distinct keys the entries are exactly what [dict_get] finds. *)
Lemma dict_get_In d k v :
  NoDup (dict_keys d) -> In (k, v) d -> dict_get d k = Some v.
Proof.
  induction d as [|[k' v'] d IH]; simpl; [intros _ []|].
  intros Hnd [Heq|Hin]; inversion Hnd as [|? ? Hk Hnd']; subst.
  - injection Heq as -> ->. rewrite key_eqb_refl. reflexivity.
  - rewrite key_eqb_neq; [apply IH; assumption|].
    intros ->. apply Hk. apply (in_map fst) in Hin. exact Hin.
Qed.

Lemma dict_get_app d1 d2 k :
  dict_get (d1 ++ d2) k
  = match dict_get d1 k with Some v => Some v | None => dict_get d2 k end.
Proof.
  induction d1 as [|[k' v'] d1 IH]; simpl; [reflexivity|].
  destruct (key_eqb k' k); [reflexivity|exact IH].
Qed.

Lemma dict_get_set_same d k v : dict_get (dict_set d k v) k = Some v.
Proof.
  induction d as [|[k' v'] d IH]; simpl.
  - rewrite key_eqb_refl. reflexivity.
  - destruct (key_eqb k' k) eqn:E; simpl; rewrite E; [reflexivity|exact IH].
Qed.

Lemma dict_get_set_other d k v k' :
  k <> k' -> dict_get (dict_set d k v) k' = dict_get d k'.
Proof.
  intro Hne. induction d as [|[k0 v0] d IH]; simpl.
  - rewrite key_eqb_neq by exact Hne. reflexivity.
  - destruct (key_eqb k0 k) eqn:E; simpl.
    + apply key_eqb_eq in E. subst k0.
      rewrite key_eqb_neq by exact Hne. reflexivity.
    + rewrite IH. reflexivity.
Qed.

Lemma dict_keys_set d k v :
  dict_keys (dict_set d k v)
  = if existsb (fun k' => key_eqb k' k) (dict_keys d) then dict_keys d
    else dict_keys d ++ [k].
Proof.
  induction d as [|[k' v'] d IH]; simpl; [reflexivity|].
  destruct (key_eqb k' k) eqn:E; simpl; [reflexivity|].
  unfold dict_keys in *. rewrite IH.
  destruct (existsb _ (map fst d)); reflexivity.
Qed.

Lemma existsb_key_In (l : list K) k :
  existsb (fun k' => key_eqb k' k) l = true <-> In k l.
Proof.
  rewrite existsb_exists. split.
  - intros [k' [Hin Heq]]. apply key_eqb_eq in Heq. congruence.
  - intro Hin. exists k. split; [exact Hin|apply key_eqb_refl].
Qed.

Lemma dict_keys_set_In d k v k' :
  In k' (dict_keys (dict_set d k v)) <-> k' = k \/ In k' (dict_keys d).
Proof.
  rewrite dict_keys_set.
  destruct (existsb _ (dict_keys d)) eqn:E.
  - apply existsb_key_In in E. split; [auto|]. intros [->|Hin]; assumption.
  - rewrite in_app_iff. simpl. split.
    + intros [Hin|[->|[]]]; auto.
    + intros [->|Hin]; auto.
Qed.

Lemma dict_keys_set_NoDup d k v :
  NoDup (dict_keys d) -> NoDup (dict_keys (dict_set d k v)).
Proof.
  intro Hnd. rewrite dict_keys_set.
  destruct (existsb _ (dict_keys d)) eqn:E; [exact Hnd|].
  apply NoDup_app; [exact Hnd|repeat constructor; intros []|].
  intros x Hx [<-|[]].
  apply existsb_key_In in Hx. congruence.
Qed.

(** Filling a dictionary from pairs: later pairs win, keys stay distinct. *)
Lemma fold_dict_set_get (l : list (K * V)) : forall d k,
  dict_get (fold_left (fun d kv => dict_set d (fst kv) (snd kv)) l d) k
  = match dict_get (rev l) k with
    | Some v => Some v
    | None => dict_get d k
    end.
Proof.
  induction l as [|[k0 v0] l IH]; intros d k; simpl; [reflexivity|].
  rewrite IH, dict_get_app. destruct (dict_get (rev l) k); [reflexivity|].
  simpl. destruct (key_eqb k0 k) eqn:E.
  - apply key_eqb_eq in E. subst. apply dict_get_set_same.
  - apply dict_get_set_other. intros ->. rewrite key_eqb_refl in E.
    discriminate.
Qed.

Lemma fold_dict_set_keys_In (l : list (K * V)) : forall d k,
  In k (dict_keys (fold_left (fun d kv => dict_set d (fst kv) (snd kv)) l d))
  <-> In k (map fst l) \/ In k (dict_keys d).
Proof.
  induction l as [|[k0 v0] l IH]; intros d k; simpl.
  - split; [auto|intros [[]|Hin]; exact Hin].
  - rewrite IH, dict_keys_set_In. split.
    + intros [Hin|[->|Hin]]; auto.
    + intros [[->|Hin]|Hin]; auto.
Qed.

Lemma fold_dict_set_keys_NoDup (l : list (K * V)) : forall d,
  NoDup (dict_keys d) ->
  NoDup (dict_keys (fold_left (fun d kv => dict_set d (fst kv) (snd kv)) l d)).
Proof.
  induction l as [|[k0 v0] l IH]; intros d Hnd; simpl; [exact Hnd|].
  apply IH. apply dict_keys_set_NoDup. exact Hnd.
Qed.

Lemma dict_of_pairs_get (l : list (K * V)) k :
  dict_get (dict_of_pairs l) k = dict_get (rev l) k.
Proof.
  unfold dict_of_pairs. rewrite fold_dict_set_get.
  destruct (dict_get (rev l) k); reflexivity.
Qed.

Lemma dict_of_pairs_keys_In (l : list (K * V)) k :
  In k (dict_keys (dict_of_pairs l)) <-> In k (map fst l).
Proof.
  unfold dict_of_pairs. rewrite fold_dict_set_keys_In. simpl.
  split; [intros [Hin|[]]; exact Hin|auto].
Qed.

Lemma dict_of_pairs_keys_NoDup (l : list (K * V)) :
  NoDup (dict_keys (dict_of_pairs l)).
Proof. apply fold_dict_set_keys_NoDup. constructor. Qed.

Lemma dict_of_pairs_get_In (l : list (K * V)) k v :
  NoDup (map fst l) -> In (k, v) l -> dict_get (dict_of_pairs l) k = Some v.
Proof.
  intros Hnd Hin. rewrite dict_of_pairs_get. apply dict_get_In.
  - unfold dict_keys. rewrite map_rev. apply NoDup_rev. exact Hnd.
  - apply in_rev in Hin. exact Hin.
Qed.

(** Pairs with distinct keys are stored as they come. *)
Lemma fold_dict_set_distinct (l : list (K * V)) : forall d,
  NoDup (dict_keys d ++ map fst l) ->
  fold_left (fun d kv => dict_set d (fst kv) (snd kv)) l d = d ++ l.
Proof.
  induction l as [|[k0 v0] l IH]; intros d Hnd; simpl.
  - rewrite app_nil_r. reflexivity.
  - assert (Hset : dict_set d k0 v0 = d ++ [(k0, v0)]).
    { simpl in Hnd. apply NoDup_remove_2 in Hnd.
      assert (Hk : ~ In k0 (dict_keys d)).
      { intro Hin. apply Hnd. apply in_or_app. left. exact Hin. }
      clear -Hk H0. induction d as [|[k' v'] d IHd]; simpl; [reflexivity|].
      rewrite key_eqb_neq.
      - rewrite IHd; [reflexivity|]. intro Hin. apply Hk. right. exact Hin.
      - intros ->. apply Hk. left. reflexivity. }
    rewrite Hset, IH.
    + rewrite <- app_assoc. reflexivity.
    + unfold dict_keys in *. rewrite map_app, <- app_assoc. exact Hnd.
Qed.

Lemma dict_of_pairs_distinct (l : list (K * V)) :
  NoDup (map fst l) -> dict_of_pairs l = l.
Proof. intro Hnd. apply (fold_dict_set_distinct l []). exact Hnd. Qed.

(** Sets: distinct elements, membership as expected. *)
Lemma set_add_In (s : list K) x y : In y (set_add s x) <-> y = x \/ In y s.
Proof.
  unfold set_add. destruct (existsb (key_eqb x) s) eqn:E.
  - apply existsb_exists in E. destruct E as [x' [Hin Heq]].
    apply key_eqb_eq in Heq. subst x'.
    split; [auto|]. intros [->|Hy]; assumption.
  - rewrite in_app_iff. simpl. split.
    + intros [Hy|[->|[]]]; auto.
    + intros [->|Hy]; auto.
Qed.

Lemma set_add_NoDup (s : list K) x : NoDup s -> NoDup (set_add s x).
Proof.
  intro Hnd. unfold set_add. destruct (existsb (key_eqb x) s) eqn:E;
    [exact Hnd|].
  apply NoDup_app; [exact Hnd|repeat constructor; intros []|].
  intros y Hy [<-|[]].
  assert (Hex : existsb (key_eqb x) s = true).
  { apply existsb_exists. exists x. split; [exact Hy|apply key_eqb_refl]. }
  congruence.
Qed.

Lemma set_union_In (b : list K) : forall a y,
  In y (set_union a b) <-> In y a \/ In y b.
Proof.
  unfold set_union. induction b as [|x b IH]; intros a y; simpl.
  - split; [auto|intros [Hy|[]]; exact Hy].
  - rewrite IH, set_add_In. split.
    + intros [[->|Hy]|Hy]; auto.
    + intros [Hy|[->|Hy]]; auto.
Qed.

Lemma set_union_NoDup (b : list K) : forall a,
  NoDup a -> NoDup (set_union a b).
Proof.
  unfold set_union. induction b as [|x b IH]; intros a Hnd; simpl;
    [exact Hnd|].
  apply IH. apply set_add_NoDup. exact Hnd.
Qed.

Lemma set_of_list_In (l : list K) y : In y (set_of_list l) <-> In y l.
Proof.
  change (set_of_list l) with (set_union [] l). rewrite set_union_In.
  simpl. split; [intros [[]|Hy]; exact Hy|auto].
Qed.

Lemma set_of_list_NoDup (l : list K) : NoDup (set_of_list l).
Proof.
  change (set_of_list l) with (set_union [] l).
  apply set_union_NoDup. constructor.
Qed.
End DictFacts.

(* ================================================================== *)
(** * NameData: totals and gender score *)

Lemma gender_score_zero nd :
  total_count nd == 0 -> gender_score nd = 0.
Proof.
  intro Hz. unfold gender_score.
  apply Qeq_bool_iff in Hz. rewrite Hz. reflexivity.
Qed.

Lemma gender_score_ratio nd :
  ~ total_count nd == 0 ->
  gender_score nd = (girls_total nd - boys_total nd) / total_count nd.
Proof.
  intro Hnz. unfold gender_score.
  destruct (Qeq_bool (total_count nd) 0) eqn:E; [|reflexivity].
  apply Qeq_bool_iff in E. contradiction.
Qed.

Lemma gender_score_range nd :
  0 <= boys_total nd -> 0 <= girls_total nd ->
  -1 <= gender_score nd <= 1.
Proof.
  intros Hb Hg. unfold gender_score.
  destruct (Qeq_bool (total_count nd) 0) eqn:E.
  - split; discriminate.
  - apply Qeq_bool_neq in E.
    assert (Hpos : 0 < total_count nd).
    { unfold total_count in *.
      destruct (Qlt_le_dec 0 (boys_total nd + girls_total nd)) as [Hlt|Hle];
        [exact Hlt|].
      exfalso. apply E. apply Qle_antisym; [exact Hle|].
      rewrite <- (Qplus_0_l 0). apply Qplus_le_compat; assumption. }
    split.
    + apply Qle_shift_div_l; [exact Hpos|]. unfold total_count. lra.
    + apply Qle_shift_div_r; [exact Hpos|]. unfold total_count. lra.
Qed.

(** C1. For every NameData, [total_count] is [boys_total + girls_total];
    [gender_score] is [(girls_total - boys_total) / total_count] when
    [total_count > 0] and exactly 0 when [total_count == 0]; with both totals
    non-negative it lies in [-1, 1]. *)
Theorem gender_score_spec (nd : NameData) :
  total_count nd = boys_total nd + girls_total nd /\
  (0 < total_count nd ->
   gender_score nd = (girls_total nd - boys_total nd) / total_count nd) /\
  (total_count nd == 0 -> gender_score nd = 0) /\
  (0 <= boys_total nd -> 0 <= girls_total nd ->
   -1 <= gender_score nd <= 1).
Proof.
  split; [reflexivity|]. split; [|split].
  - intro Hpos. apply gender_score_ratio. intro Hz.
    rewrite Hz in Hpos. exact (Qlt_irrefl _ Hpos).
  - apply gender_score_zero.
  - apply gender_score_range.
Qed.

Lemma gender_score_spec_witness :
  (0 < total_count (entity "Kit" 11 9) /\
   gender_score (entity "Kit" 11 9) = (9 - 11) / total_count (entity "Kit" 11 9)) /\
  (total_count (entity "Nil" 0 0) == 0 /\ gender_score (entity "Nil" 0 0) = 0) /\
  (0 <= 11 /\ 0 <= 9 /\ -1 <= gender_score (entity "Kit" 11 9) <= 1).
Proof.
  pose proof (gender_score_spec (entity "Kit" 11 9)) as [_ [Hr [_ Hb]]].
  pose proof (gender_score_spec (entity "Nil" 0 0)) as [_ [_ [Hz _]]].
  assert (Hpos : 0 < total_count (entity "Kit" 11 9)) by reflexivity.
  assert (Hnil : total_count (entity "Nil" 0 0) == 0) by reflexivity.
  assert (H11 : 0 <= 11) by discriminate.
  assert (H9 : 0 <= 9) by discriminate.
  split; [split; [exact Hpos|exact (Hr Hpos)]|].
  split; [split; [exact Hnil|exact (Hz Hnil)]|].
  split; [exact H11|]. split; [exact H9|exact (Hb H11 H9)].
Defined.

(* ================================================================== *)
(** * find_closest_to_score *)

(** Sorting decorated elements by their decoration is sorting the elements
    by the decorating function. *)
Lemma sorted_decorate {A K : Type} `{PyOrd K} (f : A -> K) (rev : bool)
      (l : list A) :
  sorted snd rev (map (fun x => (x, f x)) l)
  = map (fun x => (x, f x)) (sorted f rev l).
Proof.
  induction l as [|x l IH]; [reflexivity|].
  simpl. rewrite IH. clear IH.
  induction (sorted f rev l) as [|y s IHs]; [reflexivity|].
  simpl. unfold precedes. simpl.
  destruct (if rev then py_lt (f x) (f y) else py_lt (f y) (f x));
    [|reflexivity].
  simpl. f_equal. exact IHs.
Qed.

Lemma map_fst_decorate {A K : Type} (f : A -> K) (l : list A) :
  map fst (map (fun x => (x, f x)) l) = l.
Proof. rewrite map_map. simpl. apply map_id. Qed.

Lemma ties_Qeq_bool {A : Type} (f : A -> Q) (d : Q) (x : A) :
  ties f d x = Qeq_bool (f x) d.
Proof.
  unfold ties. simpl.
  destruct (Qeq_bool (f x) d) eqn:E.
  - apply Qeq_bool_iff in E. apply andb_true_iff.
    rewrite !negb_true_iff. split; apply Qltb_ge; rewrite E; apply Qle_refl.
  - apply Qeq_bool_neq in E. apply andb_false_iff.
    rewrite !negb_false_iff.
    destruct (Q_dec (f x) d) as [[Hlt|Hgt]|Heq]; [| |contradiction].
    + left. apply Qltb_lt. exact Hlt.
    + right. apply Qltb_lt. exact Hgt.
Qed.

#[export] Instance Qltb_comp : Proper (Qeq ==> Qeq ==> eq) Qltb.
Proof.
  intros a a' Ha b b' Hb. unfold Qltb. rewrite Ha, Hb. reflexivity.
Qed.

(** The slice [scored[:n]] as a prefix of the sorted entities: [n] of them
    for [n >= 0], all but the last [-n] for a negative [n]. *)
Lemma find_closest_to_score_prefix names target n :
  find_closest_to_score names target n
  = firstn (if (0 <=? n)%Z then Z.to_nat n
            else List.length names - Z.to_nat (- n))
           (sorted (fun nd => Qabs (gender_score nd - target)) false names).
Proof.
  unfold find_closest_to_score, slice_to.
  rewrite sorted_decorate, length_map, sorted_length.
  destruct (0 <=? n)%Z eqn:E; rewrite <- firstn_map, map_fst_decorate;
    [reflexivity|].
  apply Z.leb_gt in E. f_equal. lia.
Qed.

(** C4 (as the code has it). [find_closest_to_score] sorts the input stably
    by ascending distance to the target: the sorted list is a permutation
    of the input, distances never decrease along it, and entities at equal
    distance keep their input order (as sublists, and pair by pair).  Of
    that list it returns the first [n] entities when [n >= 0], and all but
    the last [-n] when [n] is negative.  Entities scored
    -0.9, -0.1, 0.05, 0.2, 0.95 give, for target 0 and n = 3, the entities
    scored 0.05, -0.1, 0.2 in that order. *)
Theorem find_closest_to_score_spec
        (names : list NameData) (target : Q) (n : Z) :
  let dist := fun nd => Qabs (gender_score nd - target) in
  let ranked := sorted dist false names in
  ((0 <= n)%Z ->
   find_closest_to_score names target n = firstn (Z.to_nat n) ranked) /\
  ((n < 0)%Z ->
   find_closest_to_score names target n
   = firstn (List.length names - Z.to_nat (- n)) ranked) /\
  Permutation ranked names /\
  StronglySorted (fun a b => dist a <= dist b) ranked /\
  (forall d, filter (fun nd => Qeq_bool (dist nd) d) ranked
             = filter (fun nd => Qeq_bool (dist nd) d) names) /\
  (forall a b, before a b names -> dist a == dist b -> before a b ranked) /\
  (forall e1 e2 e3 e4 e5,
      gender_score e1 == -0.9 -> gender_score e2 == -0.1 ->
      gender_score e3 == 0.05 -> gender_score e4 == 0.2 ->
      gender_score e5 == 0.95 ->
      find_closest_to_score [e1; e2; e3; e4; e5] 0 3 = [e3; e2; e4]).
Proof.
  intros dist ranked. split; [|split; [|split; [|split; [|split; [|split]]]]].
  - intro Hn. rewrite find_closest_to_score_prefix.
    apply Z.leb_le in Hn. rewrite Hn. reflexivity.
  - intro Hn. rewrite find_closest_to_score_prefix.
    apply Z.leb_gt in Hn. rewrite Hn. reflexivity.
  - apply sorted_perm.
  - eapply StronglySorted_weaken; [|apply (sorted_in_order dist false)].
    intros a b Hab. apply Qltb_ge. exact Hab.
  - intro d.
    rewrite <- (filter_ext _ _ (ties_Qeq_bool dist d) ranked).
    rewrite <- (filter_ext _ _ (ties_Qeq_bool dist d) names).
    apply sorted_stable.
  - intros a b Hab Heq. apply sorted_before; [exact Hab|].
    unfold precedes. simpl. apply Qltb_ge. rewrite Heq. apply Qle_refl.
  - intros e1 e2 e3 e4 e5 H1 H2 H3 H4 H5.
    rewrite find_closest_to_score_prefix.
    change (if (0 <=? 3)%Z then Z.to_nat 3
            else (List.length [e1; e2; e3; e4; e5] - Z.to_nat (- (3)))%nat)
      with 3%nat.
    set (d := fun nd => Qabs (gender_score nd - 0)).
    assert (D1 : d e1 == 0.9) by (unfold d; rewrite H1; reflexivity).
    assert (D2 : d e2 == 0.1) by (unfold d; rewrite H2; reflexivity).
    assert (D3 : d e3 == 0.05) by (unfold d; rewrite H3; reflexivity).
    assert (D4 : d e4 == 0.2) by (unfold d; rewrite H4; reflexivity).
    assert (D5 : d e5 == 0.95) by (unfold d; rewrite H5; reflexivity).
    assert (L54 : Qltb (d e5) (d e4) = false) by (rewrite D5, D4; reflexivity).
    assert (L43 : Qltb (d e4) (d e3) = false) by (rewrite D4, D3; reflexivity).
    assert (L32 : Qltb (d e3) (d e2) = true) by (rewrite D3, D2; reflexivity).
    assert (L42 : Qltb (d e4) (d e2) = false) by (rewrite D4, D2; reflexivity).
    assert (L31 : Qltb (d e3) (d e1) = true) by (rewrite D3, D1; reflexivity).
    assert (L21 : Qltb (d e2) (d e1) = true) by (rewrite D2, D1; reflexivity).
    assert (L41 : Qltb (d e4) (d e1) = true) by (rewrite D4, D1; reflexivity).
    assert (L51 : Qltb (d e5) (d e1) = false) by (rewrite D5, D1; reflexivity).
    clearbody d.
    unfold sorted, fold_right.
    cbn [sort_insert precedes py_lt PyOrd_Q]. rewrite L54.
    cbn [sort_insert precedes py_lt PyOrd_Q]. rewrite L43.
    cbn [sort_insert precedes py_lt PyOrd_Q]. rewrite L32, L42.
    cbn [sort_insert precedes py_lt PyOrd_Q]. rewrite L31, L21, L41, L51.
    reflexivity.
Qed.

Lemma find_closest_to_score_spec_witness :
  (0 <= 3)%Z /\ (-1 < 0)%Z /\
  find_closest_to_score sample_scored 0 3
  = [entity "Sky" 19 21; entity "Kit" 11 9; entity "Remy" 4 6] /\
  find_closest_to_score sample_scored 0 (-1)
  = [entity "Sky" 19 21; entity "Kit" 11 9; entity "Remy" 4 6;
     entity "Ash" 19 1].
Proof.
  assert (H3 : (0 <= 3)%Z) by lia.
  assert (H1 : (-1 < 0)%Z) by lia.
  split; [exact H3|]. split; [exact H1|].
  destruct (find_closest_to_score_spec sample_scored 0 3)
    as [_ [_ [_ [_ [_ [_ Hex]]]]]].
  destruct (find_closest_to_score_spec sample_scored 0 (-1))
    as [_ [Hneg _]].
  split; [apply Hex; reflexivity|].
  rewrite (Hneg H1). reflexivity.
Defined.

(** C4 as stated fails for a negative [n], which [nearest] hands over
    unchecked: the result is not the first [n] entities (there are none to
    take) but all the sorted entities except the last [-n]. *)
Lemma find_closest_to_score_negative_n :
  first_n_closest sample_scored 0 (-1) = [] /\
  find_closest_to_score sample_scored 0 (-1)
  = [entity "Sky" 19 21; entity "Kit" 11 9; entity "Remy" 4 6;
     entity "Ash" 19 1] /\
  find_closest_to_score sample_scored 0 (-1)
  <> first_n_closest sample_scored 0 (-1) /\
  match nearest (load sample_boys sample_girls) 0 (-1) 1000 with
  | Returned _ [ConsoleTable _ table] =>
      map (fun row => name (fst row)) table
      = ["Sky"; "Kit"; "Remy"; "Ash"; "Zoe"]%string
  | _ => False
  end.
Proof.
  split; [reflexivity|]. split; [reflexivity|]. split; [discriminate|].
  reflexivity.
Qed.

(* ================================================================== *)
(** * The [nearest] command *)

(** C5. A target outside [-1, 1] is rejected by [nearest] before anything
    is computed over the entities: whatever the dataset, [n] and [top], the
    command prints the message naming the parameter and its range and exits
    with code 1, the dataset (and its rank cache) untouched. *)
Theorem nearest_rejects_out_of_range
        (dataset : NamesDataset) (target : Q) (n top : Z) :
  target < -1 \/ 1 < target ->
  nearest dataset target n top
  = SystemExit dataset
      [ConsolePrint "[red]Error: target must be between -1.0 and 1.0[/red]"] 1.
Proof.
  intro Hout. unfold nearest.
  assert (Hfalse : Qle_bool (-1) target && Qle_bool target 1 = false).
  { apply andb_false_iff. destruct Hout as [Hlo|Hhi]; [left|right].
    - destruct (Qle_bool (-1) target) eqn:E; [|reflexivity].
      apply Qle_bool_iff in E. exfalso. exact (Qlt_not_le _ _ Hlo E).
    - destruct (Qle_bool target 1) eqn:E; [|reflexivity].
      apply Qle_bool_iff in E. exfalso. exact (Qlt_not_le _ _ Hhi E). }
  rewrite Hfalse. reflexivity.
Qed.

Lemma nearest_rejects_out_of_range_witness :
  (2 < -1 \/ 1 < 2) /\
  nearest (load sample_boys sample_girls) 2 25 1000
  = SystemExit (load sample_boys sample_girls)
      [ConsolePrint "[red]Error: target must be between -1.0 and 1.0[/red]"] 1.
Proof.
  assert (Hout : 2 < -1 \/ 1 < 2) by (right; reflexivity).
  split; [exact Hout|].
  exact (nearest_rejects_out_of_range
           (load sample_boys sample_girls) 2 25 1000 Hout).
Defined.

(* ================================================================== *)
(** * load_yearly_data *)

Lemma load_yearly_data_loaded sort_values ds boys_file girls_file :
  _yearly_loaded (load_yearly_data sort_values ds boys_file girls_file) = true.
Proof.
  unfold load_yearly_data.
  destruct (_yearly_loaded ds) eqn:E; [exact E|reflexivity].
Qed.

Lemma load_yearly_data_noop sort_values ds boys_file girls_file :
  _yearly_loaded ds = true ->
  load_yearly_data sort_values ds boys_file girls_file = ds.
Proof. intro Hl. unfold load_yearly_data. rewrite Hl. reflexivity. Qed.

(** C6. [load_yearly_data] is idempotent: once it has run, the dataset is
    marked as loaded and a second call, with any sources, returns the
    dataset unchanged (names, totals, yearly sequences, rank cache),
    whatever the sort of pandas does. *)
Theorem load_yearly_data_idempotent
        (sort_values : list LongRow -> list LongRow)
        (ds : NamesDataset) (boys1 girls1 boys2 girls2 : Table) :
  _yearly_loaded (load_yearly_data sort_values ds boys1 girls1) = true /\
  load_yearly_data sort_values
                   (load_yearly_data sort_values ds boys1 girls1) boys2 girls2
  = load_yearly_data sort_values ds boys1 girls1.
Proof.
  split; [apply load_yearly_data_loaded|].
  apply load_yearly_data_noop, load_yearly_data_loaded.
Qed.

(* ================================================================== *)
(** * Time series and yearly gender scores *)

Lemma dict_get_find {V : Type} (d : dict Z V) (y : Z) :
  dict_get d y = option_map snd (find (fun p => (fst p =? y)%Z) d).
Proof.
  induction d as [|[y' v] d IH]; simpl; [reflexivity|].
  destruct (y' =? y)%Z; [reflexivity|exact IH].
Qed.

Lemma by_year_value (l : list YearlyCount) (y : Z) :
  dict_get_default (by_year l) y 0 = value_at (series_of l) y.
Proof.
  unfold dict_get_default, by_year, value_at, series_of.
  rewrite dict_of_pairs_get, dict_get_find.
  destruct (find _ _); reflexivity.
Qed.

Lemma value_at_unique (series : list (Z * Q)) (y : Z) (v : Q) :
  NoDup (map fst series) -> In (y, v) series -> value_at series y = v.
Proof.
  intros Hnd Hin.
  pose proof (dict_of_pairs_get_In series y v Hnd Hin) as Hget.
  rewrite dict_of_pairs_get, dict_get_find in Hget.
  unfold value_at. destruct (find _ _) as [p|]; simpl in Hget; congruence.
Qed.

Lemma StronglySorted_filter {A : Type} (R : A -> A -> Prop) (p : A -> bool)
      (l : list A) :
  StronglySorted R l -> StronglySorted R (filter p l).
Proof.
  induction 1 as [|x l Hs IH Hall]; simpl; [constructor|].
  destruct (p x); [|exact IH].
  constructor; [exact IH|].
  rewrite Forall_forall in *. intros y Hy.
  apply filter_In in Hy. apply Hall. tauto.
Qed.

Lemma flat_map_if {A B : Type} (p : A -> bool) (f : A -> B) (l : list A) :
  flat_map (fun x => if p x then [f x] else []) l = map f (filter p l).
Proof.
  induction l as [|x l IH]; simpl; [reflexivity|].
  destruct (p x); simpl; rewrite IH; reflexivity.
Qed.

(** The years of two yearly sequences, as both functions compute them. *)
Local Abbreviation all_years b g :=
  (sorted (fun y : Z => y) false
          (set_union (set_of_list (dict_keys (by_year b)))
                     (set_of_list (dict_keys (by_year g))))).

Lemma all_years_In (b g : list YearlyCount) (y : Z) :
  In y (all_years b g)
  <-> In y (map fst (series_of b)) \/ In y (map fst (series_of g)).
Proof.
  rewrite sorted_In, set_union_In, !set_of_list_In.
  unfold by_year. rewrite !dict_of_pairs_keys_In. reflexivity.
Qed.

Lemma all_years_ascending (b g : list YearlyCount) :
  StronglySorted Z.lt (all_years b g).
Proof.
  eapply StronglySorted_weaken;
    [|apply (sorted_increasing Z_ltb_total);
      apply set_union_NoDup, set_of_list_NoDup].
  intros x y Hxy. apply Z.ltb_lt. exact Hxy.
Qed.

Lemma get_time_series_boys nd :
  has_yearly_data nd = true ->
  get_time_series nd Boys = series_of (or_empty (boys_yearly nd)).
Proof. intro Hy. unfold get_time_series. rewrite Hy. reflexivity. Qed.

Lemma get_time_series_girls nd :
  has_yearly_data nd = true ->
  get_time_series nd Girls = series_of (or_empty (girls_yearly nd)).
Proof. intro Hy. unfold get_time_series. rewrite Hy. reflexivity. Qed.

Lemma get_time_series_combined nd :
  has_yearly_data nd = true ->
  get_time_series nd Combined
  = map (fun y => (y, value_at (series_of (or_empty (boys_yearly nd))) y
                      + value_at (series_of (or_empty (girls_yearly nd))) y))
        (all_years (or_empty (boys_yearly nd)) (or_empty (girls_yearly nd))).
Proof.
  intro Hy. unfold get_time_series. rewrite Hy. simpl.
  apply map_ext. intro y. rewrite !by_year_value. reflexivity.
Qed.

Lemma value_at_absent (series : list (Z * Q)) (y : Z) :
  ~ In y (map fst series) -> value_at series y = 0.
Proof.
  intro Hnot. unfold value_at.
  destruct (find (fun p => (fst p =? y)%Z) (rev series)) as [p|] eqn:E;
    [|reflexivity].
  exfalso. apply find_some in E. destruct E as [Hin Hy].
  apply Z.eqb_eq in Hy. apply Hnot. rewrite <- Hy.
  apply in_map, in_rev. exact Hin.
Qed.

Lemma has_yearly_data_present nd :
  boys_yearly nd <> None \/ girls_yearly nd <> None ->
  has_yearly_data nd = true.
Proof.
  unfold has_yearly_data.
  destruct (boys_yearly nd), (girls_yearly nd); simpl; tauto.
Qed.

(** C9. For an entity with yearly data, that is, with a boys or a girls
    sequence, the boys series and the girls series are the stored
    sequences (the empty series for an absent one), and the combined time
    series lists, in ascending order, exactly the years of the boys
    sequence or of the girls sequence, each with the sum of the value of
    the boys series and of the girls series for that year.  The value of a
    series for a year is 0 when the sequence has no entry for the year,
    and the count of its entry when it has one entry per year. *)
Theorem combined_time_series_spec (nd : NameData) :
  boys_yearly nd <> None \/ girls_yearly nd <> None ->
  let boys_seq := or_empty (boys_yearly nd) in
  let girls_seq := or_empty (girls_yearly nd) in
  let boys := get_time_series nd Boys in
  let girls := get_time_series nd Girls in
  let combined := get_time_series nd Combined in
  boys = series_of boys_seq /\
  girls = series_of girls_seq /\
  StronglySorted Z.lt (map fst combined) /\
  (forall y, In y (map fst combined)
             <-> In y (map year boys_seq) \/ In y (map year girls_seq)) /\
  combined
  = map (fun y => (y, value_at boys y + value_at girls y)) (map fst combined) /\
  (forall y, ~ In y (map year boys_seq) -> value_at boys y = 0) /\
  (forall y, ~ In y (map year girls_seq) -> value_at girls y = 0) /\
  (forall yc, NoDup (map year boys_seq) -> In yc boys_seq ->
              value_at boys (year yc) = count yc) /\
  (forall yc, NoDup (map year girls_seq) -> In yc girls_seq ->
              value_at girls (year yc) = count yc).
Proof.
  intros Hdata boys_seq girls_seq boys girls combined.
  pose proof (has_yearly_data_present nd Hdata) as Hy.
  assert (Hyears : forall l, map fst (series_of l) = map year l).
  { intro l. unfold series_of. rewrite map_map. reflexivity. }
  assert (Hzero : forall l y, ~ In y (map year l) ->
                     value_at (series_of l) y = 0).
  { intros l y Hnot. apply value_at_absent. rewrite Hyears. exact Hnot. }
  assert (Hval : forall l yc, NoDup (map year l) -> In yc l ->
                   value_at (series_of l) (year yc) = count yc).
  { intros l yc Hnd Hin. apply value_at_unique.
    - rewrite Hyears. exact Hnd.
    - unfold series_of.
      apply (in_map (fun yc => (year yc, count yc))). exact Hin. }
  subst boys girls combined.
  rewrite get_time_series_boys, get_time_series_girls,
    get_time_series_combined by exact Hy.
  fold boys_seq girls_seq.
  rewrite map_map. simpl. rewrite map_id.
  split; [reflexivity|]. split; [reflexivity|].
  split; [apply all_years_ascending|].
  split; [intro y; rewrite all_years_In, !Hyears; reflexivity|].
  split; [reflexivity|].
  split; [apply Hzero|]. split; [apply Hzero|]. split; apply Hval.
Qed.

Lemma combined_time_series_spec_witness :
  (boys_yearly boys_only <> None \/ girls_yearly boys_only <> None) /\
  get_time_series boys_only Boys = [(1996%Z, 30); (1997%Z, 1)] /\
  get_time_series boys_only Girls = [] /\
  get_time_series boys_only Combined = [(1996%Z, 30 + 0); (1997%Z, 1 + 0)] /\
  (boys_yearly with_zero_year <> None \/ girls_yearly with_zero_year <> None) /\
  map fst (get_time_series with_zero_year Combined)
  = [1996; 1997; 1998]%Z /\
  value_at (get_time_series with_zero_year Boys) 1997 = 3 /\
  value_at (get_time_series with_zero_year Boys) 1998 = 0 /\
  get_time_series with_zero_year Combined
  = map (fun y => (y, value_at (get_time_series with_zero_year Boys) y
                      + value_at (get_time_series with_zero_year Girls) y))
        [1996; 1997; 1998]%Z.
Proof.
  assert (Hb : boys_yearly boys_only <> None \/ girls_yearly boys_only <> None)
    by (left; discriminate).
  assert (Hz : boys_yearly with_zero_year <> None
               \/ girls_yearly with_zero_year <> None)
    by (left; discriminate).
  destruct (combined_time_series_spec boys_only Hb)
    as [Hboys [Hgirls [_ [_ [Hsum _]]]]].
  destruct (combined_time_series_spec with_zero_year Hz)
    as [_ [_ [_ [_ [Hsum' [Hzero [_ [Hval _]]]]]]]].
  split; [exact Hb|]. split; [exact Hboys|]. split; [exact Hgirls|].
  split; [rewrite Hsum, Hboys, Hgirls; reflexivity|].
  split; [exact Hz|]. split; [reflexivity|].
  split.
  { apply (Hval {| year := 1997; count := 3 |}).
    - simpl. repeat constructor; simpl; intuition discriminate.
    - right. left. reflexivity. }
  split; [|exact Hsum'].
  apply Hzero. simpl. intuition discriminate.
Defined.

Lemma calculate_yearly_gender_scores_falsy nd :
  falsy (boys_yearly nd) = true \/ falsy (girls_yearly nd) = true ->
  calculate_yearly_gender_scores nd = [].
Proof.
  intros [Hf|Hf]; unfold calculate_yearly_gender_scores; rewrite Hf;
    [|rewrite orb_true_r]; reflexivity.
Qed.

Lemma calculate_yearly_gender_scores_eq nd b g :
  boys_yearly nd = Some b -> girls_yearly nd = Some g ->
  b <> [] -> g <> [] ->
  calculate_yearly_gender_scores nd
  = map (fun y => (y, (value_at (series_of g) y - value_at (series_of b) y)
                      / (value_at (series_of b) y + value_at (series_of g) y)))
        (filter (fun y => Qltb 0 (value_at (series_of b) y
                                  + value_at (series_of g) y))
                (all_years b g)).
Proof.
  intros Hb Hg Hbne Hgne. unfold calculate_yearly_gender_scores.
  rewrite Hb, Hg.
  destruct b as [|b0 b]; [contradiction|].
  destruct g as [|g0 g]; [contradiction|].
  cbn [falsy orb or_empty].
  rewrite <- flat_map_if. apply flat_map_ext. intro y.
  cbv zeta. rewrite !by_year_value. reflexivity.
Qed.

(** C3 (as the code has it). [calculate_yearly_gender_scores] returns the
    empty sequence whenever the boys or the girls yearly sequence is absent
    or empty.  With both sequences non-empty it lists, in ascending order of
    year, exactly the years of either sequence whose combined count is
    positive, each with (girls - boys) / (boys + girls) of that year (0 for
    a sequence without the year); a year whose combined count is 0 is left
    out. *)
Theorem yearly_gender_scores_spec (nd : NameData) :
  let scores := calculate_yearly_gender_scores nd in
  (boys_yearly nd = None \/ boys_yearly nd = Some [] \/
   girls_yearly nd = None \/ girls_yearly nd = Some [] -> scores = []) /\
  (forall b g,
      boys_yearly nd = Some b -> girls_yearly nd = Some g ->
      b <> [] -> g <> [] ->
      let boys := series_of b in
      let girls := series_of g in
      StronglySorted Z.lt (map fst scores) /\
      forall y s,
        In (y, s) scores <->
        (In y (map fst boys) \/ In y (map fst girls)) /\
        0 < value_at boys y + value_at girls y /\
        s = (value_at girls y - value_at boys y)
            / (value_at boys y + value_at girls y)).
Proof.
  intro scores. split.
  - intro Hcase. apply calculate_yearly_gender_scores_falsy.
    destruct Hcase as [E|[E|[E|E]]]; rewrite E; auto.
  - intros b g Hb Hg Hbne Hgne boys girls. subst scores.
    rewrite (calculate_yearly_gender_scores_eq nd b g Hb Hg Hbne Hgne).
    fold boys girls. split.
    + rewrite map_map. simpl. rewrite map_id.
      apply StronglySorted_filter, all_years_ascending.
    + intros y s. rewrite in_map_iff. split.
      * intros [y' [Heq Hin]]. injection Heq as -> <-.
        apply filter_In in Hin. destruct Hin as [Hin Hpos].
        apply all_years_In in Hin. apply Qltb_lt in Hpos. auto.
      * intros [Hin [Hpos ->]]. exists y. split; [reflexivity|].
        apply filter_In. split; [apply all_years_In; exact Hin|].
        apply Qltb_lt. exact Hpos.
Qed.

Lemma yearly_gender_scores_spec_witness :
  (boys_yearly girls_only = None \/ boys_yearly girls_only = Some [] \/
   girls_yearly girls_only = None \/ girls_yearly girls_only = Some []) /\
  calculate_yearly_gender_scores girls_only = [] /\
  StronglySorted Z.lt
    (map fst (calculate_yearly_gender_scores with_zero_year)) /\
  ~ In 1996%Z (map fst (calculate_yearly_gender_scores with_zero_year)) /\
  In (1997%Z, (0 - 3) / (3 + 0))
     (calculate_yearly_gender_scores with_zero_year).
Proof.
  assert (Hcase : boys_yearly girls_only = None \/
                  boys_yearly girls_only = Some [] \/
                  girls_yearly girls_only = None \/
                  girls_yearly girls_only = Some [])
    by (right; left; reflexivity).
  split; [exact Hcase|].
  split; [exact (proj1 (yearly_gender_scores_spec girls_only) Hcase)|].
  destruct (proj2 (yearly_gender_scores_spec with_zero_year)
              [ {| year := 1996; count := 0 |}; {| year := 1997; count := 3 |} ]
              [ {| year := 1996; count := 0 |}; {| year := 1998; count := 1 |} ]
              eq_refl eq_refl ltac:(discriminate) ltac:(discriminate))
    as [Hsorted Hmem].
  split; [exact Hsorted|]. split.
  - intro Hin. apply in_map_iff in Hin. destruct Hin as [[y s] [Hy Hin]].
    simpl in Hy. subst y. apply Hmem in Hin.
    destruct Hin as [_ [Hpos _]]. vm_compute in Hpos. discriminate.
  - apply Hmem. split; [left; right; left; reflexivity|].
    split; reflexivity.
Defined.

(** C3 as stated fails: with the boys sequence present but empty and one
    girls entry, neither sequence is absent, yet the result is empty and
    differs from what the claimed reading gives for the year 2000.  The
    result is empty, too, for an entity whose sequences are both present
    with zero counts only. *)
Lemma yearly_gender_scores_claim_fails :
  boys_yearly girls_only <> None /\
  girls_yearly girls_only <> None /\
  calculate_yearly_gender_scores girls_only = [] /\
  map fst (yearly_gender_scores_claimed girls_only) = [2000%Z] /\
  ~ (calculate_yearly_gender_scores girls_only = []
     <-> boys_yearly girls_only = None \/ girls_yearly girls_only = None) /\
  ~ (calculate_yearly_gender_scores zero_year_only = []
     <-> boys_yearly zero_year_only = None
         \/ girls_yearly zero_year_only = None).
Proof.
  split; [discriminate|]. split; [discriminate|].
  split; [reflexivity|]. split; [reflexivity|].
  split; intros [Hto _]; destruct (Hto eq_refl); discriminate.
Qed.

(* ================================================================== *)
(** * load *)

(** The entity [load] builds for a raw name. *)
Local Abbreviation loaded_entity boys_dict girls_dict :=
  (fun n : string =>
     {| name := n;
        boys_total := dict_get_default boys_dict n 0;
        girls_total := dict_get_default girls_dict n 0;
        boys_yearly := None;
        girls_yearly := None |}).

(** The sorted union of the names of both sources. *)
Local Abbreviation all_names boys_file girls_file :=
  (sorted (fun n : string => n) false
     (set_union
        (set_of_list (dict_keys (dict_of_pairs (_load_aggregated boys_file))))
        (set_of_list (dict_keys (dict_of_pairs (_load_aggregated girls_file)))))).

Lemma fold_names_dict {X : Type} (kf : X -> string) (vf : X -> NameData)
      (l : list X) : forall ds,
  fold_left
    (fun dataset x =>
       {| _names := dict_set (_names dataset) (kf x) (vf x);
          _yearly_loaded := _yearly_loaded dataset;
          _ranks_cache := _ranks_cache dataset |}) l ds
  = {| _names := fold_left (fun d kv => dict_set d (fst kv) (snd kv))
                           (map (fun x => (kf x, vf x)) l) (_names ds);
       _yearly_loaded := _yearly_loaded ds;
       _ranks_cache := _ranks_cache ds |}.
Proof.
  induction l as [|x l IH]; intro ds; simpl.
  - destruct ds; reflexivity.
  - rewrite IH. reflexivity.
Qed.

Lemma load_eq boys_file girls_file :
  load boys_file girls_file
  = {| _names :=
         dict_of_pairs
           (map (fun n =>
                   (lower n,
                    loaded_entity (dict_of_pairs (_load_aggregated boys_file))
                                  (dict_of_pairs (_load_aggregated girls_file))
                                  n))
                (all_names boys_file girls_file));
       _yearly_loaded := false;
       _ranks_cache := None |}.
Proof. unfold load. rewrite fold_names_dict. reflexivity. Qed.

Lemma all_names_In boys_file girls_file n :
  In n (all_names boys_file girls_file)
  <-> In n (map fst (_load_aggregated boys_file))
      \/ In n (map fst (_load_aggregated girls_file)).
Proof.
  rewrite sorted_In, set_union_In, !set_of_list_In.
  rewrite !dict_of_pairs_keys_In. reflexivity.
Qed.

Lemma all_names_increasing boys_file girls_file :
  StronglySorted increasing (all_names boys_file girls_file).
Proof.
  apply (sorted_increasing string_lt_total).
  apply set_union_NoDup, set_of_list_NoDup.
Qed.

(** Written through a key function over an increasing list, a dictionary
    keeps for each key the value of the greatest element with that key. *)
Lemma last_writer_greatest {V : Type} (kf : string -> string)
      (vf : string -> V) (l : list string) :
  StronglySorted increasing l ->
  forall k v,
    dict_get (rev (map (fun n => (kf n, vf n)) l)) k = Some v ->
    exists n, In n l /\ kf n = k /\ v = vf n /\
              forall n', In n' l -> kf n' = k -> String.ltb n n' = false.
Proof.
  induction 1 as [|a l Hs IH Hall]; intros k v; simpl; [discriminate|].
  rewrite dict_get_app.
  destruct (dict_get (rev (map (fun n => (kf n, vf n)) l)) k) as [v'|] eqn:E.
  - intros [= <-]. destruct (IH k v' E) as [n [Hin [Hk [Hv Hmax]]]].
    exists n. split; [right; exact Hin|]. split; [exact Hk|].
    split; [exact Hv|]. intros n' [<-|Hin'] Hk'.
    + rewrite Forall_forall in Hall. specialize (Hall n Hin).
      exact (precedes_asym (fun x : string => x) false a n Hall).
    + apply Hmax; assumption.
  - simpl. destruct (String.eqb (kf a) k) eqn:Ek; [|discriminate].
    apply String.eqb_eq in Ek. intros [= <-].
    exists a. split; [left; reflexivity|]. split; [exact Ek|].
    split; [reflexivity|]. intros n' [<-|Hin'] Hk'.
    + exact (py_lt_irrefl (K := string) a).
    + exfalso. apply dict_get_None in E. apply E.
      unfold dict_keys. rewrite map_rev, map_map. simpl.
      apply -> in_rev. rewrite <- Hk'. apply in_map. exact Hin'.
Qed.

Lemma dict_get_default_rev (l : list (string * Q)) (n : string) :
  dict_get_default (dict_of_pairs l) n 0 = dict_get_default (rev l) n 0.
Proof. unfold dict_get_default. rewrite dict_of_pairs_get. reflexivity. Qed.

Lemma dict_get_default_absent (l : list (string * Q)) (n : string) :
  ~ In n (map fst l) -> dict_get_default (rev l) n 0 = 0.
Proof.
  intro Hn. unfold dict_get_default.
  destruct (dict_get (rev l) n) as [t|] eqn:E; [|reflexivity].
  exfalso. apply Hn. apply dict_get_Some_In in E.
  apply in_rev in E. apply (in_map fst) in E. exact E.
Qed.

(** C2 (as the code has it). [load] totals each source per row, takes the
    union of the raw names, and stores one entity per raw name under its
    lower-cased form, in sorted order.  So the catalog has exactly one
    entity per lower-cased name; its key is its lower-cased display name;
    its boys (girls) total is that of the last row of the boys (girls)
    source with exactly its display name, 0 when that source has none; its
    yearly sequences are absent; and among the raw names sharing its key
    its display name is the greatest in sorted order (the one written
    last). *)
Theorem load_spec (boys_file girls_file : Table) :
  let boys_rows := _load_aggregated boys_file in
  let girls_rows := _load_aggregated girls_file in
  let raw := fun n => In n (map fst boys_rows) \/ In n (map fst girls_rows) in
  let catalog := _names (load boys_file girls_file) in
  NoDup (dict_keys catalog) /\
  (forall k, In k (dict_keys catalog) <-> exists n, raw n /\ lower n = k) /\
  (forall k nd,
      dict_get catalog k = Some nd ->
      raw (name nd) /\ lower (name nd) = k /\
      boys_total nd = dict_get_default (rev boys_rows) (name nd) 0 /\
      girls_total nd = dict_get_default (rev girls_rows) (name nd) 0 /\
      (~ In (name nd) (map fst boys_rows) -> boys_total nd = 0) /\
      (~ In (name nd) (map fst girls_rows) -> girls_total nd = 0) /\
      boys_yearly nd = None /\ girls_yearly nd = None /\
      (forall n, raw n -> lower n = k -> String.ltb (name nd) n = false)).
Proof.
  intros boys_rows girls_rows raw catalog.
  subst catalog. rewrite load_eq. simpl _names.
  split; [apply dict_of_pairs_keys_NoDup|]. split.
  - intro k. rewrite dict_of_pairs_keys_In, map_map. simpl.
    rewrite in_map_iff. split.
    + intros [n [Hk Hin]]. exists n. split; [|exact Hk].
      apply all_names_In. exact Hin.
    + intros [n [Hraw Hk]]. exists n. split; [exact Hk|].
      apply all_names_In. exact Hraw.
  - intros k nd Hget. rewrite dict_of_pairs_get in Hget.
    destruct (last_writer_greatest lower _ _
                (all_names_increasing boys_file girls_file) k nd Hget)
      as [n [Hin [Hk [-> Hmax]]]].
    simpl. rewrite !dict_get_default_rev.
    split; [apply all_names_In; exact Hin|]. split; [exact Hk|].
    split; [reflexivity|]. split; [reflexivity|].
    split; [apply dict_get_default_absent|].
    split; [apply dict_get_default_absent|].
    split; [reflexivity|]. split; [reflexivity|].
    intros n' Hraw Hk'. apply Hmax; [|exact Hk'].
    apply all_names_In. exact Hraw.
Qed.

Lemma load_spec_witness :
  dict_get (_names (load cased_boys empty_table)) "alex"%string
  = Some (entity "alex" 1 0) /\
  lower "alex" = "alex"%string /\
  String.ltb "alex" "Alex" = false.
Proof.
  assert (Hget : dict_get (_names (load cased_boys empty_table)) "alex"%string
                 = Some (entity "alex" 1 0)) by reflexivity.
  split; [exact Hget|].
  destruct (load_spec cased_boys empty_table) as [_ [_ Hent]].
  destruct (Hent "alex"%string (entity "alex" 1 0) Hget)
    as [_ [Hk [_ [_ [_ [_ [_ [_ Hmax]]]]]]]].
  split; [exact Hk|].
  apply Hmax; [left; left; reflexivity|reflexivity].
Defined.

(** C2 as stated fails: the boys' source spells a name "Alex", then "alex";
    the first occurrence is "Alex", the catalog displays "alex" (with the
    total of that row only). *)
Lemma load_first_occurrence_fails :
  first_occurrence cased_boys empty_table "alex" = Some "Alex"%string /\
  get_name (load cased_boys empty_table) "Alex" = Some (entity "alex" 1 0) /\
  option_map name (get_name (load cased_boys empty_table) "Alex")
  <> first_occurrence cased_boys empty_table "alex".
Proof.
  split; [reflexivity|]. split; [reflexivity|]. discriminate.
Qed.

(* ================================================================== *)
(** * Ranks *)

Lemma foldM_total {A S : Type} (f : S -> A -> option S) (g : S -> A -> S)
      (l : list A) :
  (forall s x, In x l -> f s x = Some (g s x)) ->
  forall s, foldM f l s = Some (fold_left g l s).
Proof.
  induction l as [|x l IH]; intros Hf s; simpl; [reflexivity|].
  rewrite Hf by (left; reflexivity). simpl.
  apply IH. intros s' y Hy. apply Hf. right. exact Hy.
Qed.

Lemma mapM_total {A B : Type} (f : A -> option B) (g : A -> B) (l : list A) :
  (forall x, In x l -> f x = Some (g x)) -> mapM f l = Some (map g l).
Proof.
  induction l as [|x l IH]; intro Hf; simpl; [reflexivity|].
  rewrite Hf by (left; reflexivity). simpl.
  rewrite IH; [reflexivity|]. intros y Hy. apply Hf. right. exact Hy.
Qed.

Lemma fold_dict_set_map {X V : Type} (kf : X -> string) (vf : X -> V)
      (l : list X) : forall d,
  fold_left (fun d x => dict_set d (kf x) (vf x)) l d
  = fold_left (fun d kv => dict_set d (fst kv) (snd kv))
              (map (fun x => (kf x, vf x)) l) d.
Proof.
  induction l as [|x l IH]; intro d; simpl; [reflexivity|apply IH].
Qed.

Lemma enumerate_from_names (l : list NameData) : forall start,
  map fst (map (fun rn => (name (snd rn), (fst rn + 1)%Z))
               (enumerate_from start l))
  = map name l.
Proof.
  induction l as [|x l IH]; intro start; simpl; [reflexivity|].
  rewrite IH. reflexivity.
Qed.

Lemma enumerate_from_nth {A : Type} (l : list A) : forall start i x,
  nth_error l i = Some x ->
  In ((start + Z.of_nat i)%Z, x) (enumerate_from start l).
Proof.
  induction l as [|y l IH]; intros start [|i] x; simpl; try discriminate.
  - intros [= ->]. left. f_equal. lia.
  - intro Hn. right.
    replace (start + Z.pos (Pos.of_succ_nat i))%Z
      with (start + 1 + Z.of_nat i)%Z by lia.
    apply IH. exact Hn.
Qed.

Lemma rank_map_keys_In (l : list NameData) (n : string) :
  In n (dict_keys (rank_map l)) <-> In n (map name l).
Proof.
  unfold rank_map, enumerate.
  rewrite dict_of_pairs_keys_In, enumerate_from_names. reflexivity.
Qed.

Lemma rank_map_get (l : list NameData) (i : nat) (nd : NameData) :
  NoDup (map name l) -> nth_error l i = Some nd ->
  dict_get (rank_map l) (name nd) = Some (Z.of_nat i + 1)%Z.
Proof.
  intros Hnd Hn. unfold rank_map, enumerate.
  apply dict_of_pairs_get_In.
  - rewrite enumerate_from_names. exact Hnd.
  - apply in_map_iff. exists (Z.of_nat i, nd). split; [reflexivity|].
    apply (enumerate_from_nth l 0%Z i nd Hn).
Qed.

Lemma rank_map_lookup count (entities : list NameData) (nd : NameData) :
  In nd entities ->
  dict_get (rank_map (sorted count true entities)) (name nd)
  = Some (position_rank count entities nd).
Proof.
  intro Hin. unfold position_rank, dict_get_default.
  destruct (dict_get_In_keys (rank_map (sorted count true entities)) (name nd))
    as [r Hr]; [|rewrite Hr; reflexivity].
  apply rank_map_keys_In, in_map, sorted_In. exact Hin.
Qed.

(** [_compute_ranks] never raises; its cache holds, in catalog order, the
    ranks read back for each entity. *)
Lemma compute_ranks_eq (ds : NamesDataset) :
  _compute_ranks ds
  = Some {| _names := _names ds;
            _yearly_loaded := _yearly_loaded ds;
            _ranks_cache :=
              Some (dict_of_pairs
                      (map (fun nd =>
                              (name nd, ranks_of (dict_values (_names ds)) nd))
                           (dict_values (_names ds)))) |}.
Proof.
  unfold _compute_ranks.
  rewrite (foldM_total _
             (fun cache nd =>
                dict_set cache (name nd)
                         (ranks_of (dict_values (_names ds)) nd))).
  - simpl. do 3 f_equal. apply fold_dict_set_map.
  - intros cache nd Hin.
    rewrite !(rank_map_lookup _ _ _ Hin). reflexivity.
Qed.

Lemma catalog_names_NoDup (ds : NamesDataset) :
  catalog_ok ds -> NoDup (map name (dict_values (_names ds))).
Proof.
  intros [Hnd [Hkeys _]].
  apply (NoDup_map_inv lower).
  replace (map lower (map name (dict_values (_names ds))))
    with (dict_keys (_names ds)); [exact Hnd|].
  unfold dict_keys, dict_values. rewrite !map_map.
  apply map_ext_in. intros item Hin.
  rewrite Forall_forall in Hkeys. apply Hkeys. exact Hin.
Qed.

Lemma compute_ranks_distinct (ds : NamesDataset) :
  NoDup (map name (dict_values (_names ds))) ->
  _compute_ranks ds
  = Some {| _names := _names ds;
            _yearly_loaded := _yearly_loaded ds;
            _ranks_cache :=
              Some (map (fun nd =>
                           (name nd, ranks_of (dict_values (_names ds)) nd))
                        (dict_values (_names ds))) |}.
Proof.
  intro Hnd. rewrite compute_ranks_eq. do 3 f_equal.
  apply dict_of_pairs_distinct. rewrite map_map. exact Hnd.
Qed.

(** ** The invariant of the datasets the program builds *)

Lemma load_catalog_ok boys_file girls_file :
  catalog_ok (load boys_file girls_file).
Proof.
  rewrite load_eq. unfold catalog_ok. simpl.
  split; [apply dict_of_pairs_keys_NoDup|]. split; [|exact I].
  apply Forall_forall. intros [k nd] Hin. simpl.
  apply dict_get_In in Hin; [|apply dict_of_pairs_keys_NoDup].
  rewrite dict_of_pairs_get in Hin.
  apply dict_get_Some_In, in_rev, in_map_iff in Hin.
  destruct Hin as [n [Heq _]]. injection Heq as <- <-. reflexivity.
Qed.

(** Only keys, display names and the cache matter to the invariant. *)
Lemma catalog_ok_same_names ds ds' :
  map (fun item => (fst item, name (snd item))) (_names ds')
  = map (fun item => (fst item, name (snd item))) (_names ds) ->
  _ranks_cache ds' = _ranks_cache ds ->
  catalog_ok ds -> catalog_ok ds'.
Proof.
  intros Hsk Hc [Hnd [Hkeys Hcache]].
  assert (Hfst : forall d : dict string NameData,
             dict_keys d
             = map fst (map (fun item => (fst item, name (snd item))) d))
    by (intro d; rewrite map_map; reflexivity).
  assert (Hsnd : forall d : dict string NameData,
             map name (dict_values d)
             = map snd (map (fun item => (fst item, name (snd item))) d))
    by (intro d; unfold dict_values; rewrite !map_map; reflexivity).
  assert (Hk : dict_keys (_names ds') = dict_keys (_names ds))
    by (rewrite !Hfst, Hsk; reflexivity).
  assert (Hn : map name (dict_values (_names ds'))
               = map name (dict_values (_names ds)))
    by (rewrite !Hsnd, Hsk; reflexivity).
  unfold catalog_ok. rewrite Hk, Hc, Hn.
  split; [exact Hnd|]. split; [|exact Hcache].
  apply (Forall_map (fun item => (fst item, name (snd item)))
                    (fun p => fst p = lower (snd p))).
  rewrite Hsk. apply Forall_map. exact Hkeys.
Qed.

Lemma load_yearly_data_catalog_ok sort_values ds boys_file girls_file :
  catalog_ok ds ->
  catalog_ok (load_yearly_data sort_values ds boys_file girls_file).
Proof.
  unfold load_yearly_data. destruct (_yearly_loaded ds); [tauto|].
  apply catalog_ok_same_names; [|reflexivity].
  simpl. rewrite map_map. apply map_ext. intros [k nd]. simpl.
  destruct (dict_get _ k); destruct (dict_get _ k); reflexivity.
Qed.

Lemma dataset_after_catalog_ok ds :
  catalog_ok ds -> catalog_ok (dataset_after ds).
Proof.
  intros [Hnd [Hkeys Hcache]]. unfold catalog_ok, dataset_after. simpl.
  split; [exact Hnd|]. split; [exact Hkeys|].
  unfold ranks_cache_after. destruct (_ranks_cache ds); [exact Hcache|].
  unfold dict_keys. rewrite map_map. reflexivity.
Qed.

Lemma In_truncated {A : Type} (l : list A) (top_n : Z) (x : A) :
  In x (if (0 <? top_n)%Z then slice_to l top_n else l) -> In x l.
Proof.
  destruct (0 <? top_n)%Z eqn:E; [|tauto].
  unfold slice_to. apply Z.ltb_lt in E.
  replace (0 <=? top_n)%Z with true by (symmetry; apply Z.leb_le; lia).
  revert l. induction (Z.to_nat top_n) as [|n IH]; intros [|y l]; simpl;
    try tauto.
  intros [->|Hin]; [left; reflexivity|right; apply IH; exact Hin].
Qed.

(** [get_ranked_names] never raises on such a dataset, and this is what it
    returns. *)
Lemma get_ranked_names_eq ds top_n :
  catalog_ok ds ->
  get_ranked_names ds top_n
  = Some (dataset_after ds,
          map (fun nd => (nd, cached_ranks (ranks_cache_after ds) nd))
              (let all_names :=
                 sorted total_count true (dict_values (_names ds)) in
               if (0 <? top_n)%Z then slice_to all_names top_n
               else all_names)).
Proof.
  intro Hok. pose proof (dataset_after_catalog_ok ds Hok) as [_ [_ Hkeys]].
  simpl in Hkeys.
  assert (Hstep : (if is_not_none (_ranks_cache ds) then Some ds
                   else _compute_ranks ds) = Some (dataset_after ds)).
  { unfold dataset_after, ranks_cache_after.
    destruct (_ranks_cache ds) eqn:E; simpl.
    - destruct ds; simpl in *. rewrite E. reflexivity.
    - apply compute_ranks_distinct, catalog_names_NoDup. exact Hok. }
  unfold get_ranked_names. rewrite Hstep. simpl.
  rewrite (mapM_total _
             (fun nd => (nd, cached_ranks (ranks_cache_after ds) nd)));
    [reflexivity|].
  intros nd Hin. apply In_truncated, sorted_In in Hin.
  unfold cached_ranks, dict_get_default.
  destruct (dict_get_In_keys (ranks_cache_after ds) (name nd)) as [r Hr];
    [|rewrite Hr; reflexivity].
  rewrite Hkeys. apply in_map. exact Hin.
Qed.

Lemma reachable_catalog_ok ds : reachable ds -> catalog_ok ds.
Proof.
  induction 1 as [b g|sv ds b g Hr IH|ds top_n ds' res Hr IH Hget].
  - apply load_catalog_ok.
  - apply load_yearly_data_catalog_ok. exact IH.
  - rewrite (get_ranked_names_eq ds top_n IH) in Hget.
    injection Hget as <- _. apply dataset_after_catalog_ok. exact IH.
Qed.

(** ** Dense rankings *)

Lemma StronglySorted_nth {A : Type} (R : A -> A -> Prop) (l : list A) :
  StronglySorted R l ->
  forall i j a b, (i < j)%nat ->
    nth_error l i = Some a -> nth_error l j = Some b -> R a b.
Proof.
  induction 1 as [|x l Hs IH Hall]; intros i j a b Hij Hi Hj.
  - destruct i; discriminate.
  - destruct j as [|j]; [lia|]. simpl in Hj. destruct i as [|i].
    + injection Hi as <-. rewrite Forall_forall in Hall.
      apply Hall. eapply nth_error_In. exact Hj.
    + simpl in Hi. apply (IH i j); [lia|assumption|assumption].
Qed.

Lemma map_positions {A : Type} (g : A -> option Z) (l : list A) :
  forall s,
    (forall i x, nth_error l i = Some x ->
                 g x = Some (Z.of_nat (s + i) + 1)%Z) ->
    map g l = map (fun i => Some (Z.of_nat i)) (seq (S s) (List.length l)).
Proof.
  induction l as [|a l IH]; intros s Hg; simpl; [reflexivity|]. f_equal.
  - rewrite (Hg 0%nat a eq_refl). f_equal. lia.
  - apply IH. intros i x Hi. rewrite (Hg (S i) x Hi). f_equal. lia.
Qed.

Lemma sorted_descending (count : NameData -> Q) (l : list NameData) :
  StronglySorted (fun a b => count b <= count a) (sorted count true l).
Proof.
  eapply StronglySorted_weaken; [|apply (sorted_in_order count true)].
  intros a b Hab. apply Qltb_ge. exact Hab.
Qed.

Lemma sorted_ties_in_order (count : NameData -> Q) (rev : bool)
      (l : list NameData) (c : Q) :
  filter (fun nd => Qeq_bool (count nd) c) (sorted count rev l)
  = filter (fun nd => Qeq_bool (count nd) c) l.
Proof.
  rewrite <- (filter_ext _ _ (ties_Qeq_bool count c) (sorted count rev l)).
  rewrite <- (filter_ext _ _ (ties_Qeq_bool count c) l).
  apply sorted_stable.
Qed.

Lemma dense_ranking_intro cache dimension count entities :
  NoDup (map name entities) ->
  (forall nd, In nd entities ->
     rank_in cache dimension nd = Some (position_rank count entities nd)) ->
  dense_ranking cache dimension count entities.
Proof.
  intros Hnd Hrank. unfold dense_ranking.
  set (by_rank := sorted count true entities).
  assert (Hperm : Permutation by_rank entities) by apply sorted_perm.
  assert (Hpos : forall i nd, nth_error by_rank i = Some nd ->
                   rank_in cache dimension nd = Some (Z.of_nat i + 1)%Z).
  { intros i nd Hi.
    rewrite Hrank
      by (eapply Permutation_in; [exact Hperm|eapply nth_error_In; exact Hi]).
    f_equal. unfold position_rank, dict_get_default. fold by_rank.
    rewrite (rank_map_get by_rank i nd); [reflexivity| |exact Hi].
    eapply Permutation_NoDup; [|exact Hnd].
    apply Permutation_map. symmetry. exact Hperm. }
  assert (Hsorted : StronglySorted (fun a b => count b <= count a) by_rank)
    by apply sorted_descending.
  split; [|split; [exact Hpos|split; [exact Hperm|split; [exact Hsorted|
             split; [|split]]]]].
  - rewrite <- (Permutation_length Hperm).
    rewrite <- (Permutation_map (rank_in cache dimension) Hperm).
    unfold ranks_upto. rewrite (map_positions _ by_rank 0%nat); [reflexivity|].
    intros i x Hi. rewrite (Hpos i x Hi). reflexivity.
  - intro c. apply sorted_ties_in_order.
  - intros a b ra rb Ha Hb Hra Hrb Hlt.
    apply (Permutation_in _ (Permutation_sym Hperm)) in Ha, Hb.
    apply In_nth_error in Ha, Hb.
    destruct Ha as [i Hi], Hb as [j Hj].
    rewrite (Hpos i a Hi) in Hra. rewrite (Hpos j b Hj) in Hrb.
    injection Hra as <-. injection Hrb as <-.
    apply (StronglySorted_nth _ _ Hsorted i j); [lia|assumption|assumption].
  - intros a b ra rb Hab Heq Hra Hrb.
    assert (Hbefore : before a b by_rank).
    { apply sorted_before; [exact Hab|].
      unfold precedes. simpl. apply Qltb_ge. rewrite Heq. apply Qle_refl. }
    assert (Ha : In a by_rank).
    { destruct Hbefore as [m1 [m2 [m3 ->]]].
      apply in_or_app. right. left. reflexivity. }
    assert (Hb : In b by_rank).
    { destruct Hbefore as [m1 [m2 [m3 ->]]].
      apply in_or_app. right. right. apply in_or_app. right. left.
      reflexivity. }
    apply In_nth_error in Ha, Hb.
    destruct Ha as [i Hi], Hb as [j Hj].
    rewrite (Hpos i a Hi) in Hra. rewrite (Hpos j b Hj) in Hrb.
    injection Hra as <-. injection Hrb as <-.
    assert (Hij : (i < j)%nat).
    { apply (before_nth a b by_rank i j); try assumption.
      eapply Permutation_NoDup; [symmetry; exact Hperm|].
      apply (NoDup_map_inv name). exact Hnd. }
    lia.
Qed.

Lemma ranks_cache_lookup (entities : list NameData) (nd : NameData) :
  NoDup (map name entities) -> In nd entities ->
  dict_get (map (fun e => (name e, ranks_of entities e)) entities) (name nd)
  = Some (ranks_of entities nd).
Proof.
  intros Hnd Hin. apply dict_get_In.
  - unfold dict_keys. rewrite map_map. exact Hnd.
  - apply in_map_iff. exists nd. split; [reflexivity|exact Hin].
Qed.

Example compute_ranks_sample :
  option_map _ranks_cache (_compute_ranks (load sample_boys sample_girls))
  = Some (Some [("Ash", {| overall := 4; boys := 2; girls := 5 |});
                ("Kit", {| overall := 5; boys := 4; girls := 3 |});
                ("Max", {| overall := 3; boys := 1; girls := 6 |});
                ("Remy", {| overall := 6; boys := 5; girls := 4 |});
                ("Sky", {| overall := 1; boys := 3; girls := 2 |});
                ("Zoe", {| overall := 2; boys := 6; girls := 1 |})]%string).
Proof. reflexivity. Qed.

(** C7. After [_compute_ranks] on a dataset of the program, with k
    entities, each of the three dimensions (overall by total count, boys,
    girls) is a dense 1-based ranking: the ranks are a permutation of 1..k,
    rank 1 going to the highest count, ranks following the descending
    stable sort, tied entities ranked in catalog order. *)
Theorem compute_ranks_dense (ds : NamesDataset) :
  reachable ds ->
  let entities := dict_values (_names ds) in
  exists cache,
    _compute_ranks ds
    = Some {| _names := _names ds;
              _yearly_loaded := _yearly_loaded ds;
              _ranks_cache := Some cache |} /\
    dense_ranking cache overall total_count entities /\
    dense_ranking cache boys boys_total entities /\
    dense_ranking cache girls girls_total entities.
Proof.
  intros Hr entities.
  pose proof (catalog_names_NoDup ds (reachable_catalog_ok ds Hr)) as Hnd.
  fold entities in Hnd.
  exists (map (fun e => (name e, ranks_of entities e)) entities).
  split; [apply compute_ranks_distinct; exact Hnd|].
  split; [|split]; apply dense_ranking_intro; try exact Hnd;
    intros nd Hin; unfold rank_in;
    rewrite (ranks_cache_lookup entities nd Hnd Hin); reflexivity.
Qed.

Lemma compute_ranks_dense_witness :
  reachable (load sample_boys sample_girls) /\
  exists cache,
    _compute_ranks (load sample_boys sample_girls)
    = Some {| _names := _names (load sample_boys sample_girls);
              _yearly_loaded := false;
              _ranks_cache := Some cache |} /\
    dense_ranking cache overall total_count
                  (dict_values (_names (load sample_boys sample_girls))) /\
    dense_ranking cache boys boys_total
                  (dict_values (_names (load sample_boys sample_girls))) /\
    dense_ranking cache girls girls_total
                  (dict_values (_names (load sample_boys sample_girls))).
Proof.
  assert (Hr : reachable (load sample_boys sample_girls))
    by apply reach_load.
  split; [exact Hr|].
  exact (compute_ranks_dense (load sample_boys sample_girls) Hr).
Defined.

(** ** get_ranked_names *)

Lemma cached_ranks_lookup ds nd :
  catalog_ok ds -> In nd (dict_values (_names ds)) ->
  dict_get (ranks_cache_after ds) (name nd)
  = Some (cached_ranks (ranks_cache_after ds) nd).
Proof.
  intros Hok Hin.
  pose proof (dataset_after_catalog_ok ds Hok) as [_ [_ Hkeys]].
  simpl in Hkeys. unfold cached_ranks, dict_get_default.
  destruct (dict_get_In_keys (ranks_cache_after ds) (name nd)) as [r Hr];
    [|rewrite Hr; reflexivity].
  rewrite Hkeys. apply in_map. exact Hin.
Qed.

Lemma dataset_after_cached ds c :
  _ranks_cache ds = Some c -> dataset_after ds = ds.
Proof.
  intro Hc. unfold dataset_after, ranks_cache_after.
  destruct ds; simpl in *. rewrite Hc. reflexivity.
Qed.

Lemma dataset_after_computed ds :
  catalog_ok ds -> _ranks_cache ds = None ->
  _compute_ranks ds = Some (dataset_after ds).
Proof.
  intros Hok Hc. unfold dataset_after, ranks_cache_after. rewrite Hc.
  apply compute_ranks_distinct, catalog_names_NoDup. exact Hok.
Qed.

(** C8. On a dataset of the program, [get_ranked_names] computes the rank
    cache when there is none (and otherwise leaves the dataset as it is)
    and returns the entities sorted by total count descending, ties in
    catalog order, cut to the first [top_n] when [top_n > 0] and whole
    otherwise, each paired with its entry of the cache.  With at least 5
    entities, [top_n = 5] returns exactly 5 entries: the first 5 of what
    [top_n = 0] returns. *)
Theorem get_ranked_names_spec (ds : NamesDataset) (top_n : Z) :
  reachable ds ->
  let entities := dict_values (_names ds) in
  let by_total := sorted total_count true entities in
  exists ds' cache res,
    get_ranked_names ds top_n = Some (ds', res) /\
    _names ds' = _names ds /\
    _ranks_cache ds' = Some cache /\
    (_ranks_cache ds = None -> _compute_ranks ds = Some ds') /\
    (forall c, _ranks_cache ds = Some c -> ds' = ds) /\
    map fst res = (if (0 <? top_n)%Z then firstn (Z.to_nat top_n) by_total
                   else by_total) /\
    Forall (fun p => dict_get cache (name (fst p)) = Some (snd p)) res /\
    Permutation by_total entities /\
    StronglySorted (fun a b => total_count b <= total_count a) by_total /\
    (forall c, filter (fun nd => Qeq_bool (total_count nd) c) by_total
               = filter (fun nd => Qeq_bool (total_count nd) c) entities) /\
    ((5 <= List.length entities)%nat ->
     exists res5 res0,
       get_ranked_names ds 5 = Some (ds', res5) /\
       get_ranked_names ds 0 = Some (ds', res0) /\
       List.length res5 = 5%nat /\
       res5 = firstn 5 res0).
Proof.
  intros Hr entities by_total.
  pose proof (reachable_catalog_ok ds Hr) as Hok.
  exists (dataset_after ds), (ranks_cache_after ds).
  eexists. split; [apply get_ranked_names_eq; exact Hok|].
  cbv zeta. fold entities. fold by_total.
  split; [reflexivity|]. split; [reflexivity|].
  split; [apply dataset_after_computed; exact Hok|].
  split; [apply dataset_after_cached|].
  split.
  { rewrite map_map. simpl. rewrite map_id.
    destruct (0 <? top_n)%Z eqn:E; [|reflexivity].
    unfold slice_to. apply Z.ltb_lt in E.
    replace (0 <=? top_n)%Z with true by (symmetry; apply Z.leb_le; lia).
    reflexivity. }
  split.
  { apply Forall_forall. intros p Hp. apply in_map_iff in Hp.
    destruct Hp as [nd [<- Hin]]. simpl.
    apply cached_ranks_lookup; [exact Hok|].
    apply In_truncated in Hin. apply sorted_In in Hin. exact Hin. }
  split; [apply sorted_perm|]. split; [apply sorted_descending|].
  split; [intro c; apply sorted_ties_in_order|].
  intro Hfive. do 2 eexists.
  split; [apply get_ranked_names_eq; exact Hok|].
  split; [apply get_ranked_names_eq; exact Hok|].
  cbv zeta. fold entities. fold by_total.
  change (if (0 <? 5)%Z then slice_to by_total 5 else by_total)
    with (firstn 5 by_total).
  change (if (0 <? 0)%Z then slice_to by_total 0 else by_total)
    with by_total.
  split; [|symmetry; apply firstn_map].
  rewrite length_map, length_firstn.
  unfold by_total. rewrite sorted_length. lia.
Qed.

Lemma get_ranked_names_spec_witness :
  reachable (load sample_boys sample_girls) /\
  (5 <= List.length (dict_values (_names (load sample_boys sample_girls))))%nat /\
  exists ds' res5 res0,
    get_ranked_names (load sample_boys sample_girls) 5 = Some (ds', res5) /\
    get_ranked_names (load sample_boys sample_girls) 0 = Some (ds', res0) /\
    List.length res5 = 5%nat /\
    res5 = firstn 5 res0.
Proof.
  assert (Hr : reachable (load sample_boys sample_girls))
    by apply reach_load.
  assert (Hfive : (5 <= List.length
                     (dict_values (_names (load sample_boys sample_girls))))%nat)
    by (vm_compute; lia).
  split; [exact Hr|]. split; [exact Hfive|].
  destruct (get_ranked_names_spec (load sample_boys sample_girls) 5 Hr)
    as [ds' [cache [res [_ [_ [_ [_ [_ [_ [_ [_ [_ [_ Hcut]]]]]]]]]]]]].
  destruct (Hcut Hfive) as [res5 [res0 Hres]].
  exists ds', res5, res0. exact Hres.
Defined.

(** C10. On every dataset of the program each key is the lower-cased
    display name of its entity, so distinct entities have distinct display
    names; [_compute_ranks] leaves a cache whose keys are exactly the
    display names, one entry each; and [get_ranked_names] never raises
    [KeyError]: every entity it returns has its entry in the cache. *)
Theorem ranks_cache_lookup_succeeds (ds : NamesDataset) :
  reachable ds ->
  let entities := dict_values (_names ds) in
  Forall (fun item => fst item = lower (name (snd item))) (_names ds) /\
  NoDup (map name entities) /\
  (exists ds' cache,
      _compute_ranks ds = Some ds' /\
      _ranks_cache ds' = Some cache /\
      dict_keys cache = map name entities /\
      NoDup (dict_keys cache)) /\
  (forall top_n,
      exists ds' cache res,
        get_ranked_names ds top_n = Some (ds', res) /\
        _ranks_cache ds' = Some cache /\
        Forall (fun p => In (fst p) entities /\
                         exists r, dict_get cache (name (fst p)) = Some r)
               res).
Proof.
  intros Hr entities.
  pose proof (reachable_catalog_ok ds Hr) as Hok.
  pose proof (catalog_names_NoDup ds Hok) as Hnd. fold entities in Hnd.
  split; [apply Hok|]. split; [exact Hnd|]. split.
  - do 2 eexists. split; [apply compute_ranks_distinct; exact Hnd|].
    split; [reflexivity|].
    assert (Hkeys : dict_keys (map (fun nd => (name nd, ranks_of entities nd))
                                   entities) = map name entities)
      by (unfold dict_keys; rewrite map_map; reflexivity).
    fold entities. rewrite Hkeys. split; [reflexivity|exact Hnd].
  - intro top_n. exists (dataset_after ds), (ranks_cache_after ds).
    eexists. split; [apply get_ranked_names_eq; exact Hok|].
    split; [reflexivity|].
    apply Forall_forall. intros p Hp. apply in_map_iff in Hp.
    destruct Hp as [nd [<- Hin]]. simpl.
    apply In_truncated in Hin. apply sorted_In in Hin.
    split; [exact Hin|]. eexists.
    apply cached_ranks_lookup; [exact Hok|exact Hin].
Qed.

Lemma ranks_cache_lookup_succeeds_witness :
  reachable (load_yearly_data stable_sort_values
                              (load sample_boys sample_girls)
                              sample_boys sample_girls) /\
  get_ranked_names (load_yearly_data stable_sort_values
                                     (load sample_boys sample_girls)
                                     sample_boys sample_girls) 3
  <> None.
Proof.
  assert (Hr : reachable (load_yearly_data stable_sort_values
                                           (load sample_boys sample_girls)
                                           sample_boys sample_girls))
    by (apply reach_yearly, reach_load).
  split; [exact Hr|].
  destruct (ranks_cache_lookup_succeeds _ Hr) as [_ [_ [_ Hget]]].
  destruct (Hget 3%Z) as [ds' [cache [res [Heq _]]]].
  rewrite Heq. discriminate.
Defined.

(** ** The [nearest] command on targets in range *)

Lemma In_firstn {A : Type} (n : nat) : forall (l : list A) (x : A),
  In x (firstn n l) -> In x l.
Proof.
  induction n as [|n IH]; intros [|y l] x; simpl; try tauto.
  intros [->|Hin]; [left; reflexivity|right; apply IH; exact Hin].
Qed.


(* ================================================================== *)
(** * Slices, prefixes and relative order *)

Lemma slice_to_prefix {A : Type} (l : list A) (n : Z) :
  exists m, slice_to l n = firstn m l /\
            m = (if (0 <=? n)%Z then Z.to_nat n
                 else Z.to_nat (Z.of_nat (List.length l) + n)).
Proof. unfold slice_to. destruct (0 <=? n)%Z; eexists; split; reflexivity. Qed.

Lemma slice_to_length {A : Type} (l : list A) (n : Z) :
  Z.of_nat (List.length (slice_to l n))
  = (if (0 <=? n)%Z then Z.min n (Z.of_nat (List.length l))
     else Z.max 0 (Z.of_nat (List.length l) + n))%Z.
Proof.
  unfold slice_to. destruct (0 <=? n)%Z eqn:E; rewrite length_firstn.
  - apply Z.leb_le in E. lia.
  - apply Z.leb_gt in E. lia.
Qed.

Lemma slice_to_map {A B : Type} (f : A -> B) (l : list A) (n : Z) :
  slice_to (map f l) n = map f (slice_to l n).
Proof.
  unfold slice_to. rewrite length_map.
  destruct (0 <=? n)%Z; apply firstn_map.
Qed.

Lemma before_filter {A : Type} (p : A -> bool) (a b : A) (l : list A) :
  before a b (filter p l) -> before a b l.
Proof.
  induction l as [|x l IH]; simpl; intro Hb.
  - destruct Hb as [[|? ?] [? [? Heq]]]; discriminate.
  - destruct (p x); [|apply before_cons, IH; exact Hb].
    apply before_inv in Hb. destruct Hb as [[-> Hin]|Hb].
    + apply before_head. apply filter_In in Hin. tauto.
    + apply before_cons, IH. exact Hb.
Qed.

Lemma before_firstn {A : Type} (m : nat) (a b : A) (l : list A) :
  before a b (firstn m l) -> before a b l.
Proof.
  intros [l1 [l2 [l3 Heq]]]. exists l1, l2, (l3 ++ skipn m l).
  rewrite <- (firstn_skipn m l) at 1. rewrite Heq.
  rewrite <- !app_assoc. simpl. rewrite <- app_assoc. reflexivity.
Qed.

Lemma before_slice_to {A : Type} (n : Z) (a b : A) (l : list A) :
  before a b (slice_to l n) -> before a b l.
Proof.
  destruct (slice_to_prefix l n) as [m [-> _]]. apply before_firstn.
Qed.

Lemma In_slice_to {A : Type} (n : Z) (x : A) (l : list A) :
  In x (slice_to l n) -> In x l.
Proof. destruct (slice_to_prefix l n) as [m [-> _]]. apply In_firstn. Qed.

Lemma StronglySorted_app_inv {A : Type} (R : A -> A -> Prop) (l1 l2 : list A) :
  StronglySorted R (l1 ++ l2) ->
  forall a b, In a l1 -> In b l2 -> R a b.
Proof.
  induction l1 as [|x l1 IH]; simpl; intros Hs a b Ha Hb; [destruct Ha|].
  inversion Hs as [|? ? Hs' Hall]; subst.
  destruct Ha as [->|Ha]; [|apply IH; assumption].
  rewrite Forall_forall in Hall. apply Hall, in_or_app. right. exact Hb.
Qed.

(** A slice of a sorted list leaves behind only elements that come no
    earlier in the order. *)
Lemma slice_to_sorted_split {A : Type} (R : A -> A -> Prop) (l : list A)
      (n : Z) :
  StronglySorted R l ->
  exists rest, l = slice_to l n ++ rest /\
               forall a b, In a (slice_to l n) -> In b rest -> R a b.
Proof.
  intro Hs. destruct (slice_to_prefix l n) as [m [Hm _]].
  exists (skipn m l). rewrite Hm. split.
  - symmetry. apply firstn_skipn.
  - apply StronglySorted_app_inv. rewrite firstn_skipn. exact Hs.
Qed.

(* ================================================================== *)
(** * find_closest_to_score, beyond the first n *)

Lemma find_closest_to_score_slice names target n :
  find_closest_to_score names target n
  = slice_to (sorted (fun nd => Qabs (gender_score nd - target)) false names)
             n.
Proof.
  unfold find_closest_to_score.
  rewrite sorted_decorate, slice_to_map, map_fst_decorate. reflexivity.
Qed.

(** X1. Whatever [n], the entities [find_closest_to_score] returns are at
    least as close to the target as every entity it leaves out: the input
    is a permutation of the result followed by the rest, and no entity of
    the rest is closer than one of the result. *)
Theorem find_closest_to_score_optimal
        (names : list NameData) (target : Q) (n : Z) :
  let dist := fun nd => Qabs (gender_score nd - target) in
  exists rest,
    Permutation (find_closest_to_score names target n ++ rest) names /\
    forall a b, In a (find_closest_to_score names target n) ->
                In b rest -> dist a <= dist b.
Proof.
  intro dist. rewrite find_closest_to_score_slice. fold dist.
  assert (Hs : StronglySorted (fun a b => dist a <= dist b)
                              (sorted dist false names)).
  { eapply StronglySorted_weaken; [|apply (sorted_in_order dist false)].
    intros a b Hab. apply Qltb_ge. exact Hab. }
  destruct (slice_to_sorted_split _ _ n Hs) as [rest [Heq Hopt]].
  exists rest. split; [|exact Hopt].
  rewrite <- Heq. apply sorted_perm.
Qed.

(** X2. The number of entities returned: [min(n, len)] for [n >= 0]; for a
    negative [n] the slice [scored[:n]] drops the last [-n] of the sorted
    entities, leaving [max(0, len + n)], the closest ones. *)
Theorem find_closest_to_score_length
        (names : list NameData) (target : Q) (n : Z) :
  let len := Z.of_nat (List.length names) in
  let ranked :=
    sorted (fun nd => Qabs (gender_score nd - target)) false names in
  Z.of_nat (List.length (find_closest_to_score names target n))
  = (if (0 <=? n)%Z then Z.min n len else Z.max 0 (len + n))%Z /\
  find_closest_to_score names target n
  = firstn (List.length (find_closest_to_score names target n)) ranked.
Proof.
  intros len ranked. rewrite find_closest_to_score_slice. fold ranked.
  split.
  - rewrite slice_to_length. unfold ranked. rewrite sorted_length.
    reflexivity.
  - destruct (slice_to_prefix ranked n) as [m [Hm _]]. rewrite Hm.
    rewrite length_firstn.
    destruct (Nat.le_ge_cases m (List.length ranked)) as [Hle|Hge].
    + rewrite Nat.min_l by exact Hle. reflexivity.
    + rewrite Nat.min_r by exact Hge.
      rewrite !firstn_all2 by lia. reflexivity.
Qed.

(* ================================================================== *)
(** * filter_names_by_score *)

Lemma in_range_iff lo hi (nd : NameData) :
  Qle_bool lo (gender_score nd) && Qle_bool (gender_score nd) hi = true
  <-> lo <= gender_score nd <= hi.
Proof. rewrite andb_true_iff, !Qle_bool_iff. reflexivity. Qed.

(** X3. Every entity [filter_names_by_score] returns comes from the input
    and has its score within the range given; the entities keep their input
    order; a positive [top_n] bounds their number.  Without a cut ([top_n]
    absent, zero or negative) nothing in range is left out. *)
Theorem filter_names_by_score_spec
        (names : list NameData) (score_range : option (Q * Q))
        (top_n : option Z) :
  let result := filter_names_by_score names score_range top_n in
  (forall nd, In nd result ->
     In nd names /\
     forall lo hi, score_range = Some (lo, hi) ->
                   lo <= gender_score nd <= hi) /\
  (forall a b, before a b result -> before a b names) /\
  (forall t, top_n = Some t -> (0 < t)%Z ->
             (Z.of_nat (List.length result) <= t)%Z) /\
  ((forall t, top_n = Some t -> (t <= 0)%Z) ->
   forall nd, In nd names ->
     (forall lo hi, score_range = Some (lo, hi) ->
                    lo <= gender_score nd <= hi) ->
     In nd result).
Proof.
  intro result. subst result. unfold filter_names_by_score.
  set (kept := match score_range with
               | Some (lo, hi) =>
                   filter (fun n => Qle_bool lo (gender_score n)
                                    && Qle_bool (gender_score n) hi) names
               | None => names
               end).
  assert (Hkept_in : forall nd, In nd kept ->
            In nd names /\
            forall lo hi, score_range = Some (lo, hi) ->
                          lo <= gender_score nd <= hi).
  { intros nd Hin. unfold kept in Hin. destruct score_range as [[lo hi]|].
    - apply filter_In in Hin. destruct Hin as [Hin Hr].
      split; [exact Hin|]. intros lo' hi' [= <- <-].
      apply in_range_iff. exact Hr.
    - split; [exact Hin|]. discriminate. }
  assert (Hkept_before : forall a b, before a b kept -> before a b names).
  { intros a b. unfold kept. destruct score_range as [[lo hi]|];
      [apply before_filter|tauto]. }
  assert (Hkept_all : forall nd, In nd names ->
            (forall lo hi, score_range = Some (lo, hi) ->
                           lo <= gender_score nd <= hi) ->
            In nd kept).
  { intros nd Hin Hr. unfold kept. destruct score_range as [[lo hi]|];
      [|exact Hin].
    apply filter_In. split; [exact Hin|].
    apply in_range_iff. apply Hr. reflexivity. }
  split; [|split; [|split]].
  - intros nd Hin. apply Hkept_in.
    destruct top_n as [t|]; [|exact Hin].
    destruct (0 <? t)%Z; [apply In_slice_to in Hin|]; exact Hin.
  - intros a b Hb. apply Hkept_before.
    destruct top_n as [t|]; [|exact Hb].
    destruct (0 <? t)%Z; [apply before_slice_to in Hb|]; exact Hb.
  - intros t -> Ht. apply Z.ltb_lt in Ht. rewrite Ht.
    rewrite slice_to_length.
    replace (0 <=? t)%Z with true by (symmetry; apply Z.leb_le; lia). lia.
  - intros Hcut nd Hin Hr.
    destruct top_n as [t|]; [|apply Hkept_all; assumption].
    specialize (Hcut t eq_refl).
    replace (0 <? t)%Z with false by (symmetry; apply Z.ltb_ge; lia).
    apply Hkept_all; assumption.
Qed.

Lemma filter_names_by_score_spec_witness :
  (forall t, Some 0%Z = Some t -> (t <= 0)%Z) /\
  In (entity "Kit" 11 9)
     (filter_names_by_score sample_scored (Some (-0.5, 0.1)) (Some 0%Z)).
Proof.
  assert (Hcut : forall t, Some 0%Z = Some t -> (t <= 0)%Z)
    by (intros t [= <-]; lia).
  split; [exact Hcut|].
  destruct (filter_names_by_score_spec sample_scored (Some (-0.5, 0.1))
                                       (Some 0%Z)) as [_ [_ [_ Hall]]].
  apply (Hall Hcut).
  - right. left. reflexivity.
  - intros lo hi [= <- <-]. split; discriminate.
Defined.

(** X4. A range whose lower bound exceeds its upper bound selects nothing,
    whatever [top_n]. *)
Theorem filter_names_by_score_empty_range
        (names : list NameData) (lo hi : Q) (top_n : option Z) :
  hi < lo -> filter_names_by_score names (Some (lo, hi)) top_n = [].
Proof.
  intro Hinv. unfold filter_names_by_score.
  assert (Hnil : filter (fun n => Qle_bool lo (gender_score n)
                                  && Qle_bool (gender_score n) hi) names = []).
  { induction names as [|x l IH]; simpl; [reflexivity|].
    destruct (Qle_bool lo (gender_score x)
              && Qle_bool (gender_score x) hi) eqn:E; [|exact IH].
    exfalso. apply in_range_iff in E. destruct E as [H1 H2].
    apply (Qlt_not_le _ _ Hinv). eapply Qle_trans; eassumption. }
  rewrite Hnil. destruct top_n as [t|]; [|reflexivity].
  destruct (0 <? t)%Z; [|reflexivity].
  unfold slice_to. simpl. destruct (0 <=? t)%Z; apply firstn_nil.
Qed.

Lemma filter_names_by_score_empty_range_witness :
  0.5 < 0.6 /\
  filter_names_by_score sample_scored (Some (0.6, 0.5)) (Some 3%Z) = [].
Proof.
  assert (Hinv : 0.5 < 0.6) by reflexivity.
  split; [exact Hinv|].
  exact (filter_names_by_score_empty_range sample_scored 0.6 0.5
                                           (Some 3%Z) Hinv).
Defined.

(** X5. On entities with non-negative totals the whole range [-1, 1]
    filters nothing out. *)
Theorem filter_names_by_score_full_range (names : list NameData) :
  Forall (fun nd => 0 <= boys_total nd /\ 0 <= girls_total nd) names ->
  filter_names_by_score names (Some (-1, 1)) None = names.
Proof.
  intro Hpos. unfold filter_names_by_score.
  induction Hpos as [|x l [Hb Hg] Hl IH]; simpl; [reflexivity|].
  pose proof (gender_score_range x Hb Hg) as Hr.
  apply in_range_iff in Hr. rewrite Hr. f_equal. exact IH.
Qed.

Lemma filter_names_by_score_full_range_witness :
  Forall (fun nd => 0 <= boys_total nd /\ 0 <= girls_total nd) sample_scored /\
  filter_names_by_score sample_scored (Some (-1, 1)) None = sample_scored.
Proof.
  assert (Hpos : Forall (fun nd => 0 <= boys_total nd /\ 0 <= girls_total nd)
                        sample_scored)
    by (repeat constructor; discriminate).
  split; [exact Hpos|].
  exact (filter_names_by_score_full_range sample_scored Hpos).
Defined.

(* ================================================================== *)
(** * Yearly scores and series, together *)

Lemma find_rev_Forall {A : Type} (P : A -> Prop) (p : A -> bool) (l : list A)
      (x : A) :
  Forall P l -> find p (rev l) = Some x -> P x.
Proof.
  intros Hall Hf. apply find_some in Hf. destruct Hf as [Hin _].
  apply in_rev in Hin. rewrite Forall_forall in Hall. apply Hall. exact Hin.
Qed.

Lemma value_at_nonneg (l : list YearlyCount) (y : Z) :
  Forall (fun yc => 0 <= count yc) l -> 0 <= value_at (series_of l) y.
Proof.
  intro Hall. unfold value_at.
  destruct (find _ (rev (series_of l))) as [p|] eqn:E; [|apply Qle_refl].
  apply (find_rev_Forall (fun p => 0 <= snd p) _ _ _) in E; [exact E|].
  unfold series_of. apply Forall_map. exact Hall.
Qed.

Lemma ratio_range (b g : Q) :
  0 <= b -> 0 <= g -> 0 < b + g -> -1 <= (g - b) / (b + g) <= 1.
Proof.
  intros Hb Hg Hpos. split.
  - apply Qle_shift_div_l; [exact Hpos|]. lra.
  - apply Qle_shift_div_r; [exact Hpos|]. lra.
Qed.

Lemma yearly_cases (nd : NameData) :
  (falsy (boys_yearly nd) = true \/ falsy (girls_yearly nd) = true) \/
  exists b g, boys_yearly nd = Some b /\ girls_yearly nd = Some g /\
              b <> [] /\ g <> [].
Proof.
  destruct (boys_yearly nd) as [[|b0 b]|];
    [left; left; reflexivity| |left; left; reflexivity].
  destruct (girls_yearly nd) as [[|g0 g]|];
    [left; right; reflexivity| |left; right; reflexivity].
  right. exists (b0 :: b), (g0 :: g).
  repeat split; (reflexivity || discriminate).
Qed.

(** X6. With no negative count in either yearly sequence, every yearly
    gender score lies in [-1, 1]. *)
Theorem yearly_gender_scores_range (nd : NameData) :
  Forall (fun yc => 0 <= count yc) (or_empty (boys_yearly nd)) ->
  Forall (fun yc => 0 <= count yc) (or_empty (girls_yearly nd)) ->
  forall y s, In (y, s) (calculate_yearly_gender_scores nd) -> -1 <= s <= 1.
Proof.
  intros Hb Hg y s Hin.
  destruct (yearly_cases nd) as [Hf|[b [g [Eb [Eg [Hbne Hgne]]]]]].
  - rewrite (calculate_yearly_gender_scores_falsy nd Hf) in Hin.
    destruct Hin.
  - rewrite (calculate_yearly_gender_scores_eq nd b g Eb Eg Hbne Hgne) in Hin.
    rewrite Eb in Hb. rewrite Eg in Hg. simpl in Hb, Hg.
    apply in_map_iff in Hin. destruct Hin as [y' [Heq Hin]].
    injection Heq as -> <-. apply filter_In in Hin. destruct Hin as [_ Hpos].
    apply Qltb_lt in Hpos.
    apply ratio_range; [apply value_at_nonneg|apply value_at_nonneg|];
      assumption.
Qed.

Lemma yearly_gender_scores_range_witness :
  Forall (fun yc => 0 <= count yc) (or_empty (boys_yearly with_zero_year)) /\
  Forall (fun yc => 0 <= count yc) (or_empty (girls_yearly with_zero_year)) /\
  In (1998%Z, (1 - 0) / (0 + 1))
     (calculate_yearly_gender_scores with_zero_year) /\
  -1 <= (1 - 0) / (0 + 1) <= 1.
Proof.
  assert (Hb : Forall (fun yc => 0 <= count yc)
                      (or_empty (boys_yearly with_zero_year)))
    by (repeat constructor; discriminate).
  assert (Hg : Forall (fun yc => 0 <= count yc)
                      (or_empty (girls_yearly with_zero_year)))
    by (repeat constructor; discriminate).
  assert (Hin : In (1998%Z, (1 - 0) / (0 + 1))
                   (calculate_yearly_gender_scores with_zero_year))
    by (right; left; reflexivity).
  split; [exact Hb|]. split; [exact Hg|]. split; [exact Hin|].
  exact (yearly_gender_scores_range with_zero_year Hb Hg _ _ Hin).
Defined.

Lemma filter_map_comm {A B : Type} (p : B -> bool) (f : A -> B) (l : list A) :
  filter p (map f l) = map f (filter (fun x => p (f x)) l).
Proof.
  induction l as [|x l IH]; simpl; [reflexivity|].
  destruct (p (f x)); simpl; rewrite IH; reflexivity.
Qed.

(** X7. When both yearly sequences are non-empty, the years that get a
    gender score are exactly the years of the combined time series whose
    combined count is positive, in the same order. *)
Theorem yearly_gender_scores_years (nd : NameData) (b g : list YearlyCount) :
  boys_yearly nd = Some b -> girls_yearly nd = Some g ->
  b <> [] -> g <> [] ->
  map fst (calculate_yearly_gender_scores nd)
  = map fst (filter (fun p => Qltb 0 (snd p))
                    (get_time_series nd Combined)).
Proof.
  intros Hb Hg Hbne Hgne.
  rewrite (calculate_yearly_gender_scores_eq nd b g Hb Hg Hbne Hgne).
  rewrite get_time_series_combined
    by (unfold has_yearly_data; rewrite Hb; reflexivity).
  rewrite Hb, Hg. simpl or_empty.
  rewrite filter_map_comm, !map_map. simpl. reflexivity.
Qed.

Lemma yearly_gender_scores_years_witness :
  map fst (calculate_yearly_gender_scores with_zero_year) = [1997; 1998]%Z /\
  map fst (filter (fun p => Qltb 0 (snd p))
                  (get_time_series with_zero_year Combined))
  = [1997; 1998]%Z.
Proof.
  pose proof (yearly_gender_scores_years with_zero_year _ _ eq_refl eq_refl
                ltac:(discriminate) ltac:(discriminate)) as Heq.
  split; [reflexivity|]. rewrite <- Heq. reflexivity.
Defined.

Lemma sorted_of_sorted {A K : Type} `{PyOrd K} (key : A -> K) (rev : bool)
      (l : list A) :
  StronglySorted (in_order key rev) l -> sorted key rev l = l.
Proof.
  induction 1 as [|x l Hs IH Hall]; simpl; [reflexivity|].
  rewrite IH. destruct l as [|y l']; [reflexivity|].
  simpl. inversion Hall as [|? ? Hxy _]; subst.
  unfold in_order in Hxy. rewrite Hxy. reflexivity.
Qed.

Lemma set_of_list_distinct {K : Type} `{PyKeyLaws K} (l : list K) :
  NoDup l -> set_of_list l = l.
Proof.
  intro Hnd. unfold set_of_list.
  assert (Hgen : forall s, NoDup (s ++ l) -> fold_left set_add l s = s ++ l).
  { clear Hnd. induction l as [|x l IH]; intros s Hnd; simpl.
    - rewrite app_nil_r. reflexivity.
    - assert (Hx : ~ In x s).
      { apply NoDup_remove_2 in Hnd. intro Hin. apply Hnd.
        apply in_or_app. left. exact Hin. }
      assert (Hadd : set_add s x = s ++ [x]).
      { unfold set_add. destruct (existsb (key_eqb x) s) eqn:E;
          [|reflexivity].
        apply existsb_exists in E. destruct E as [x' [Hin Heq]].
        apply key_eqb_eq in Heq. subst x'. contradiction. }
      rewrite Hadd, IH; rewrite <- app_assoc; [reflexivity|exact Hnd]. }
  apply (Hgen []). exact Hnd.
Qed.

Lemma StronglySorted_lt_NoDup (l : list Z) :
  StronglySorted Z.lt l -> NoDup l.
Proof.
  induction 1 as [|x l Hs IH Hall]; constructor; [|exact IH].
  intro Hin. rewrite Forall_forall in Hall. specialize (Hall x Hin). lia.
Qed.

Lemma Forall2_map_same {A B C : Type} (R : B -> C -> Prop) (f : A -> B)
      (g : A -> C) (l : list A) :
  (forall x, In x l -> R (f x) (g x)) -> Forall2 R (map f l) (map g l).
Proof.
  induction l as [|x l IH]; intro HR; simpl; constructor.
  - apply HR. left. reflexivity.
  - apply IH. intros y Hy. apply HR. right. exact Hy.
Qed.

(** X8. For a name recorded for boys only, with its years in strictly
    ascending order, the combined time series is the boys series (same
    years, equal counts) and there are no yearly gender scores. *)
Theorem boys_only_time_series (nd : NameData) (b : list YearlyCount) :
  boys_yearly nd = Some b -> girls_yearly nd = None ->
  StronglySorted Z.lt (map year b) ->
  Forall2 (fun p q => fst p = fst q /\ snd p == snd q)
          (get_time_series nd Combined) (get_time_series nd Boys) /\
  calculate_yearly_gender_scores nd = [].
Proof.
  intros Hb Hg Hs.
  assert (Hy : has_yearly_data nd = true)
    by (unfold has_yearly_data; rewrite Hb; reflexivity).
  split; [|apply calculate_yearly_gender_scores_falsy; rewrite Hg; auto].
  rewrite get_time_series_combined, get_time_series_boys by exact Hy.
  rewrite Hb, Hg. simpl or_empty.
  pose proof (StronglySorted_lt_NoDup _ Hs) as Hnd.
  assert (Hyears : all_years b [] = map year b).
  { assert (Hkeys : dict_keys (by_year b) = map year b).
    { unfold by_year. rewrite dict_of_pairs_distinct;
        unfold dict_keys; rewrite map_map; [reflexivity|exact Hnd]. }
    rewrite Hkeys. simpl.
    rewrite (set_of_list_distinct _ Hnd).
    apply sorted_of_sorted.
    eapply StronglySorted_weaken; [|exact Hs].
    intros x y Hxy. unfold in_order, precedes. simpl.
    apply Z.ltb_ge. lia. }
  rewrite Hyears, map_map. unfold series_of at 3.
  apply Forall2_map_same. intros yc Hin. simpl. split; [reflexivity|].
  rewrite (value_at_unique (series_of b) (year yc) (count yc)).
  - unfold value_at. simpl. ring.
  - unfold series_of. rewrite map_map. exact Hnd.
  - unfold series_of. apply in_map_iff. exists yc. split; [reflexivity|exact Hin].
Qed.

Lemma boys_only_time_series_witness :
  StronglySorted Z.lt [1996; 1997]%Z /\
  Forall2 (fun p q => fst p = fst q /\ snd p == snd q)
          (get_time_series
             {| name := "Max"; boys_total := 31; girls_total := 0;
                boys_yearly := Some [ {| year := 1996; count := 30 |};
                                      {| year := 1997; count := 1 |} ];
                girls_yearly := None |} Combined)
          [(1996%Z, 30); (1997%Z, 1)].
Proof.
  assert (Hs : StronglySorted Z.lt [1996; 1997]%Z)
    by (repeat constructor; lia).
  split; [exact Hs|].
  exact (proj1 (boys_only_time_series
                  {| name := "Max"; boys_total := 31; girls_total := 0;
                     boys_yearly := Some [ {| year := 1996; count := 30 |};
                                           {| year := 1997; count := 1 |} ];
                     girls_yearly := None |}
                  _ eq_refl eq_refl Hs)).
Defined.

(* ================================================================== *)
(** * The catalog after load *)

Lemma load_aggregated_names (t : Table) (n : string) :
  In n (map fst (_load_aggregated t)) <-> In (Some n) (map fst (rows t)).
Proof.
  unfold _load_aggregated. induction (rows t) as [|[[m|] cells] l IH]; simpl.
  - tauto.
  - rewrite IH. split; (intros [Heq|Hin]; [left; congruence|right; exact Hin]).
  - rewrite IH. split; [auto|]. intros [Heq|Hin]; [discriminate|exact Hin].
Qed.

Lemma all_names_in_sources boys_file girls_file n :
  In n (all_names boys_file girls_file) <-> in_sources boys_file girls_file n.
Proof.
  rewrite all_names_In, !load_aggregated_names. reflexivity.
Qed.

Lemma dict_of_pairs_In_inv {K V : Type} `{PyKeyLaws K} (l : list (K * V))
      (item : K * V) :
  In item (dict_of_pairs l) -> In item l.
Proof.
  destruct item as [k v]. intro Hin.
  apply dict_get_In in Hin; [|apply dict_of_pairs_keys_NoDup].
  rewrite dict_of_pairs_get in Hin.
  apply dict_get_Some_In, in_rev in Hin. exact Hin.
Qed.

(** X9. Lookup after [load] is case-insensitive and exact on the
    normalized name: [get_name] finds nothing exactly when no name of the
    sources has the same lower-cased form, what it finds is an entity whose
    display name is a name of the sources with that lower-cased form, and
    two spellings with the same lower-cased form get the same answer. *)
Theorem get_name_after_load (boys_file girls_file : Table) (n : string) :
  let ds := load boys_file girls_file in
  (get_name ds n = None
   <-> forall m, in_sources boys_file girls_file m -> lower m <> lower n) /\
  (forall nd, get_name ds n = Some nd ->
     in_sources boys_file girls_file (name nd) /\
     lower (name nd) = lower n) /\
  (forall n', lower n' = lower n -> get_name ds n' = get_name ds n).
Proof.
  intro ds. subst ds. unfold get_name. rewrite load_eq. simpl _names.
  split; [|split].
  - rewrite dict_get_None, dict_of_pairs_keys_In, map_map. simpl. split.
    + intros Hnot m Hm Heq. apply Hnot. rewrite <- Heq.
      apply in_map. apply all_names_in_sources. exact Hm.
    + intros Hnone Hin. apply in_map_iff in Hin.
      destruct Hin as [m [Heq Hm]].
      apply (Hnone m); [apply all_names_in_sources; exact Hm|exact Heq].
  - intros nd Hget. rewrite dict_of_pairs_get in Hget.
    destruct (last_writer_greatest lower _ _
                (all_names_increasing boys_file girls_file) _ nd Hget)
      as [m [Hin [Hk [-> _]]]].
    simpl. split; [apply all_names_in_sources; exact Hin|exact Hk].
  - intros n' ->. reflexivity.
Qed.

Lemma sum_skipna_nonneg (cells : list (option Q)) :
  Forall (fun c => match c with Some q => 0 <= q | None => True end) cells ->
  0 <= sum_skipna cells.
Proof.
  intro Hall. unfold sum_skipna.
  assert (Hgen : forall acc, 0 <= acc ->
            0 <= fold_left (fun acc c => match c with
                                         | Some q => acc + q
                                         | None => acc
                                         end) cells acc).
  { induction Hall as [|[q|] l Hq Hl IH]; intros acc Hacc; simpl.
    - exact Hacc.
    - apply IH. rewrite <- (Qplus_0_l 0). apply Qplus_le_compat; assumption.
    - apply IH. exact Hacc. }
  apply Hgen. apply Qle_refl.
Qed.

Lemma load_aggregated_nonneg (t : Table) (n : string) :
  cells_nonneg t -> 0 <= dict_get_default (dict_of_pairs (_load_aggregated t)) n 0.
Proof.
  intro Hpos. unfold dict_get_default.
  destruct (dict_get _ n) as [q|] eqn:E; [|apply Qle_refl].
  rewrite dict_of_pairs_get in E. apply dict_get_Some_In, in_rev in E.
  unfold _load_aggregated in E. apply in_flat_map in E.
  destruct E as [[[m|] cells] [Hrow Hin]]; simpl in Hin; [|destruct Hin].
  destruct Hin as [Heq|[]]. injection Heq as _ <-.
  unfold cells_nonneg in Hpos. rewrite Forall_forall in Hpos.
  apply sum_skipna_nonneg. apply (Hpos _ Hrow).
Qed.

(** X10. When no cell of either source is negative, every entity [load]
    builds has non-negative totals and a gender score within [-1, 1]. *)
Theorem load_scores_in_range (boys_file girls_file : Table) :
  cells_nonneg boys_file -> cells_nonneg girls_file ->
  Forall (fun nd => 0 <= boys_total nd /\ 0 <= girls_total nd /\
                    -1 <= gender_score nd <= 1)
         (get_all_names (load boys_file girls_file)).
Proof.
  intros Hb Hg. unfold get_all_names. rewrite load_eq. simpl _names.
  apply Forall_forall. intros nd Hin.
  unfold dict_values in Hin. apply in_map_iff in Hin.
  destruct Hin as [[k nd'] [Heq Hin]]. simpl in Heq. subst nd'.
  apply dict_of_pairs_In_inv, in_map_iff in Hin.
  destruct Hin as [m [Heq _]]. injection Heq as _ <-.
  assert (Hbt : 0 <= dict_get_default
                       (dict_of_pairs (_load_aggregated boys_file)) m 0)
    by (apply load_aggregated_nonneg; exact Hb).
  assert (Hgt : 0 <= dict_get_default
                       (dict_of_pairs (_load_aggregated girls_file)) m 0)
    by (apply load_aggregated_nonneg; exact Hg).
  split; [exact Hbt|]. split; [exact Hgt|].
  apply gender_score_range; assumption.
Qed.

Lemma load_scores_in_range_witness :
  cells_nonneg sample_boys /\ cells_nonneg sample_girls /\
  Forall (fun nd => 0 <= boys_total nd /\ 0 <= girls_total nd /\
                    -1 <= gender_score nd <= 1)
         (get_all_names (load sample_boys sample_girls)).
Proof.
  assert (Hb : cells_nonneg sample_boys)
    by (repeat constructor; discriminate).
  assert (Hg : cells_nonneg sample_girls)
    by (repeat constructor; discriminate).
  split; [exact Hb|]. split; [exact Hg|].
  exact (load_scores_in_range sample_boys sample_girls Hb Hg).
Defined.

(* ================================================================== *)
(** * What load_yearly_data leaves alone *)

Lemma load_yearly_data_entries sort_values ds boys_file girls_file :
  map entry_totals
      (_names (load_yearly_data sort_values ds boys_file girls_file))
  = map entry_totals (_names ds).
Proof.
  unfold load_yearly_data. destruct (_yearly_loaded ds); [reflexivity|].
  simpl. rewrite map_map. apply map_ext. intros [k nd].
  unfold entry_totals. simpl.
  destruct (dict_get _ k); destruct (dict_get _ k); reflexivity.
Qed.

Lemma gender_score_totals (a b : NameData) :
  boys_total a = boys_total b -> girls_total a = girls_total b ->
  gender_score a = gender_score b.
Proof.
  intros Hb Hg. unfold gender_score, total_count. rewrite Hb, Hg.
  reflexivity.
Qed.

(** X11. [load_yearly_data] changes yearly sequences only, whatever the
    sort does: the keys, in their order, the display names, the totals and
    hence the gender scores of all entities, and the rank cache, are what
    they were. *)
Theorem load_yearly_data_preserves
        (sort_values : list LongRow -> list LongRow)
        (ds : NamesDataset) (boys_file girls_file : Table) :
  let ds' := load_yearly_data sort_values ds boys_file girls_file in
  map entry_totals (_names ds') = map entry_totals (_names ds) /\
  map gender_score (get_all_names ds') = map gender_score (get_all_names ds) /\
  _ranks_cache ds' = _ranks_cache ds.
Proof.
  intro ds'. subst ds'.
  pose proof (load_yearly_data_entries sort_values ds boys_file girls_file)
    as Hent.
  split; [exact Hent|]. split.
  - unfold get_all_names, dict_values. rewrite !map_map.
    assert (Hscore : forall d : dict string NameData,
               map (fun item => gender_score (snd item)) d
               = map (fun e => gender_score
                                 {| name := snd (fst (fst e));
                                    boys_total := snd (fst e);
                                    girls_total := snd e;
                                    boys_yearly := None;
                                    girls_yearly := None |})
                     (map entry_totals d)).
    { intro d. rewrite map_map. apply map_ext. intros [k nd].
      apply gender_score_totals; reflexivity. }
    rewrite !Hscore, Hent. reflexivity.
  - unfold load_yearly_data. destruct (_yearly_loaded ds); reflexivity.
Qed.

(** X12. [ensure_yearly_loaded] never loads anything: on a dataset whose
    yearly data is loaded it returns it unchanged, and on any other, as on
    every dataset fresh from [load], it fails on the attribute it lacks;
    after [load_yearly_data] it succeeds. *)
Theorem ensure_yearly_loaded_spec
        (sort_values : list LongRow -> list LongRow)
        (ds : NamesDataset) (boys_file girls_file : Table) :
  (forall ds', ensure_yearly_loaded ds = Some ds' ->
               ds' = ds /\ _yearly_loaded ds = true) /\
  (_yearly_loaded ds = false -> ensure_yearly_loaded ds = None) /\
  ensure_yearly_loaded (load boys_file girls_file) = None /\
  ensure_yearly_loaded (load_yearly_data sort_values ds boys_file girls_file)
  = Some (load_yearly_data sort_values ds boys_file girls_file).
Proof.
  unfold ensure_yearly_loaded. split; [|split; [|split]].
  - intros ds'. destruct (_yearly_loaded ds); [|discriminate].
    intros [= <-]. split; reflexivity.
  - intros ->. reflexivity.
  - rewrite load_eq. reflexivity.
  - rewrite load_yearly_data_loaded. reflexivity.
Qed.

(* ================================================================== *)
(** * Grouping the yearly rows *)

(** How [_build_yearly_dict] ends: the last run is stored. *)
Local Abbreviation finish_runs st :=
  (match st with
   | (result, Some cn, current_list) => dict_set result cn current_list
   | (result, None, _) => result
   end).

Lemma build_yearly_dict_finish (df : list LongRow) :
  _build_yearly_dict df = finish_runs (fold_left build_step df ([], None, [])).
Proof.
  unfold _build_yearly_dict.
  destruct (fold_left build_step df ([], None, [])) as [[result [cn|]] cl];
    reflexivity.
Qed.

Lemma rows_named_none (k : string) (df : list LongRow) :
  Forall (fun r => lr_name_lower r <> k) df -> rows_named k df = [].
Proof.
  induction 1 as [|r l Hr Hl IH]; simpl; [reflexivity|].
  apply String.eqb_neq in Hr. rewrite Hr. exact IH.
Qed.

Lemma build_step_some res cn cl (r : LongRow) :
  build_step (res, Some cn, cl) r
  = if String.eqb (lr_name_lower r) cn
    then (res, Some cn, cl ++ [yearly_count_of r])
    else (dict_set res cn cl, Some (lr_name_lower r), [yearly_count_of r]).
Proof. reflexivity. Qed.

Lemma build_step_none res cl (r : LongRow) :
  build_step (res, None, cl) r
  = (res, Some (lr_name_lower r), [yearly_count_of r]).
Proof. reflexivity. Qed.

(** The loop, from a state with a current name: what the final dictionary
    holds for each name. *)
Lemma rows_named_cons_eq (k : string) (r : LongRow) (rest : list LongRow) :
  lr_name_lower r = k -> rows_named k (r :: rest) = r :: rows_named k rest.
Proof.
  intro Heq. unfold rows_named. simpl.
  apply String.eqb_eq in Heq. rewrite Heq. reflexivity.
Qed.

Lemma rows_named_cons_neq (k : string) (r : LongRow) (rest : list LongRow) :
  lr_name_lower r <> k -> rows_named k (r :: rest) = rows_named k rest.
Proof.
  intro Hne. unfold rows_named. simpl.
  apply String.eqb_neq in Hne. rewrite Hne. reflexivity.
Qed.

Lemma build_runs (rest : list LongRow) : forall res cn cl k,
  sorted_by_name rest ->
  Forall (fun r => String.ltb (lr_name_lower r) cn = false) rest ->
  dict_get (finish_runs (fold_left build_step rest (res, Some cn, cl))) k
  = if String.eqb k cn
    then Some (cl ++ map yearly_count_of (rows_named cn rest))
    else match rows_named k rest with
         | [] => dict_get res k
         | rows_k => Some (map yearly_count_of rows_k)
         end.
Proof.
  induction rest as [|r rest IH]; intros res cn cl k Hs Hge.
  - simpl. destruct (String.eqb k cn) eqn:E.
    + apply String.eqb_eq in E. subst k.
      rewrite dict_get_set_same, app_nil_r. reflexivity.
    + apply String.eqb_neq in E. apply dict_get_set_other. congruence.
  - inversion Hs as [|? ? Hs' Hall]; subst.
    inversion Hge as [|? ? Hr Hge']; subst.
    cbn [fold_left]. rewrite build_step_some.
    destruct (String.eqb (lr_name_lower r) cn) eqn:Ern.
    + apply String.eqb_eq in Ern.
      rewrite (IH res cn _ k Hs' Hge').
      destruct (String.eqb k cn) eqn:E.
      * rewrite (rows_named_cons_eq cn r rest Ern). simpl map.
        rewrite <- app_assoc. reflexivity.
      * apply String.eqb_neq in E.
        rewrite (rows_named_cons_neq k r rest) by congruence. reflexivity.
    + apply String.eqb_neq in Ern.
      assert (Hlater : Forall (fun r' => String.ltb (lr_name_lower r')
                                           (lr_name_lower r) = false) rest)
        by exact Hall.
      rewrite (IH _ (lr_name_lower r) _ k Hs' Hlater).
      assert (Hcn : rows_named cn rest = []).
      { apply rows_named_none.
        rewrite Forall_forall in *. intros r' Hin Heq.
        specialize (Hlater r' Hin). rewrite Heq in Hlater.
        destruct (string_ltb_false_cases _ _ Hr) as [Hsame|Hlt];
          [congruence|].
        destruct (string_ltb_false_cases _ _ Hlater) as [Hsame|Hlt'];
          [congruence|].
        apply string_ltb_lt in Hlt, Hlt'.
        pose proof (string_compare_lt_trans _ _ _ Hlt Hlt') as Hc.
        rewrite string_compare_refl in Hc. discriminate. }
      destruct (String.eqb k cn) eqn:E.
      * apply String.eqb_eq in E. subst k.
        assert (Hne : String.eqb cn (lr_name_lower r) = false)
          by (apply String.eqb_neq; congruence).
        rewrite Hne, (rows_named_cons_neq cn r rest Ern), Hcn.
        rewrite dict_get_set_same, app_nil_r. reflexivity.
      * apply String.eqb_neq in E.
        destruct (String.eqb k (lr_name_lower r)) eqn:Ek.
        -- apply String.eqb_eq in Ek. subst k.
           rewrite (rows_named_cons_eq _ r rest eq_refl). reflexivity.
        -- apply String.eqb_neq in Ek.
           rewrite (rows_named_cons_neq k r rest) by congruence.
           destruct (rows_named k rest); [|reflexivity].
           apply dict_get_set_other. congruence.
Qed.

Lemma build_yearly_dict_grouped (df : list LongRow) (k : string) :
  sorted_by_name df -> dict_get (_build_yearly_dict df) k = grouped df k.
Proof.
  intro Hs. rewrite build_yearly_dict_finish. unfold grouped.
  destruct df as [|r rest]; [reflexivity|].
  inversion Hs as [|? ? Hs' Hall]; subst.
  cbn [fold_left]. rewrite build_step_none.
  rewrite (build_runs rest [] (lr_name_lower r) _ k Hs' Hall).
  destruct (String.eqb k (lr_name_lower r)) eqn:E.
  - apply String.eqb_eq in E. subst k.
    rewrite (rows_named_cons_eq _ r rest eq_refl). reflexivity.
  - apply String.eqb_neq in E.
    rewrite (rows_named_cons_neq k r rest) by congruence.
    destruct (rows_named k rest); reflexivity.
Qed.

(** X13. On a frame whose rows are sorted by lower-cased name,
    [_build_yearly_dict] groups correctly: a name with rows gets all of
    them, in frame order, as its sequence; a name without rows is not a
    key. *)
Theorem build_yearly_dict_groups (df : list LongRow) (k : string) :
  sorted_by_name df -> dict_get (_build_yearly_dict df) k = grouped df k.
Proof. apply build_yearly_dict_grouped. Qed.

Lemma build_yearly_dict_groups_witness :
  sorted_by_name (sorted lr_name_lower false (_load_yearly_raw sample_girls)) /\
  dict_get (_build_yearly_dict
              (sorted lr_name_lower false (_load_yearly_raw sample_girls)))
           "remy"%string
  = Some [ {| year := 1996; count := 6 |}; {| year := 1997; count := 0 |} ].
Proof.
  assert (Hs : sorted_by_name
                 (sorted lr_name_lower false (_load_yearly_raw sample_girls)))
    by apply sorted_in_order.
  split; [exact Hs|].
  rewrite (build_yearly_dict_groups _ "remy"%string Hs). reflexivity.
Defined.

Lemma Permutation_filter_same {A : Type} (p : A -> bool) (l l' : list A) :
  Permutation l l' -> Permutation (filter p l) (filter p l').
Proof.
  induction 1 as [|x l l' Hp IH|x y l|l l' l'' H1 IH1 H2 IH2]; simpl.
  - constructor.
  - destruct (p x); [apply perm_skip|]; exact IH.
  - destruct (p x), (p y); try reflexivity. apply perm_swap.
  - etransitivity; eassumption.
Qed.

Lemma StronglySorted_app {A : Type} (R : A -> A -> Prop) (l1 l2 : list A) :
  StronglySorted R l1 -> StronglySorted R l2 ->
  (forall a b, In a l1 -> In b l2 -> R a b) ->
  StronglySorted R (l1 ++ l2).
Proof.
  induction 1 as [|x l1 Hs IH Hall]; intros Hs2 Hcross; simpl; [exact Hs2|].
  constructor.
  - apply IH; [exact Hs2|].
    intros a b Ha Hb. apply Hcross; [right|]; assumption.
  - apply Forall_app. split; [exact Hall|].
    apply Forall_forall. intros b Hb.
    apply Hcross; [left; reflexivity|exact Hb].
Qed.

Lemma StronglySorted_rev {A : Type} (R : A -> A -> Prop) (l : list A) :
  StronglySorted R l -> StronglySorted (fun a b => R b a) (rev l).
Proof.
  induction 1 as [|x l Hs IH Hall]; simpl; [constructor|].
  apply StronglySorted_app; [exact IH|repeat constructor|].
  intros a b Ha [<-|[]]. apply in_rev in Ha.
  rewrite Forall_forall in Hall. apply Hall. exact Ha.
Qed.

(** The two sample sorts do what is asked of [sort_values]. *)
Lemma stable_sorts_by_name : sorts_by_name stable_sort_values.
Proof.
  intro df. unfold stable_sort_values. split.
  - apply sorted_perm.
  - apply sorted_in_order.
Qed.

Lemma reversing_sorts_by_name : sorts_by_name reversing_sort_values.
Proof.
  intro df. unfold reversing_sort_values. split.
  - rewrite <- Permutation_rev. apply sorted_perm.
  - apply (StronglySorted_rev (in_order lr_name_lower true)).
    apply sorted_in_order.
Qed.

(** A sort that keeps the rows keeps the rows of each name. *)
Lemma rows_named_perm (k : string) (df df' : list LongRow) :
  Permutation df df' -> Permutation (rows_named k df) (rows_named k df').
Proof. apply Permutation_filter_same. Qed.

Lemma grouped_same_counts (k : string) (df df' : list LongRow) :
  Permutation df df' -> same_counts (grouped df k) (grouped df' k).
Proof.
  intro Hp. apply (rows_named_perm k) in Hp. unfold grouped.
  destruct (rows_named k df) as [|r rs] eqn:E;
    destruct (rows_named k df') as [|r' rs'] eqn:E'; simpl.
  - exact I.
  - apply Permutation_nil in Hp. discriminate.
  - symmetry in Hp. apply Permutation_nil in Hp. discriminate.
  - change (Permutation (map yearly_count_of (r :: rs))
                        (map yearly_count_of (r' :: rs'))).
    apply Permutation_map. exact Hp.
Qed.

(** What the first [load_yearly_data] stores, whatever the sort. *)
Lemma load_yearly_data_names sort_values ds boys_file girls_file :
  _yearly_loaded ds = false ->
  _names (load_yearly_data sort_values ds boys_file girls_file)
  = map (fun item =>
           (fst item,
            with_yearly (snd item)
              (dict_get (_build_yearly_dict
                           (sort_values (_load_yearly_raw boys_file)))
                        (fst item))
              (dict_get (_build_yearly_dict
                           (sort_values (_load_yearly_raw girls_file)))
                        (fst item))))
        (_names ds).
Proof.
  intro Hl. unfold load_yearly_data. rewrite Hl. simpl.
  apply map_ext. intros [k nd]. simpl. unfold with_yearly.
  destruct (dict_get _ k); destruct (dict_get _ k); destruct nd; reflexivity.
Qed.

(** X14. The first [load_yearly_data] gives every entity, for each sex,
    the yearly counts of the rows of that sex's long-form frame whose
    lower-cased name is the entity's key: all of them, each once, in the
    order in which the sort leaves them, which need not be the order of
    the frame.  An entity without such a row keeps the field as it was;
    rows whose name is not a key of the catalog go nowhere (no entry is
    added). *)
Theorem load_yearly_data_content
        (sort_values : list LongRow -> list LongRow)
        (ds : NamesDataset) (boys_file girls_file : Table) :
  sorts_by_name sort_values ->
  _yearly_loaded ds = false ->
  let boys_df := _load_yearly_raw boys_file in
  let girls_df := _load_yearly_raw girls_file in
  _names (load_yearly_data sort_values ds boys_file girls_file)
  = map (fun item =>
           (fst item,
            with_yearly (snd item)
                        (grouped (sort_values boys_df) (fst item))
                        (grouped (sort_values girls_df) (fst item))))
        (_names ds) /\
  (forall k, same_counts (grouped (sort_values boys_df) k)
                         (grouped boys_df k)) /\
  (forall k, same_counts (grouped (sort_values girls_df) k)
                         (grouped girls_df k)) /\
  dict_keys (_names (load_yearly_data sort_values ds boys_file girls_file))
  = dict_keys (_names ds).
Proof.
  intros Hsort Hl boys_df girls_df.
  rewrite (load_yearly_data_names sort_values ds boys_file girls_file Hl).
  fold boys_df girls_df.
  split; [|split; [|split]].
  - apply map_ext. intros [k nd]. simpl.
    rewrite !build_yearly_dict_grouped by apply Hsort. reflexivity.
  - intro k. apply grouped_same_counts, Hsort.
  - intro k. apply grouped_same_counts, Hsort.
  - unfold dict_keys. rewrite map_map. reflexivity.
Qed.

Lemma load_yearly_data_content_witness :
  sorts_by_name reversing_sort_values /\
  _yearly_loaded (load sample_boys sample_girls) = false /\
  option_map boys_yearly
    (get_name (load_yearly_data reversing_sort_values
                                (load sample_boys sample_girls)
                                sample_boys sample_girls) "KIT")
  = Some (Some [ {| year := 1997; count := 6 |};
                 {| year := 1996; count := 5 |} ]) /\
  same_counts (Some [ {| year := 1997; count := 6 |};
                      {| year := 1996; count := 5 |} ])
              (Some [ {| year := 1996; count := 5 |};
                      {| year := 1997; count := 6 |} ]) /\
  option_map boys_yearly
    (get_name (load_yearly_data reversing_sort_values
                                (load sample_boys sample_girls)
                                sample_boys sample_girls) "Zoe")
  = Some None.
Proof.
  assert (Hl : _yearly_loaded (load sample_boys sample_girls) = false)
    by reflexivity.
  split; [exact reversing_sorts_by_name|]. split; [exact Hl|].
  destruct (load_yearly_data_content reversing_sort_values _
              sample_boys sample_girls reversing_sorts_by_name Hl)
    as [Hnames [Hboys _]].
  unfold get_name. rewrite Hnames.
  split; [reflexivity|]. split; [exact (Hboys "kit"%string)|reflexivity].
Defined.

(** [_build_yearly_dict] opens a list only to append a row to it: no
    sequence it stores is empty, whatever the order of the frame. *)
Lemma build_yearly_dict_nonempty (df : list LongRow) (k : string) :
  dict_get (_build_yearly_dict df) k <> Some [].
Proof.
  rewrite build_yearly_dict_finish.
  assert (Hinv : forall rest res cn cl,
             (forall k', dict_get res k' <> Some []) ->
             (cn <> None -> cl <> []) ->
             dict_get (finish_runs (fold_left build_step rest (res, cn, cl))) k
             <> Some []).
  { induction rest as [|r rest IH]; intros res cn cl Hres Hcl.
    - simpl. destruct cn as [cn|]; [|apply Hres].
      destruct (String.eqb cn k) eqn:E.
      + apply String.eqb_eq in E. subst k. rewrite dict_get_set_same.
        intros [= Hnil]. apply Hcl; [discriminate|exact Hnil].
      + apply String.eqb_neq in E. rewrite dict_get_set_other by exact E.
        apply Hres.
    - cbn [fold_left]. destruct cn as [cn|].
      + rewrite build_step_some.
        destruct (String.eqb (lr_name_lower r) cn).
        * apply IH; [exact Hres|]. intros _ Hnil.
          apply app_eq_nil in Hnil. destruct Hnil as [_ Hnil]. discriminate.
        * apply IH; [|intros _; discriminate].
          intro k'. destruct (String.eqb cn k') eqn:E.
          -- apply String.eqb_eq in E. subst k'. rewrite dict_get_set_same.
             intros [= Hnil]. apply Hcl; [discriminate|exact Hnil].
          -- apply String.eqb_neq in E.
             rewrite dict_get_set_other by exact E. apply Hres.
      + rewrite build_step_none. apply IH; [exact Hres|].
        intros _. discriminate. }
  apply Hinv; [intro k'; discriminate|intro Hc; exfalso; apply Hc; reflexivity].
Qed.

(** X15. After [load] and [load_yearly_data] no entity holds an empty
    yearly sequence: a sequence is absent or has at least one entry, so
    that an entity has yearly data exactly when one of its sequences is
    non-empty. *)
Theorem loaded_sequences_nonempty
        (sort_values : list LongRow -> list LongRow)
        (boys_file girls_file yearly_boys yearly_girls : Table) :
  Forall (fun nd => boys_yearly nd <> Some [] /\
                    girls_yearly nd <> Some [] /\
                    has_yearly_data nd
                    = negb (falsy (boys_yearly nd))
                      || negb (falsy (girls_yearly nd)))
         (get_all_names
            (load_yearly_data sort_values (load boys_file girls_file)
                              yearly_boys yearly_girls)).
Proof.
  unfold get_all_names.
  rewrite load_yearly_data_names by (rewrite load_eq; reflexivity).
  apply Forall_forall. intros nd Hin.
  unfold dict_values in Hin. rewrite map_map in Hin. simpl in Hin.
  apply in_map_iff in Hin. destruct Hin as [[k nd0] [<- Hin]]. simpl.
  assert (Hfresh : boys_yearly nd0 = None /\ girls_yearly nd0 = None).
  { rewrite load_eq in Hin. simpl in Hin.
    apply dict_of_pairs_In_inv, in_map_iff in Hin.
    destruct Hin as [m [Heq _]]. injection Heq as _ <-. split; reflexivity. }
  destruct Hfresh as [Hb Hg].
  pose proof (build_yearly_dict_nonempty
                (sort_values (_load_yearly_raw yearly_boys)) k) as Hnb.
  pose proof (build_yearly_dict_nonempty
                (sort_values (_load_yearly_raw yearly_girls)) k) as Hng.
  unfold has_yearly_data.
  destruct (dict_get (_build_yearly_dict
                        (sort_values (_load_yearly_raw yearly_boys))) k)
    as [[|b0 b]|];
    destruct (dict_get (_build_yearly_dict
                          (sort_values (_load_yearly_raw yearly_girls))) k)
      as [[|g0 g]|];
    try contradiction; simpl; rewrite ?Hb, ?Hg;
    repeat split; (discriminate || reflexivity).
Qed.

(* ================================================================== *)
(** * The long-form frame *)

(** The rows [_load_yearly_raw] keeps: a name, not blank, and its cells. *)
Local Abbreviation named_rows t :=
  (flat_map (fun r : option string * list (option Q) =>
               match fst r with
               | Some n => if strip_is_empty n then [] else [(n, snd r)]
               | None => []
               end) (rows t)).

(** The long-form rows of one column. *)
Local Abbreviation melt_column result :=
  (fun jy : nat * Z =>
     flat_map (fun r : string * list (option Q) =>
                 match nth (fst jy) (snd r) None with
                 | Some c => [ {| lr_name := fst r;
                                  lr_name_lower := lower (fst r);
                                  lr_year := snd jy;
                                  lr_count := c |} ]
                 | None => []
                 end) result).


(* ================================================================== *)
(** * Totals against yearly sequences *)




(** The counts a row holds: its cells with data, in column order. *)
Local Abbreviation present :=
  (fun c : option Q => match c with Some q => [q] | None => [] end).
















(* ================================================================== *)
(** * Ranks depend on names and totals only *)

Lemma sorted_map {A B K : Type} `{PyOrd K} (key : B -> K) (rev : bool)
      (f : A -> B) (l : list A) :
  sorted key rev (map f l) = map f (sorted (fun x => key (f x)) rev l).
Proof.
  induction l as [|x l IH]; [reflexivity|].
  simpl. rewrite IH. clear IH.
  induction (sorted (fun x => key (f x)) rev l) as [|y s IHs];
    [reflexivity|].
  simpl. unfold precedes. simpl.
  destruct (if rev then py_lt (key (f x)) (key (f y))
            else py_lt (key (f y)) (key (f x))); [|reflexivity].
  simpl. f_equal. exact IHs.
Qed.

Lemma sort_insert_key_ext {A K : Type} `{PyOrd K} (k1 k2 : A -> K)
      (rev : bool) (x : A) (l : list A) :
  (forall y, k1 y = k2 y) -> sort_insert k1 rev x l = sort_insert k2 rev x l.
Proof.
  intro Hk. induction l as [|y l IH]; [reflexivity|].
  simpl. unfold precedes. rewrite !Hk, IH. reflexivity.
Qed.

Lemma sorted_key_ext {A K : Type} `{PyOrd K} (k1 k2 : A -> K) (rev : bool)
      (l : list A) :
  (forall y, k1 y = k2 y) -> sorted k1 rev l = sorted k2 rev l.
Proof.
  intro Hk. induction l as [|x l IH]; [reflexivity|].
  simpl. rewrite IH. apply sort_insert_key_ext. exact Hk.
Qed.

(** The display names in sorted order, read off keys, names and totals. *)
Lemma sorted_names_by_totals (count : NameData -> Q)
      (count_of : string * string * Q * Q -> Q) (d : dict string NameData) :
  (forall item, count (snd item) = count_of (entry_totals item)) ->
  map name (sorted count true (dict_values d))
  = map (fun e => snd (fst (fst e)))
        (sorted count_of true (map entry_totals d)).
Proof.
  intro Hc. unfold dict_values. rewrite !sorted_map, !map_map.
  rewrite (sorted_key_ext (fun x => count (snd x))
                          (fun x => count_of (entry_totals x)) true d Hc).
  reflexivity.
Qed.

Lemma rank_map_by_names (l l' : list NameData) :
  map name l = map name l' -> rank_map l = rank_map l'.
Proof.
  intro Hn. unfold rank_map, enumerate. f_equal.
  assert (Hgen : forall (m : list NameData) start,
             map (fun rn => (name (snd rn), (fst rn + 1)%Z))
                 (enumerate_from start m)
             = map (fun rn => (snd rn, (fst rn + 1)%Z))
                   (enumerate_from start (map name m))).
  { induction m as [|x m IH]; intro start; simpl; [reflexivity|].
    rewrite IH. reflexivity. }
  rewrite !Hgen, Hn. reflexivity.
Qed.

Section SameTotals.
Variables ds ds' : NamesDataset.
Hypothesis same_entries :
  map entry_totals (_names ds') = map entry_totals (_names ds).
Hypothesis same_cache : _ranks_cache ds' = _ranks_cache ds.

Lemma same_names :
  map name (dict_values (_names ds')) = map name (dict_values (_names ds)).
Proof.
  assert (Hn : forall d : dict string NameData,
             map name (dict_values d)
             = map (fun e => snd (fst (fst e))) (map entry_totals d))
    by (intro d; unfold dict_values; rewrite !map_map; reflexivity).
  rewrite !Hn, same_entries. reflexivity.
Qed.

Lemma same_sorted_names (count : NameData -> Q)
      (count_of : string * string * Q * Q -> Q) :
  (forall item, count (snd item) = count_of (entry_totals item)) ->
  map name (sorted count true (dict_values (_names ds')))
  = map name (sorted count true (dict_values (_names ds))).
Proof.
  intro Hc.
  rewrite !(sorted_names_by_totals count count_of _ Hc), same_entries.
  reflexivity.
Qed.

Lemma same_sorted_by_total :
  map name (sorted total_count true (dict_values (_names ds')))
  = map name (sorted total_count true (dict_values (_names ds))).
Proof.
  apply (same_sorted_names total_count (fun e => snd (fst e) + snd e)).
  reflexivity.
Qed.

Lemma same_ranks_of (nd nd' : NameData) :
  name nd' = name nd ->
  ranks_of (dict_values (_names ds')) nd' = ranks_of (dict_values (_names ds)) nd.
Proof.
  intro Hn. unfold ranks_of, position_rank. rewrite Hn.
  rewrite (rank_map_by_names _ _ same_sorted_by_total).
  rewrite (rank_map_by_names _ _
             (same_sorted_names boys_total (fun e => snd (fst e))
                                (fun _ => eq_refl))).
  rewrite (rank_map_by_names _ _
             (same_sorted_names girls_total (fun e => snd e)
                                (fun _ => eq_refl))).
  reflexivity.
Qed.

Lemma same_ranks_cache_after : ranks_cache_after ds' = ranks_cache_after ds.
Proof.
  unfold ranks_cache_after. rewrite same_cache.
  destruct (_ranks_cache ds); [reflexivity|].
  assert (Hc : forall d : NamesDataset,
             map (fun nd => (name nd, ranks_of (dict_values (_names d)) nd))
                 (dict_values (_names d))
             = map (fun n => (n, ranks_of (dict_values (_names d))
                                          (entity n 0 0)))
                   (map name (dict_values (_names d)))).
  { intro d. rewrite map_map. apply map_ext. intro nd. f_equal. }
  rewrite !Hc, same_names. apply map_ext. intro n. f_equal.
  apply same_ranks_of. reflexivity.
Qed.

Lemma same_named_ranks (top_n : Z) :
  named_ranks
    (map (fun nd => (nd, cached_ranks (ranks_cache_after ds') nd))
         (let all_names :=
            sorted total_count true (dict_values (_names ds')) in
          if (0 <? top_n)%Z then slice_to all_names top_n else all_names))
  = named_ranks
      (map (fun nd => (nd, cached_ranks (ranks_cache_after ds) nd))
           (let all_names :=
              sorted total_count true (dict_values (_names ds)) in
            if (0 <? top_n)%Z then slice_to all_names top_n else all_names)).
Proof.
  rewrite same_ranks_cache_after. unfold named_ranks. cbv zeta.
  assert (Hshape : forall l : list NameData,
             map (fun p => (name (fst p), snd p))
                 (map (fun nd => (nd, cached_ranks (ranks_cache_after ds) nd))
                      (if (0 <? top_n)%Z then slice_to l top_n else l))
             = map (fun n => (n, dict_get_default (ranks_cache_after ds) n
                                   {| overall := 0; boys := 0; girls := 0 |}))
                   (if (0 <? top_n)%Z then slice_to (map name l) top_n
                    else map name l)).
  { intro l. rewrite map_map. simpl.
    destruct (0 <? top_n)%Z; [rewrite slice_to_map|]; rewrite map_map;
      reflexivity. }
  rewrite !Hshape, same_sorted_by_total. reflexivity.
Qed.
End SameTotals.

(** X18. Loading the yearly data changes no rank: on a dataset of the
    program [get_ranked_names] lists the same display names with the same
    ranks, in the same order, before and after [load_yearly_data], and
    leaves the same rank cache. *)
Theorem ranks_survive_yearly_load
        (sort_values : list LongRow -> list LongRow)
        (ds : NamesDataset) (boys_file girls_file : Table) (top_n : Z) :
  reachable ds ->
  exists ds1 res1 ds2 res2,
    get_ranked_names ds top_n = Some (ds1, res1) /\
    get_ranked_names (load_yearly_data sort_values ds boys_file girls_file)
                     top_n
    = Some (ds2, res2) /\
    named_ranks res2 = named_ranks res1 /\
    _ranks_cache ds2 = _ranks_cache ds1.
Proof.
  intro Hr. pose proof (reachable_catalog_ok ds Hr) as Hok.
  pose proof (load_yearly_data_catalog_ok sort_values ds boys_file girls_file
                Hok) as Hok'.
  pose proof (load_yearly_data_entries sort_values ds boys_file girls_file)
    as Hent.
  assert (Hcache : _ranks_cache (load_yearly_data sort_values ds boys_file
                                                  girls_file)
                   = _ranks_cache ds)
    by (unfold load_yearly_data; destruct (_yearly_loaded ds); reflexivity).
  do 4 eexists.
  split; [apply get_ranked_names_eq; exact Hok|].
  split; [apply get_ranked_names_eq; exact Hok'|].
  split; [apply same_named_ranks; assumption|].
  simpl. f_equal. apply same_ranks_cache_after; assumption.
Qed.

Lemma ranks_survive_yearly_load_witness :
  reachable (load sample_boys sample_girls) /\
  option_map (fun r => named_ranks (snd r))
    (get_ranked_names (load_yearly_data stable_sort_values
                                        (load sample_boys sample_girls)
                                        sample_boys sample_girls) 2)
  = option_map (fun r => named_ranks (snd r))
      (get_ranked_names (load sample_boys sample_girls) 2).
Proof.
  assert (Hr : reachable (load sample_boys sample_girls)) by apply reach_load.
  split; [exact Hr|].
  destruct (ranks_survive_yearly_load stable_sort_values _
              sample_boys sample_girls 2 Hr)
    as [ds1 [res1 [ds2 [res2 [H1 [H2 [Heq _]]]]]]].
  rewrite H1, H2. simpl. rewrite Heq. reflexivity.
Defined.

(* ================================================================== *)
(** * strip_ansi_codes *)

Lemma skip_params_length (s : string) :
  (String.length (skip_params s) <= String.length s)%nat.
Proof.
  induction s as [|c s IH]; simpl; [lia|].
  destruct (is_sgr_param c); simpl; lia.
Qed.

Lemma match_ansi_shorter (s rest : string) :
  match_ansi s = Some rest -> (String.length rest < String.length s)%nat.
Proof.
  destruct s as [|c1 [|c2 s']]; simpl; try discriminate.
  destruct (Ascii.eqb c1 esc && Ascii.eqb c2 "["); [|discriminate].
  pose proof (skip_params_length s') as Hlen.
  destruct (skip_params s') as [|c3 r]; [discriminate|].
  destruct (Ascii.eqb c3 "m"); [|discriminate].
  intros [= <-]. simpl in Hlen. lia.
Qed.

(** Enough fuel is as good as any. *)
Lemma sub_ansi_fuel (fuel1 : nat) : forall fuel2 s,
  (String.length s <= fuel1)%nat -> (String.length s <= fuel2)%nat ->
  sub_ansi fuel1 s = sub_ansi fuel2 s.
Proof.
  induction fuel1 as [|f1 IH]; intros [|f2] [|c s] H1 H2;
    cbn [String.length] in H1, H2; try reflexivity; try lia.
  cbn [sub_ansi].
  destruct (match_ansi (String c s)) as [rest|] eqn:E.
  - apply match_ansi_shorter in E. cbn [String.length] in E. apply IH; lia.
  - f_equal. apply IH; lia.
Qed.

Lemma strip_ansi_codes_cons (c : ascii) (s : string) :
  strip_ansi_codes (String c s)
  = match match_ansi (String c s) with
    | Some rest => strip_ansi_codes rest
    | None => String c (strip_ansi_codes s)
    end.
Proof.
  unfold strip_ansi_codes. cbn [String.length sub_ansi].
  destruct (match_ansi (String c s)) as [rest|] eqn:E.
  - apply match_ansi_shorter in E. cbn [String.length] in E.
    apply sub_ansi_fuel; lia.
  - reflexivity.
Qed.

Lemma match_ansi_not_esc (c : ascii) (s : string) :
  Ascii.eqb c esc = false -> match_ansi (String c s) = None.
Proof.
  intro Hc. destruct s as [|c2 s']; simpl; [reflexivity|].
  rewrite Hc. reflexivity.
Qed.

Lemma sub_ansi_length (fuel : nat) : forall s,
  (String.length s <= fuel)%nat ->
  (String.length (sub_ansi fuel s) <= String.length s)%nat.
Proof.
  induction fuel as [|f IH]; intros [|c s] Hlen;
    cbn [String.length sub_ansi] in *; try lia.
  destruct (match_ansi (String c s)) as [rest|] eqn:E.
  - apply match_ansi_shorter in E. cbn [String.length] in E.
    specialize (IH rest ltac:(lia)). lia.
  - cbn [String.length]. specialize (IH s ltac:(lia)). lia.
Qed.

(** X19. [strip_ansi_codes] leaves a text without ESC characters as it is,
    and never returns more characters than it was given. *)
Theorem strip_ansi_codes_plain (text : string) :
  (esc_free text = true -> strip_ansi_codes text = text) /\
  (String.length (strip_ansi_codes text) <= String.length text)%nat.
Proof.
  split.
  - induction text as [|c s IH]; [reflexivity|].
    simpl. rewrite andb_true_iff, negb_true_iff. intros [Hc Hs].
    rewrite strip_ansi_codes_cons, (match_ansi_not_esc c s Hc), (IH Hs).
    reflexivity.
  - apply sub_ansi_length. lia.
Qed.

Lemma strip_ansi_codes_plain_witness :
  esc_free "Top Boys Names" = true /\
  strip_ansi_codes "Top Boys Names" = "Top Boys Names"%string.
Proof.
  assert (Hfree : esc_free "Top Boys Names" = true) by reflexivity.
  split; [exact Hfree|].
  exact (proj1 (strip_ansi_codes_plain "Top Boys Names") Hfree).
Defined.

Lemma skip_params_code (params rest : string) :
  all_sgr_params params = true ->
  skip_params (String.append params (String "m" rest)) = String "m" rest.
Proof.
  induction params as [|c ps IH]; simpl; [reflexivity|].
  rewrite andb_true_iff. intros [Hc Hps]. rewrite Hc. apply IH. exact Hps.
Qed.

Lemma append_assoc (a b c : string) :
  String.append (String.append a b) c = String.append a (String.append b c).
Proof.
  induction a as [|x a IH]; simpl; [reflexivity|]. rewrite IH. reflexivity.
Qed.

(** X20. A colour code [ESC [ params m] after a text without ESC characters
    is removed, the text kept, and stripping goes on with what follows the
    code. *)
Theorem strip_ansi_codes_code (text params rest : string) :
  esc_free text = true -> all_sgr_params params = true ->
  strip_ansi_codes (String.append text (String.append (sgr_code params) rest))
  = String.append text (strip_ansi_codes rest).
Proof.
  intros Hfree Hparams. induction text as [|c s IH].
  - cbn [String.append]. unfold sgr_code. cbn [String.append].
    rewrite strip_ansi_codes_cons. unfold match_ansi.
    rewrite !Ascii.eqb_refl. cbn [andb].
    rewrite append_assoc. cbn [String.append].
    rewrite (skip_params_code params rest Hparams).
    rewrite Ascii.eqb_refl. reflexivity.
  - cbn [esc_free] in Hfree. apply andb_true_iff in Hfree.
    destruct Hfree as [Hc Hs]. apply negb_true_iff in Hc.
    cbn [String.append].
    rewrite strip_ansi_codes_cons, (match_ansi_not_esc _ _ Hc), (IH Hs).
    reflexivity.
Qed.

Lemma strip_ansi_codes_code_witness :
  esc_free "Year " = true /\ all_sgr_params "1;34" = true /\
  strip_ansi_codes
    (String.append "Year " (String.append (sgr_code "1;34") "Count"))
  = "Year Count"%string.
Proof.
  assert (Hfree : esc_free "Year " = true) by reflexivity.
  assert (Hparams : all_sgr_params "1;34" = true) by reflexivity.
  split; [exact Hfree|]. split; [exact Hparams|].
  rewrite (strip_ansi_codes_code "Year " "1;34" "Count" Hfree Hparams).
  reflexivity.
Defined.

(* ================================================================== *)
(** * The rank cache is never stale *)

Lemma same_computed_cache ds ds' :
  map entry_totals (_names ds') = map entry_totals (_names ds) ->
  computed_cache ds' = computed_cache ds.
Proof.
  intro Hent. unfold computed_cache.
  assert (Hc : forall d : NamesDataset,
             map (fun nd => (name nd, ranks_of (dict_values (_names d)) nd))
                 (dict_values (_names d))
             = map (fun n => (n, ranks_of (dict_values (_names d))
                                          (entity n 0 0)))
                   (map name (dict_values (_names d)))).
  { intro d. rewrite map_map. apply map_ext. intro nd. f_equal. }
  rewrite !Hc, (same_names ds ds' Hent). apply map_ext. intro n. f_equal.
  apply same_ranks_of; [exact Hent|reflexivity].
Qed.

Lemma ranks_cache_after_fresh ds :
  cache_fresh ds -> ranks_cache_after ds = computed_cache ds.
Proof.
  unfold cache_fresh, ranks_cache_after, computed_cache.
  destruct (_ranks_cache ds); [tauto|reflexivity].
Qed.

Lemma reachable_cache_fresh ds : reachable ds -> cache_fresh ds.
Proof.
  induction 1 as [b g|sv ds b g Hr IH|ds top_n ds' res Hr IH Hget].
  - rewrite load_eq. exact I.
  - unfold cache_fresh in *.
    assert (Hcache : _ranks_cache (load_yearly_data sv ds b g)
                     = _ranks_cache ds)
      by (unfold load_yearly_data; destruct (_yearly_loaded ds); reflexivity).
    rewrite Hcache.
    rewrite (same_computed_cache ds _ (load_yearly_data_entries sv ds b g)).
    exact IH.
  - rewrite (get_ranked_names_eq ds top_n (reachable_catalog_ok ds Hr)) in Hget.
    injection Hget as <- _.
    change (ranks_cache_after ds = computed_cache ds).
    apply ranks_cache_after_fresh. exact IH.
Qed.

Lemma computed_cache_lookup ds nd :
  catalog_ok ds -> In nd (dict_values (_names ds)) ->
  dict_get (computed_cache ds) (name nd)
  = Some (ranks_of (dict_values (_names ds)) nd).
Proof.
  intros Hok Hin. apply ranks_cache_lookup; [|exact Hin].
  apply catalog_names_NoDup. exact Hok.
Qed.

(** X21. The rank cache is never stale: after any sequence of loads and
    queries, the cache [get_ranked_names] leaves (computed now or found
    from an earlier call, before the yearly data was loaded) is in each of
    its three dimensions the dense ranking of the entities as they are. *)
Theorem ranks_always_current (ds : NamesDataset) (top_n : Z) :
  reachable ds ->
  exists ds' cache res,
    get_ranked_names ds top_n = Some (ds', res) /\
    _ranks_cache ds' = Some cache /\
    dense_ranking cache overall total_count (dict_values (_names ds)) /\
    dense_ranking cache boys boys_total (dict_values (_names ds)) /\
    dense_ranking cache girls girls_total (dict_values (_names ds)).
Proof.
  intro Hr. pose proof (reachable_catalog_ok ds Hr) as Hok.
  pose proof (ranks_cache_after_fresh ds (reachable_cache_fresh ds Hr)) as Hc.
  pose proof (catalog_names_NoDup ds Hok) as Hnd.
  exists (dataset_after ds), (ranks_cache_after ds). eexists.
  split; [apply get_ranked_names_eq; exact Hok|]. split; [reflexivity|].
  rewrite Hc.
  split; [|split]; apply dense_ranking_intro; try exact Hnd;
    intros nd Hin; unfold rank_in;
    rewrite (computed_cache_lookup ds nd Hok Hin); reflexivity.
Qed.

Lemma ranks_always_current_witness :
  reachable (load_yearly_data stable_sort_values
               (dataset_after (load sample_boys sample_girls))
               sample_boys sample_girls) /\
  exists ds' cache res,
    get_ranked_names
      (load_yearly_data stable_sort_values
                        (dataset_after (load sample_boys sample_girls))
                        sample_boys sample_girls) 0
    = Some (ds', res) /\
    _ranks_cache ds' = Some cache /\
    dense_ranking cache boys boys_total
      (dict_values
         (_names (load_yearly_data stable_sort_values
                    (dataset_after (load sample_boys sample_girls))
                    sample_boys sample_girls))).
Proof.
  assert (Hr : reachable (load_yearly_data stable_sort_values
                            (dataset_after (load sample_boys sample_girls))
                            sample_boys sample_girls)).
  { apply reach_yearly.
    apply (reach_ranked (load sample_boys sample_girls) 0 _
             (map (fun nd => (nd, cached_ranks
                                    (ranks_cache_after
                                       (load sample_boys sample_girls)) nd))
                  (sorted total_count true
                          (dict_values
                             (_names (load sample_boys sample_girls)))))).
    - apply reach_load.
    - reflexivity. }
  split; [exact Hr|].
  destruct (ranks_always_current _ 0 Hr)
    as [ds' [cache [res [Hget [Hc [_ [Hb _]]]]]]].
  exists ds', cache, res. split; [exact Hget|]. split; [exact Hc|exact Hb].
Defined.

(* ================================================================== *)
(** * The commands score and popular *)

Lemma sort_insert_lt_ext {A K : Type} `{PyOrd K} (k1 k2 : A -> K)
      (rev : bool) (x : A) (l : list A) :
  (forall a b, py_lt (k1 a) (k1 b) = py_lt (k2 a) (k2 b)) ->
  sort_insert k1 rev x l = sort_insert k2 rev x l.
Proof.
  intro Hk. induction l as [|y l IH]; [reflexivity|].
  simpl. unfold precedes. rewrite !Hk, IH. reflexivity.
Qed.

(** Keys that compare alike sort alike. *)
Lemma sorted_lt_ext {A K : Type} `{PyOrd K} (k1 k2 : A -> K) (rev : bool)
      (l : list A) :
  (forall a b, py_lt (k1 a) (k1 b) = py_lt (k2 a) (k2 b)) ->
  sorted k1 rev l = sorted k2 rev l.
Proof.
  intro Hk. induction l as [|x l IH]; [reflexivity|].
  simpl. rewrite IH. apply sort_insert_lt_ext. exact Hk.
Qed.

Lemma Qabs_minus_0 (a : Q) : Qabs (a - 0) == Qabs a.
Proof. apply Qabs_wd. ring. Qed.

(** The rows of a table: row [i] (from 0) is made from pair [i] of the
    listing; its "Rank" cell counts from 1, and a rank cell shows "-" for a
    zero total. *)
Lemma create_table_row (title : string) (l : list (NameData * Ranks))
      (i : nat) (row : TableRow) :
  nth_error (table_rows (create_table title l)) i = Some row ->
  exists nd r,
    nth_error l i = Some (nd, r) /\
    row_rank row = (Z.of_nat i + 1)%Z /\
    row_name row = name nd /\
    row_girls_rank row
    = (if Qeq_bool (girls_total nd) 0 then Dash else RankShown (girls r)) /\
    row_boys_rank row
    = (if Qeq_bool (boys_total nd) 0 then Dash else RankShown (boys r)) /\
    row_overall_rank row = overall r.
Proof.
  unfold create_table. cbn [table_rows].
  assert (Hgen : forall start,
             nth_error
               (map (fun item : Z * (NameData * Ranks) =>
                       let '(rank, (name_data, ranks)) := item in
                       {| row_rank := rank;
                          row_name := name name_data;
                          row_gender_score := gender_score name_data;
                          row_girls_rank :=
                            if Qeq_bool (girls_total name_data) 0 then Dash
                            else RankShown (girls ranks);
                          row_boys_rank :=
                            if Qeq_bool (boys_total name_data) 0 then Dash
                            else RankShown (boys ranks);
                          row_overall_rank := overall ranks;
                          row_girls := int_of_float (girls_total name_data);
                          row_boys := int_of_float (boys_total name_data);
                          row_total_count :=
                            int_of_float (total_count name_data) |})
                    (enumerate_from start l)) i = Some row ->
             exists nd r,
               nth_error l i = Some (nd, r) /\
               row_rank row = (start + Z.of_nat i)%Z /\
               row_name row = name nd /\
               row_girls_rank row
               = (if Qeq_bool (girls_total nd) 0 then Dash
                  else RankShown (girls r)) /\
               row_boys_rank row
               = (if Qeq_bool (boys_total nd) 0 then Dash
                  else RankShown (boys r)) /\
               row_overall_rank row = overall r).
  { revert i. induction l as [|[nd r] l IH]; intros [|i] start; simpl;
      try discriminate.
    - intros [= <-]. exists nd, r. simpl.
      repeat split; try reflexivity. lia.
    - intro Hn. destruct (IH i (start + 1)%Z Hn) as [nd' [r' [H1 [H2 H3]]]].
      exists nd', r'. split; [exact H1|]. split; [|exact H3].
      rewrite H2. lia. }
  intro Hn. destruct (Hgen 1%Z Hn) as [nd [r [H1 [H2 H3]]]].
  exists nd, r. split; [exact H1|]. split; [|exact H3]. rewrite H2. lia.
Qed.

Lemma score_eq ds top :
  catalog_ok ds ->
  score ds top
  = let res :=
      map (fun nd => (nd, cached_ranks (ranks_cache_after ds) nd))
          (let all_names :=
             sorted total_count true (dict_values (_names ds)) in
           if (0 <? top)%Z then slice_to all_names top else all_names) in
    Finished (dataset_after ds)
      [OutTable (create_table "Top Masculine Names"
         (slice_to (sorted (fun x => gender_score (fst x)) false res) 10));
       OutBlank;
       OutTable (create_table "Top Feminine Names"
         (slice_to (sorted (fun x => gender_score (fst x)) true res) 10));
       OutBlank;
       OutTable (create_table "Most Gender-Neutral Names"
         (slice_to (sorted (fun x => Qabs (gender_score (fst x))) false res)
                   10))].
Proof.
  intro Hok. unfold score. rewrite (get_ranked_names_eq ds top Hok).
  reflexivity.
Qed.

(** X22. On a dataset of the program [score] prints three tables over the
    ranked names it considers.  Each has at most ten rows.  The masculine
    table holds names scored no higher, the feminine table names scored no
    lower, than every name left out of it.  The neutral table lists the
    entities [find_closest_to_score] returns for target 0 and n = 10. *)
Theorem score_tables (ds : NamesDataset) (top : Z) :
  reachable ds ->
  exists ds' res masculine feminine neutral,
    get_ranked_names ds top = Some (ds', res) /\
    score ds top
    = Finished ds'
        [OutTable (create_table "Top Masculine Names" masculine); OutBlank;
         OutTable (create_table "Top Feminine Names" feminine); OutBlank;
         OutTable (create_table "Most Gender-Neutral Names" neutral)] /\
    (List.length masculine <= 10 /\ List.length feminine <= 10 /\
     List.length neutral <= 10)%nat /\
    (exists rest, Permutation (masculine ++ rest) res /\
       forall a b, In a masculine -> In b rest ->
                   gender_score (fst a) <= gender_score (fst b)) /\
    (exists rest, Permutation (feminine ++ rest) res /\
       forall a b, In a feminine -> In b rest ->
                   gender_score (fst b) <= gender_score (fst a)) /\
    map fst neutral = find_closest_to_score (map fst res) 0 10.
Proof.
  intro Hr. pose proof (reachable_catalog_ok ds Hr) as Hok.
  do 5 eexists.
  split; [apply get_ranked_names_eq; exact Hok|].
  split; [rewrite (score_eq ds top Hok); reflexivity|].
  cbv zeta.
  set (res := map (fun nd => (nd, cached_ranks (ranks_cache_after ds) nd)) _).
  split.
  { assert (Hlen : forall l : list (NameData * Ranks),
               (List.length (slice_to l 10) <= 10)%nat).
    { intro l. pose proof (slice_to_length l 10) as Hl.
      simpl in Hl. lia. }
    repeat split; apply Hlen. }
  split.
  { destruct (slice_to_sorted_split
                (fun a b : NameData * Ranks =>
                   gender_score (fst a) <= gender_score (fst b))
                (sorted (fun x => gender_score (fst x)) false res) 10)
      as [rest [Heq Hopt]].
    - eapply StronglySorted_weaken;
        [|apply (sorted_in_order (fun x : NameData * Ranks =>
                                    gender_score (fst x)) false)].
      intros a b Hab. apply Qltb_ge. exact Hab.
    - exists rest. split; [|exact Hopt].
      rewrite <- Heq. apply sorted_perm. }
  split.
  { destruct (slice_to_sorted_split
                (fun a b : NameData * Ranks =>
                   gender_score (fst b) <= gender_score (fst a))
                (sorted (fun x => gender_score (fst x)) true res) 10)
      as [rest [Heq Hopt]].
    - eapply StronglySorted_weaken;
        [|apply (sorted_in_order (fun x : NameData * Ranks =>
                                    gender_score (fst x)) true)].
      intros a b Hab. apply Qltb_ge. exact Hab.
    - exists rest. split; [|exact Hopt].
      rewrite <- Heq. apply sorted_perm. }
  rewrite find_closest_to_score_slice, <- slice_to_map. f_equal.
  rewrite (sorted_map (fun nd => Qabs (gender_score nd - 0)) false fst res).
  f_equal. apply sorted_lt_ext. intros a b. simpl.
  apply Qltb_comp; symmetry; apply Qabs_minus_0.
Qed.

Lemma score_tables_witness :
  reachable (load sample_boys sample_girls) /\
  exists ds' res neutral,
    get_ranked_names (load sample_boys sample_girls) 1000 = Some (ds', res) /\
    In (OutTable (create_table "Most Gender-Neutral Names" neutral))
       (match score (load sample_boys sample_girls) 1000 with
        | Finished _ console => console
        | _ => []
        end) /\
    map fst neutral = find_closest_to_score (map fst res) 0 10.
Proof.
  assert (Hr : reachable (load sample_boys sample_girls)) by apply reach_load.
  split; [exact Hr|].
  destruct (score_tables _ 1000 Hr)
    as [ds' [res [m [f [u [Hget [Hscore [_ [_ [_ Hu]]]]]]]]]].
  exists ds', res, u. split; [exact Hget|]. split; [|exact Hu].
  rewrite Hscore. simpl. tauto.
Defined.

Lemma filter_perm_single {A : Type} (p : A -> bool) (l l' : list A) :
  Permutation l l' -> NoDup l ->
  (forall a b, In a l -> In b l -> p a = true -> p b = true -> a = b) ->
  filter p l = filter p l'.
Proof.
  intros Hperm Hnd Hone.
  pose proof (Permutation_filter_same p l l' Hperm) as Hf.
  pose proof (NoDup_filter p Hnd) as Hndf.
  destruct (filter p l) as [|x [|y r]] eqn:E.
  - apply Permutation_nil in Hf. symmetry. exact Hf.
  - apply Permutation_length_1_inv in Hf. symmetry. exact Hf.
  - exfalso.
    assert (Hx : In x (filter p l)) by (rewrite E; left; reflexivity).
    assert (Hy : In y (filter p l)) by (rewrite E; right; left; reflexivity).
    apply filter_In in Hx, Hy.
    assert (Hxy : x = y) by (apply Hone; tauto).
    subst y. inversion Hndf as [|? ? Hnot _]; subst.
    apply Hnot. left. reflexivity.
Qed.

(** With no two elements tied, sorting forgets the order of its input. *)
Lemma sorted_perm_distinct {A K : Type} `{StrictWeak K} (key : A -> K)
      (rev : bool) (l l' : list A) :
  Permutation l l' -> NoDup l ->
  (forall a b, In a l -> In b l ->
     py_lt (key a) (key b) = false -> py_lt (key b) (key a) = false ->
     a = b) ->
  sorted key rev l = sorted key rev l'.
Proof.
  intros Hperm Hnd Hdistinct.
  apply (stable_sort_unique key rev l' (sorted key rev l)).
  - rewrite sorted_perm. exact Hperm.
  - apply sorted_in_order.
  - intro k. rewrite sorted_stable.
    apply filter_perm_single; [exact Hperm|exact Hnd|].
    intros a b Ha Hb Ta Tb. apply Hdistinct; try assumption.
    + apply (ties_not_precedes key false k b a Tb Ta).
    + apply (ties_not_precedes key false k a b Ta Tb).
Qed.

Lemma nth_error_firstn_Some {A : Type} (m : nat) : forall (l : list A) i x,
  nth_error (firstn m l) i = Some x -> nth_error l i = Some x.
Proof.
  induction m as [|m IH]; intros [|y l] [|i] x; simpl; try discriminate;
    try tauto.
  apply IH.
Qed.

Lemma nth_error_slice_to {A : Type} (l : list A) (n : Z) i x :
  nth_error (slice_to l n) i = Some x -> nth_error l i = Some x.
Proof.
  destruct (slice_to_prefix l n) as [m [-> _]]. apply nth_error_firstn_Some.
Qed.

Lemma popular_eq ds n :
  catalog_ok ds ->
  popular ds n
  = let all_ranked :=
      map (fun nd => (nd, cached_ranks (ranks_cache_after ds) nd))
          (sorted total_count true (dict_values (_names ds))) in
    Finished (dataset_after ds)
      [OutTable (create_table "Top Boys Names"
         (slice_to (sorted (fun x => boys_total (fst x)) true all_ranked) n));
       OutBlank;
       OutTable (create_table "Top Girls Names"
         (slice_to (sorted (fun x => girls_total (fst x)) true all_ranked) n))].
Proof.
  intro Hok. unfold popular. rewrite (get_ranked_names_eq ds 0 Hok).
  reflexivity.
Qed.

(** The rank shown at row [i] of a table sorted like one of the rank
    dimensions, when counts are distinct. *)
Lemma table_row_rank ds (count : NameData -> Q) (dimension : Ranks -> Z)
      (n : Z) (i : nat) (nd : NameData) (r : Ranks) :
  reachable ds ->
  (forall e, In e (dict_values (_names ds)) ->
     dimension (ranks_of (dict_values (_names ds)) e)
     = position_rank count (dict_values (_names ds)) e) ->
  distinct_counts count (dict_values (_names ds)) ->
  nth_error
    (slice_to
       (sorted (fun x => count (fst x)) true
          (map (fun nd => (nd, cached_ranks (ranks_cache_after ds) nd))
               (sorted total_count true (dict_values (_names ds))))) n) i
  = Some (nd, r) ->
  dimension r = (Z.of_nat i + 1)%Z.
Proof.
  intros Hr Hdim Hdistinct Hnth.
  pose proof (reachable_catalog_ok ds Hr) as Hok.
  pose proof (catalog_names_NoDup ds Hok) as Hnd.
  set (entities := dict_values (_names ds)) in *.
  apply nth_error_slice_to in Hnth.
  rewrite (sorted_map (fun x : NameData * Ranks => count (fst x)) true
             (fun nd => (nd, cached_ranks (ranks_cache_after ds) nd))) in Hnth.
  cbn [fst] in Hnth.
  assert (Hsame : sorted count true (sorted total_count true entities)
                  = sorted count true entities).
  { symmetry. apply sorted_perm_distinct.
    - symmetry. apply sorted_perm.
    - apply (NoDup_map_inv name). exact Hnd.
    - intros a b Ha Hb Hab Hba. apply Hdistinct; try assumption.
      simpl in Hab, Hba. apply Qltb_ge in Hab, Hba.
      apply Qle_antisym; assumption. }
  change (fun x : NameData => count x) with count in Hnth.
  rewrite Hsame in Hnth.
  rewrite nth_error_map in Hnth.
  destruct (nth_error (sorted count true entities) i) as [e|] eqn:E;
    [|discriminate].
  injection Hnth as -> <-.
  assert (Hin : In nd entities)
    by (apply (sorted_In count true); eapply nth_error_In; exact E).
  unfold cached_ranks, dict_get_default.
  rewrite (ranks_cache_after_fresh ds (reachable_cache_fresh ds Hr)).
  rewrite (computed_cache_lookup ds nd Hok Hin). fold entities.
  rewrite (Hdim nd Hin). unfold position_rank, dict_get_default.
  rewrite (rank_map_get _ i nd); [reflexivity| |exact E].
  eapply Permutation_NoDup; [|exact Hnd].
  apply Permutation_map. symmetry. apply sorted_perm.
Qed.

Lemma In_slice_sorted_ranked ds (count : NameData -> Q) (n : Z)
      (nd : NameData) (r : Ranks) :
  reachable ds ->
  In (nd, r)
     (slice_to
        (sorted (fun x => count (fst x)) true
           (map (fun nd => (nd, cached_ranks (ranks_cache_after ds) nd))
                (sorted total_count true (dict_values (_names ds))))) n) ->
  In nd (dict_values (_names ds)) /\
  r = ranks_of (dict_values (_names ds)) nd.
Proof.
  intros Hr Hin. pose proof (reachable_catalog_ok ds Hr) as Hok.
  apply In_slice_to, sorted_In, in_map_iff in Hin.
  destruct Hin as [e [Heq Hin]]. injection Heq as -> <-.
  apply sorted_In in Hin. split; [exact Hin|].
  unfold cached_ranks, dict_get_default.
  rewrite (ranks_cache_after_fresh ds (reachable_cache_fresh ds Hr)).
  rewrite (computed_cache_lookup ds nd Hok Hin). reflexivity.
Qed.

(** X23. On a dataset of the program [popular] prints the boys table and
    the girls table, each in descending order of its count.  Row i of a
    table (counting from 1) has i in its "Rank" column and shows the
    current ranks of its entity, except that the "Boys Rank" cell reads "-"
    for an entity whose boys total is 0, and likewise for girls.  When no
    two names have the same boys total, the boys rank of the entity of row
    i of the boys table is i, so that its "Boys Rank" cell shows i or "-";
    likewise for girls. *)
Theorem popular_tables (ds : NamesDataset) (n : Z) :
  reachable ds ->
  exists ds' boys_list girls_list,
    popular ds n
    = Finished ds'
        [OutTable (create_table "Top Boys Names" boys_list); OutBlank;
         OutTable (create_table "Top Girls Names" girls_list)] /\
    StronglySorted (fun a b => boys_total (fst b) <= boys_total (fst a))
                   boys_list /\
    StronglySorted (fun a b => girls_total (fst b) <= girls_total (fst a))
                   girls_list /\
    (forall i row,
        nth_error (table_rows (create_table "Top Boys Names" boys_list)) i
        = Some row ->
        exists nd,
          nth_error boys_list i
          = Some (nd, ranks_of (dict_values (_names ds)) nd) /\
          In nd (dict_values (_names ds)) /\
          row_rank row = (Z.of_nat i + 1)%Z /\
          row_name row = name nd /\
          row_boys_rank row
          = (if Qeq_bool (boys_total nd) 0 then Dash
             else RankShown (boys (ranks_of (dict_values (_names ds)) nd))) /\
          (distinct_counts boys_total (dict_values (_names ds)) ->
           boys (ranks_of (dict_values (_names ds)) nd)
           = (Z.of_nat i + 1)%Z)) /\
    (forall i row,
        nth_error (table_rows (create_table "Top Girls Names" girls_list)) i
        = Some row ->
        exists nd,
          nth_error girls_list i
          = Some (nd, ranks_of (dict_values (_names ds)) nd) /\
          In nd (dict_values (_names ds)) /\
          row_rank row = (Z.of_nat i + 1)%Z /\
          row_name row = name nd /\
          row_girls_rank row
          = (if Qeq_bool (girls_total nd) 0 then Dash
             else RankShown (girls (ranks_of (dict_values (_names ds)) nd))) /\
          (distinct_counts girls_total (dict_values (_names ds)) ->
           girls (ranks_of (dict_values (_names ds)) nd)
           = (Z.of_nat i + 1)%Z)).
Proof.
  intro Hr. pose proof (reachable_catalog_ok ds Hr) as Hok.
  do 3 eexists.
  split; [rewrite (popular_eq ds n Hok); reflexivity|].
  assert (Hdesc : forall (count : NameData -> Q) (l : list (NameData * Ranks)),
             StronglySorted (fun a b => count (fst b) <= count (fst a))
                            (slice_to (sorted (fun x => count (fst x)) true l)
                                      n)).
  { intros count l.
    destruct (slice_to_prefix (sorted (fun x => count (fst x)) true l) n)
      as [m [-> _]].
    assert (Hs : StronglySorted (fun a b => count (fst b) <= count (fst a))
                   (sorted (fun x : NameData * Ranks => count (fst x)) true l)).
    { eapply StronglySorted_weaken;
        [|apply (sorted_in_order (fun x : NameData * Ranks => count (fst x))
                                 true)].
      intros a b Hab. apply Qltb_ge. exact Hab. }
    rewrite <- (firstn_skipn m) in Hs.
    clear -Hs. revert Hs.
    generalize (firstn m (sorted (fun x : NameData * Ranks => count (fst x))
                                 true l)).
    intros l1 Hs. induction l1 as [|x l1 IH]; [constructor|].
    simpl in Hs. inversion Hs as [|? ? Hs' Hall]; subst.
    constructor; [apply IH; exact Hs'|].
    apply Forall_app in Hall. tauto. }
  split; [apply Hdesc|]. split; [apply Hdesc|]. split.
  - intros i row Hrow.
    destruct (create_table_row _ _ i row Hrow)
      as [nd [r [Hnth [Hrank [Hname [_ [Hcell _]]]]]]].
    destruct (In_slice_sorted_ranked ds boys_total n nd r Hr
                (nth_error_In _ _ Hnth)) as [Hin ->].
    exists nd. split; [exact Hnth|]. split; [exact Hin|].
    split; [exact Hrank|]. split; [exact Hname|]. split; [exact Hcell|].
    intro Hdistinct.
    apply (table_row_rank ds boys_total boys n i nd _ Hr); try assumption.
    reflexivity.
  - intros i row Hrow.
    destruct (create_table_row _ _ i row Hrow)
      as [nd [r [Hnth [Hrank [Hname [Hcell _]]]]]].
    destruct (In_slice_sorted_ranked ds girls_total n nd r Hr
                (nth_error_In _ _ Hnth)) as [Hin ->].
    exists nd. split; [exact Hnth|]. split; [exact Hin|].
    split; [exact Hrank|]. split; [exact Hname|]. split; [exact Hcell|].
    intro Hdistinct.
    apply (table_row_rank ds girls_total girls n i nd _ Hr); try assumption.
    reflexivity.
Qed.

Lemma popular_tables_witness :
  reachable (load sample_boys sample_girls) /\
  distinct_counts girls_total
    (dict_values (_names (load sample_boys sample_girls))) /\
  match popular (load sample_boys sample_girls) 25 with
  | Finished _ [_; _; OutTable girls_table] =>
      map (fun row => (row_name row, row_girls_rank row))
          (table_rows girls_table)
      = [("Zoe", RankShown 1); ("Sky", RankShown 2); ("Kit", RankShown 3);
         ("Remy", RankShown 4); ("Ash", RankShown 5); ("Max", Dash)]%string
  | _ => False
  end /\
  exists ds' boys_list girls_list,
    popular (load sample_boys sample_girls) 25
    = Finished ds'
        [OutTable (create_table "Top Boys Names" boys_list); OutBlank;
         OutTable (create_table "Top Girls Names" girls_list)] /\
    forall i row,
      nth_error (table_rows (create_table "Top Girls Names" girls_list)) i
      = Some row ->
      row_girls_rank row = Dash \/
      row_girls_rank row = RankShown (Z.of_nat i + 1).
Proof.
  assert (Hr : reachable (load sample_boys sample_girls)) by apply reach_load.
  assert (Hd : distinct_counts girls_total
                 (dict_values (_names (load sample_boys sample_girls)))).
  { intros a b Ha Hb Heq. simpl in Ha, Hb.
    repeat (destruct Ha as [<-|Ha]; [|]); try destruct Ha;
      repeat (destruct Hb as [<-|Hb]; [|]); try destruct Hb;
      try reflexivity; vm_compute in Heq; discriminate. }
  split; [exact Hr|]. split; [exact Hd|]. split; [reflexivity|].
  destruct (popular_tables _ 25 Hr) as [ds' [bl [gl [Heq [_ [_ [_ Hg]]]]]]].
  exists ds', bl, gl. split; [exact Heq|].
  intros i row Hrow.
  destruct (Hg i row Hrow) as [nd [_ [_ [_ [_ [Hcell Hrank]]]]]].
  rewrite Hcell. destruct (Qeq_bool (girls_total nd) 0); [left; reflexivity|].
  right. rewrite (Hrank Hd). reflexivity.
Defined.

(* ================================================================== *)
(** * The command nearest on targets in range *)




(* ================================================================== *)
(** * The command lookup and its graphs *)

Lemma get_time_series_nonempty nd b0 b :
  boys_yearly nd = Some (b0 :: b) -> get_time_series nd Combined <> [].
Proof.
  intros Hb Hnil.
  assert (Hy : has_yearly_data nd = true)
    by (unfold has_yearly_data; rewrite Hb; reflexivity).
  rewrite (get_time_series_combined nd Hy) in Hnil.
  apply map_eq_nil in Hnil.
  assert (Hin : In (year b0)
                   (all_years (or_empty (boys_yearly nd))
                              (or_empty (girls_yearly nd)))).
  { apply all_years_In. left. rewrite Hb. left. reflexivity. }
  rewrite Hnil in Hin. destruct Hin.
Qed.

(** Yearly scores need both sequences non-empty, and then the combined
    series is not empty either. *)
Lemma yearly_scores_need_series nd :
  calculate_yearly_gender_scores nd <> [] ->
  falsy (boys_yearly nd) = false /\ falsy (girls_yearly nd) = false /\
  get_time_series nd Combined <> [].
Proof.
  intro Hne.
  destruct (falsy (boys_yearly nd)) eqn:Fb.
  { exfalso. apply Hne, calculate_yearly_gender_scores_falsy. left. exact Fb. }
  destruct (falsy (girls_yearly nd)) eqn:Fg.
  { exfalso. apply Hne, calculate_yearly_gender_scores_falsy. right. exact Fg. }
  split; [reflexivity|]. split; [reflexivity|].
  destruct (boys_yearly nd) as [[|b0 b]|] eqn:Eb; try discriminate.
  apply (get_time_series_nonempty nd b0 b Eb).
Qed.

(** What the loading step of a command leaves: on an exception the dataset
    was not loaded and stays as it is; otherwise the yearly data is loaded
    and names, totals and rank cache are what they were. *)
Lemma load_yearly_files_cases sort_values ds boys_file girls_file :
  match load_yearly_files sort_values ds boys_file girls_file with
  | Raised e =>
      _yearly_loaded ds = false /\
      (boys_file = Raised e \/ girls_file = Raised e)
  | Value ds' =>
      _yearly_loaded ds' = true /\
      _ranks_cache ds' = _ranks_cache ds /\
      map entry_totals (_names ds') = map entry_totals (_names ds) /\
      (ds' = ds \/
       exists boys_table girls_table,
         boys_file = Value boys_table /\ girls_file = Value girls_table /\
         ds' = load_yearly_data sort_values ds boys_table girls_table)
  end.
Proof.
  unfold load_yearly_files. destruct (_yearly_loaded ds) eqn:Hl.
  - split; [exact Hl|]. split; [reflexivity|]. split; [reflexivity|].
    left. reflexivity.
  - destruct boys_file as [b|e]; [|split; [reflexivity|left; reflexivity]].
    destruct girls_file as [g|e]; [|split; [reflexivity|right; reflexivity]].
    split; [apply load_yearly_data_loaded|]. split.
    + unfold load_yearly_data. rewrite Hl. reflexivity.
    + split; [apply load_yearly_data_entries|].
      right. exists b, g. repeat split.
Qed.

(** X24. [display_name_graphs] first loads the yearly data; if that raises,
    the dataset stays as it was and the only line printed is the one
    saying that the historical data could not be loaded.  Otherwise the
    dataset is the loaded one and, for the entity as stored after loading,
    what is printed is decided by its combined series and its yearly
    scores: the line that no historical data was found when it has no
    yearly data; nothing when the series is empty; the popularity graph of
    the series and an empty line, followed by the gender score graph of
    the scores when there are scores.  A plotting call that raises ends
    the printing with the could-not-load line in place of its graph.  So a
    gender score graph never comes without the popularity graph before
    it, no graph is drawn from an empty series, and the could-not-load
    line is printed only after an exception. *)
Theorem display_name_graphs_shapes
        (sort_values : list LongRow -> list LongRow)
        (create_popularity_graph create_gender_score_graph
           : list (Z * Q) -> string -> Try string)
        (ds : NamesDataset) (boys_file girls_file : Try Table) (key : string)
        (name_data : NameData) :
  let run := display_name_graphs sort_values create_popularity_graph
               create_gender_score_graph ds boys_file girls_file key
               name_data in
  match load_yearly_files sort_values ds boys_file girls_file with
  | Raised e => run = (ds, [could_not_load e])
  | Value ds' =>
      let nd := match dict_get (_names ds') key with
                | Some nd => nd
                | None => name_data
                end in
      let series := get_time_series nd Combined in
      let scores := calculate_yearly_gender_scores nd in
      let popularity :=
        create_popularity_graph
          series (String.append "Popularity Trend: " (name nd)) in
      let evolution :=
        create_gender_score_graph
          scores (String.append "Gender Score Evolution: " (name nd)) in
      fst run = ds' /\
      ((has_yearly_data nd = false /\ snd run = [no_historical_data nd]) \/
       (has_yearly_data nd = true /\ series = [] /\ scores = [] /\
        snd run = []) \/
       (exists e,
           has_yearly_data nd = true /\ series <> [] /\
           popularity = Raised e /\ snd run = [could_not_load e]) \/
       (exists pop_graph,
           has_yearly_data nd = true /\ series <> [] /\
           popularity = Value pop_graph /\
           ((scores = [] /\ snd run = [OutLine pop_graph; OutBlank]) \/
            (exists e,
                scores <> [] /\ evolution = Raised e /\
                snd run = [OutLine pop_graph; OutBlank; could_not_load e]) \/
            (exists gender_graph,
                scores <> [] /\ evolution = Value gender_graph /\
                snd run
                = [OutLine pop_graph; OutBlank; OutLine gender_graph]))))
  end.
Proof.
  intro run. subst run. unfold display_name_graphs.
  destruct (load_yearly_files sort_values ds boys_file girls_file)
    as [ds'|e]; [|reflexivity].
  cbv zeta.
  set (nd := match dict_get (_names ds') key with
             | Some nd => nd
             | None => name_data
             end).
  destruct (has_yearly_data nd) eqn:Hy; cbn [negb];
    [|split; [reflexivity|left; split; reflexivity]].
  destruct (get_time_series nd Combined) as [|p ts] eqn:Ets.
  - assert (Hsc : calculate_yearly_gender_scores nd = []).
    { destruct (calculate_yearly_gender_scores nd) as [|q qs] eqn:Esc;
        [reflexivity|]. exfalso.
      assert (Hne : calculate_yearly_gender_scores nd <> [])
        by (rewrite Esc; discriminate).
      destruct (yearly_scores_need_series nd Hne) as [_ [_ Hts]].
      apply Hts. exact Ets. }
    rewrite Hsc.
    destruct (negb (falsy (boys_yearly nd)) && negb (falsy (girls_yearly nd)));
      (split; [reflexivity|]; right; left; repeat split; reflexivity).
  - destruct (create_popularity_graph (p :: ts) _) as [pop_graph|e] eqn:Epop.
    + destruct (calculate_yearly_gender_scores nd) as [|q qs] eqn:Esc.
      * destruct (negb (falsy (boys_yearly nd))
                  && negb (falsy (girls_yearly nd)));
          (split; [reflexivity|]; right; right; right; exists pop_graph;
           split; [reflexivity|]; split; [discriminate|];
           split; [reflexivity|]; left; split; reflexivity).
      * assert (Hne : calculate_yearly_gender_scores nd <> [])
          by (rewrite Esc; discriminate).
        destruct (yearly_scores_need_series nd Hne) as [Fb [Fg _]].
        rewrite Fb, Fg. cbn [negb andb].
        destruct (create_gender_score_graph (q :: qs) _)
          as [gender_graph|e] eqn:Egen.
        -- split; [reflexivity|]. right; right; right. exists pop_graph.
           split; [reflexivity|]. split; [discriminate|].
           split; [reflexivity|]. right; right. exists gender_graph.
           split; [discriminate|]. split; reflexivity.
        -- split; [reflexivity|]. right; right; right. exists pop_graph.
           split; [reflexivity|]. split; [discriminate|].
           split; [reflexivity|]. right; left. exists e.
           split; [discriminate|]. split; reflexivity.
    + split; [reflexivity|]. right; right; left. exists e.
      split; [reflexivity|]. split; [discriminate|]. split; reflexivity.
Qed.

Lemma display_name_graphs_shapes_witness :
  display_name_graphs stable_sort_values sample_graph sample_graph
    (load sample_boys sample_girls) (Raised "no such file")
    (Value sample_girls) "ash" (entity "Ash" 19 1)
  = (load sample_boys sample_girls, [could_not_load "no such file"]) /\
  snd (display_name_graphs stable_sort_values sample_graph failing_graph
         (load sample_boys sample_girls) (Value sample_boys)
         (Value sample_girls) "ash" (entity "Ash" 19 1))
  = [OutLine "Popularity Trend: Ash"; OutBlank; could_not_load "no canvas"] /\
  snd (display_name_graphs stable_sort_values sample_graph sample_graph
         (load sample_boys sample_girls) (Value sample_boys)
         (Value sample_girls) "max" (entity "Max" 31 0))
  = [OutLine "Popularity Trend: Max"; OutBlank].
Proof.
  split; [|split; reflexivity].
  exact (display_name_graphs_shapes stable_sort_values sample_graph
           sample_graph (load sample_boys sample_girls)
           (Raised "no such file") (Value sample_girls) "ash"
           (entity "Ash" 19 1)).
Defined.

Lemma display_name_graphs_dataset
      sort_values create_popularity_graph create_gender_score_graph
      ds boys_file girls_file key name_data :
  match load_yearly_files sort_values ds boys_file girls_file with
  | Raised e =>
      display_name_graphs sort_values create_popularity_graph
        create_gender_score_graph ds boys_file girls_file key name_data
      = (ds, [could_not_load e])
  | Value ds' =>
      fst (display_name_graphs sort_values create_popularity_graph
             create_gender_score_graph ds boys_file girls_file key name_data)
      = ds'
  end.
Proof.
  unfold display_name_graphs.
  destruct (load_yearly_files sort_values ds boys_file girls_file)
    as [ds'|e]; [|reflexivity].
  cbv zeta.
  destruct (negb (has_yearly_data _)); [reflexivity|].
  destruct (get_time_series _ Combined) as [|p ts].
  - destruct (negb (falsy _) && negb (falsy _)); [|reflexivity].
    destruct (calculate_yearly_gender_scores _); [reflexivity|].
    destruct (create_gender_score_graph _ _); reflexivity.
  - destruct (create_popularity_graph _ _); [|reflexivity].
    destruct (negb (falsy _) && negb (falsy _)); [|reflexivity].
    destruct (calculate_yearly_gender_scores _); [reflexivity|].
    destruct (create_gender_score_graph _ _); reflexivity.
Qed.

Lemma find_by_name (cache : dict string Ranks) (nd : NameData)
      (l : list NameData) :
  In nd l ->
  exists nd',
    find (fun nr : NameData * Ranks => String.eqb (name (fst nr)) (name nd))
         (map (fun e => (e, cached_ranks cache e)) l)
    = Some (nd', cached_ranks cache nd') /\
    name nd' = name nd.
Proof.
  induction l as [|x l IH]; intro Hin; [destruct Hin|].
  simpl. destruct (String.eqb (name x) (name nd)) eqn:E.
  - exists x. split; [reflexivity|]. apply String.eqb_eq. exact E.
  - destruct Hin as [->|Hin]; [rewrite String.eqb_refl in E; discriminate|].
    apply IH. exact Hin.
Qed.

(** X25. On a dataset of the program [lookup] never fails on a missing
    rank.  A name the catalog lacks (whatever its casing) ends the command
    with exit code 1 after the line naming it, the dataset untouched.  A
    name it has, in any casing, gets one table whose only row is that
    entity with its own current ranks, then the heading and what
    [display_name_graphs] prints.  The command leaves the rank cache
    computed and names and totals as they were; the yearly data is loaded,
    unless reading a file raised: then the dataset is otherwise untouched
    and the last line says that the historical data could not be
    loaded. *)
Theorem lookup_outcome
        (sort_values : list LongRow -> list LongRow)
        (create_popularity_graph create_gender_score_graph
           : list (Z * Q) -> string -> Try string)
        (ds : NamesDataset) (boys_file girls_file : Try Table) (n : string) :
  reachable ds ->
  let run := lookup sort_values create_popularity_graph
               create_gender_score_graph ds boys_file girls_file n in
  match get_name ds n with
  | None =>
      run = Exited ds
              [OutLine (String.append "[red]Name '"
                          (String.append n "' not found in dataset.[/red]"))]
              1
  | Some nd =>
      let graphs :=
        display_name_graphs sort_values create_popularity_graph
          create_gender_score_graph (dataset_after ds) boys_file girls_file
          (lower n) nd in
      In nd (dict_values (_names ds)) /\
      lower (name nd) = lower n /\
      run = Finished (fst graphs)
              ([OutTable
                  (create_table
                     (String.append "Statistics for '"
                        (String.append (name nd) "'"))
                     [(nd, ranks_of (dict_values (_names ds)) nd)]);
                OutBlank;
                OutLine "[bold]Historical Trends (1996-2024)[/bold]";
                OutBlank] ++ snd graphs) /\
      _ranks_cache (fst graphs) = Some (computed_cache ds) /\
      map entry_totals (_names (fst graphs)) = map entry_totals (_names ds) /\
      match load_yearly_files sort_values (dataset_after ds)
                              boys_file girls_file with
      | Raised e =>
          fst graphs = dataset_after ds /\ snd graphs = [could_not_load e]
      | Value ds' => fst graphs = ds' /\ _yearly_loaded (fst graphs) = true
      end
  end.
Proof.
  intros Hr run. subst run.
  pose proof (reachable_catalog_ok ds Hr) as Hok.
  pose proof (ranks_cache_after_fresh ds (reachable_cache_fresh ds Hr)) as Hc.
  unfold lookup. destruct (get_name ds n) as [nd|] eqn:Hget; [|reflexivity].
  assert (Hitem : In (lower n, nd) (_names ds))
    by (apply dict_get_Some_In; exact Hget).
  assert (Hin : In nd (dict_values (_names ds)))
    by (apply (in_map snd) in Hitem; exact Hitem).
  assert (Hkey : lower (name nd) = lower n).
  { destruct Hok as [_ [Hkeys _]]. rewrite Forall_forall in Hkeys.
    symmetry. exact (Hkeys _ Hitem). }
  rewrite (get_ranked_names_eq ds 0 Hok). cbv zeta.
  change (if (0 <? 0)%Z
          then slice_to (sorted total_count true (dict_values (_names ds))) 0
          else sorted total_count true (dict_values (_names ds)))
    with (sorted total_count true (dict_values (_names ds))).
  destruct (find_by_name (ranks_cache_after ds) nd
              (sorted total_count true (dict_values (_names ds))))
    as [nd' [Hfind Hname]]; [apply sorted_In; exact Hin|].
  rewrite Hfind.
  assert (Hranks : cached_ranks (ranks_cache_after ds) nd'
                   = ranks_of (dict_values (_names ds)) nd).
  { unfold cached_ranks, dict_get_default. rewrite Hname, Hc.
    rewrite (computed_cache_lookup ds nd Hok Hin). reflexivity. }
  rewrite Hranks.
  pose proof (display_name_graphs_dataset sort_values create_popularity_graph
                create_gender_score_graph (dataset_after ds) boys_file
                girls_file (lower n) nd) as Hds.
  pose proof (load_yearly_files_cases sort_values (dataset_after ds)
                boys_file girls_file) as Hload.
  destruct (display_name_graphs sort_values create_popularity_graph
              create_gender_score_graph (dataset_after ds) boys_file
              girls_file (lower n) nd) as [d graphs].
  cbn [fst snd].
  split; [exact Hin|]. split; [exact Hkey|]. split; [reflexivity|].
  destruct (load_yearly_files sort_values (dataset_after ds)
                              boys_file girls_file) as [ds'|e].
  - cbn [fst] in Hds. subst d.
    destruct Hload as [Hloaded [Hcache [Hent _]]].
    split; [rewrite Hcache; simpl; rewrite Hc; reflexivity|].
    split; [exact Hent|]. split; [reflexivity|exact Hloaded].
  - injection Hds as -> ->.
    split; [simpl; rewrite Hc; reflexivity|].
    split; [reflexivity|]. split; reflexivity.
Qed.

Lemma lookup_outcome_witness :
  reachable (load sample_boys sample_girls) /\
  get_name (load sample_boys sample_girls) "ASH" = Some (entity "Ash" 19 1) /\
  lookup stable_sort_values sample_graph sample_graph
         (load sample_boys sample_girls)
         (Value sample_boys) (Value sample_girls) "ASH"
  = Finished
      (load_yearly_data stable_sort_values
                        (dataset_after (load sample_boys sample_girls))
                        sample_boys sample_girls)
      [OutTable
         (create_table "Statistics for 'Ash'"
            [(entity "Ash" 19 1, {| overall := 4; boys := 2; girls := 5 |})]);
       OutBlank;
       OutLine "[bold]Historical Trends (1996-2024)[/bold]";
       OutBlank;
       OutLine "Popularity Trend: Ash"; OutBlank;
       OutLine "Gender Score Evolution: Ash"] /\
  get_name (load sample_boys sample_girls) "nobody" = None /\
  lookup stable_sort_values sample_graph sample_graph
         (load sample_boys sample_girls)
         (Value sample_boys) (Value sample_girls) "nobody"
  = Exited (load sample_boys sample_girls)
      [OutLine "[red]Name 'nobody' not found in dataset.[/red]"] 1.
Proof.
  assert (Hr : reachable (load sample_boys sample_girls)) by apply reach_load.
  assert (Hfound : get_name (load sample_boys sample_girls) "ASH"
                   = Some (entity "Ash" 19 1)) by reflexivity.
  assert (Hmiss : get_name (load sample_boys sample_girls) "nobody" = None)
    by reflexivity.
  split; [exact Hr|]. split; [exact Hfound|].
  pose proof (lookup_outcome stable_sort_values sample_graph sample_graph
                _ (Value sample_boys) (Value sample_girls) "ASH" Hr) as Hash.
  pose proof (lookup_outcome stable_sort_values sample_graph sample_graph
                _ (Value sample_boys) (Value sample_girls) "nobody" Hr)
    as Hnobody.
  cbv zeta in Hash, Hnobody. rewrite Hfound in Hash. rewrite Hmiss in Hnobody.
  destruct Hash as [_ [_ [Hrun _]]].
  split; [rewrite Hrun; reflexivity|]. split; [exact Hmiss|exact Hnobody].
Defined.

(* ================================================================== *)
(** * The order within a yearly sequence *)

Lemma same_counts_perm (found listed : option (list YearlyCount)) :
  same_counts found listed ->
  Permutation (or_empty found) (or_empty listed) /\
  is_not_none found = is_not_none listed /\
  falsy found = falsy listed.
Proof.
  destruct found as [l|], listed as [l'|]; simpl; try tauto.
  - intro Hp. split; [exact Hp|]. split; [reflexivity|].
    destruct l as [|x l], l' as [|x' l']; try reflexivity.
    + apply Permutation_nil in Hp. discriminate.
    + symmetry in Hp. apply Permutation_nil in Hp. discriminate.
  - intros _. split; [constructor|]. split; reflexivity.
Qed.

(** With one entry per year, the value of a series for a year does not
    depend on the order of the entries. *)
Lemma value_at_perm (l l' : list YearlyCount) (y : Z) :
  Permutation l l' -> NoDup (map year l) ->
  value_at (series_of l) y = value_at (series_of l') y.
Proof.
  intros Hp Hnd.
  assert (Hnd' : NoDup (map year l')).
  { eapply Permutation_NoDup; [|exact Hnd]. apply Permutation_map. exact Hp. }
  assert (Hyears : forall s, map fst (series_of s) = map year s).
  { intro s. unfold series_of. rewrite map_map. reflexivity. }
  destruct (in_dec Z.eq_dec y (map year l)) as [Hin|Hnot].
  - apply in_map_iff in Hin. destruct Hin as [yc [<- Hin]].
    assert (Hentry : forall s, NoDup (map year s) -> In yc s ->
               value_at (series_of s) (year yc) = count yc).
    { intros s Hs Hyc. apply value_at_unique.
      - rewrite Hyears. exact Hs.
      - unfold series_of.
        apply (in_map (fun e => (year e, count e))). exact Hyc. }
    rewrite (Hentry l Hnd Hin).
    rewrite (Hentry l' Hnd' (Permutation_in _ Hp Hin)). reflexivity.
  - rewrite !value_at_absent; [reflexivity| |].
    + rewrite Hyears. intro Hin. apply Hnot.
      apply (Permutation_in _ (Permutation_map year (Permutation_sym Hp))).
      exact Hin.
    + rewrite Hyears. exact Hnot.
Qed.

(** The years of two sequences, sorted, do not depend on the order of the
    entries. *)
Lemma all_years_perm (b b' g g' : list YearlyCount) :
  Permutation b b' -> Permutation g g' -> all_years b g = all_years b' g'.
Proof.
  intros Hb Hg.
  apply (sorted_perm_distinct (fun y : Z => y) false).
  - apply NoDup_Permutation;
      try (apply set_union_NoDup, set_of_list_NoDup).
    intro y. rewrite !set_union_In, !set_of_list_In.
    unfold by_year. rewrite !dict_of_pairs_keys_In, !map_map. simpl.
    split; (intros [Hin|Hin]; [left|right]);
      (eapply Permutation_in; [|exact Hin]; apply Permutation_map);
      assumption || (symmetry; assumption).
  - apply set_union_NoDup, set_of_list_NoDup.
  - intros x y _ _ Hxy Hyx. simpl in Hxy, Hyx.
    apply Z.ltb_ge in Hxy, Hyx. lia.
Qed.

(** X28. What the graphs are drawn from does not depend on the order of the
    entries within the yearly sequences, which the code leaves to the sort
    of pandas: for two entities whose boys sequences hold the same entries
    in whatever order, and likewise the girls sequences, with one entry per
    year in each, the combined time series are equal and so are the yearly
    gender scores; the boys series and the girls series (which list the
    entries as stored) hold the same pairs. *)
Theorem series_ignore_sequence_order (nd nd' : NameData) :
  same_counts (boys_yearly nd) (boys_yearly nd') ->
  same_counts (girls_yearly nd) (girls_yearly nd') ->
  NoDup (map year (or_empty (boys_yearly nd))) ->
  NoDup (map year (or_empty (girls_yearly nd))) ->
  get_time_series nd Combined = get_time_series nd' Combined /\
  calculate_yearly_gender_scores nd = calculate_yearly_gender_scores nd' /\
  Permutation (get_time_series nd Boys) (get_time_series nd' Boys) /\
  Permutation (get_time_series nd Girls) (get_time_series nd' Girls).
Proof.
  intros Hsb Hsg Hnb Hng.
  destruct (same_counts_perm _ _ Hsb) as [Hpb [Hib Hfb]].
  destruct (same_counts_perm _ _ Hsg) as [Hpg [Hig Hfg]].
  assert (Hy : has_yearly_data nd = has_yearly_data nd')
    by (unfold has_yearly_data; rewrite Hib, Hig; reflexivity).
  assert (Hyears : all_years (or_empty (boys_yearly nd))
                             (or_empty (girls_yearly nd))
                   = all_years (or_empty (boys_yearly nd'))
                               (or_empty (girls_yearly nd')))
    by (apply all_years_perm; assumption).
  assert (Hvb : forall y,
             dict_get_default (by_year (or_empty (boys_yearly nd))) y 0
             = dict_get_default (by_year (or_empty (boys_yearly nd'))) y 0).
  { intro y. rewrite !by_year_value. apply value_at_perm; assumption. }
  assert (Hvg : forall y,
             dict_get_default (by_year (or_empty (girls_yearly nd))) y 0
             = dict_get_default (by_year (or_empty (girls_yearly nd'))) y 0).
  { intro y. rewrite !by_year_value. apply value_at_perm; assumption. }
  split; [|split; [|split]].
  - unfold get_time_series. rewrite <- Hy.
    destruct (negb (has_yearly_data nd)); [reflexivity|].
    cbv zeta. rewrite Hyears. apply map_ext. intro y.
    rewrite Hvb, Hvg. reflexivity.
  - unfold calculate_yearly_gender_scores. rewrite <- Hfb, <- Hfg.
    destruct (falsy (boys_yearly nd) || falsy (girls_yearly nd));
      [reflexivity|].
    cbv zeta. rewrite Hyears. apply flat_map_ext. intro y.
    rewrite Hvb, Hvg. reflexivity.
  - unfold get_time_series. rewrite <- Hy.
    destruct (negb (has_yearly_data nd)); [constructor|].
    apply Permutation_map. exact Hpb.
  - unfold get_time_series. rewrite <- Hy.
    destruct (negb (has_yearly_data nd)); [constructor|].
    apply Permutation_map. exact Hpg.
Qed.

Lemma series_ignore_sequence_order_witness :
  let reordered :=
    {| name := "Kit"; boys_total := 3; girls_total := 1;
       boys_yearly := Some [ {| year := 1997; count := 3 |};
                             {| year := 1996; count := 0 |} ];
       girls_yearly := Some [ {| year := 1998; count := 1 |};
                              {| year := 1996; count := 0 |} ] |} in
  same_counts (boys_yearly with_zero_year) (boys_yearly reordered) /\
  same_counts (girls_yearly with_zero_year) (girls_yearly reordered) /\
  NoDup (map year (or_empty (boys_yearly with_zero_year))) /\
  NoDup (map year (or_empty (girls_yearly with_zero_year))) /\
  get_time_series reordered Boys = [(1997%Z, 3); (1996%Z, 0)] /\
  get_time_series with_zero_year Combined
  = get_time_series reordered Combined /\
  calculate_yearly_gender_scores with_zero_year
  = calculate_yearly_gender_scores reordered.
Proof.
  intro reordered.
  assert (Hb : same_counts (boys_yearly with_zero_year)
                           (boys_yearly reordered)) by apply perm_swap.
  assert (Hg : same_counts (girls_yearly with_zero_year)
                           (girls_yearly reordered)) by apply perm_swap.
  assert (Hnb : NoDup (map year (or_empty (boys_yearly with_zero_year))))
    by (simpl; repeat constructor; simpl; intuition discriminate).
  assert (Hng : NoDup (map year (or_empty (girls_yearly with_zero_year))))
    by (simpl; repeat constructor; simpl; intuition discriminate).
  split; [exact Hb|]. split; [exact Hg|]. split; [exact Hnb|].
  split; [exact Hng|]. split; [reflexivity|].
  destruct (series_ignore_sequence_order with_zero_year reordered
              Hb Hg Hnb Hng) as [Hc [Hs _]].
  split; [exact Hc|exact Hs].
Defined.

(* ================================================================== *)
(** * parse_count *)

Lemma lstrip_spaces (pre s : string) :
  strip_is_empty pre = true -> lstrip (String.append pre s) = lstrip s.
Proof.
  induction pre as [|c pre IH]; simpl; [reflexivity|].
  rewrite andb_true_iff. intros [Hc Hpre]. rewrite Hc. apply IH. exact Hpre.
Qed.

Lemma rstrip_all_spaces (post : string) :
  strip_is_empty post = true -> rstrip post = EmptyString.
Proof.
  induction post as [|c post IH]; simpl; [reflexivity|].
  rewrite andb_true_iff. intros [Hc Hpost]. rewrite (IH Hpost), Hc.
  reflexivity.
Qed.

Lemma rstrip_spaces (s post : string) :
  strip_is_empty post = true -> rstrip (String.append s post) = rstrip s.
Proof.
  intro Hpost. induction s as [|c s IH]; simpl.
  - apply rstrip_all_spaces. exact Hpost.
  - rewrite IH. reflexivity.
Qed.

Lemma lstrip_all_spaces (post : string) :
  strip_is_empty post = true -> lstrip post = EmptyString.
Proof.
  induction post as [|c post IH]; simpl; [reflexivity|].
  rewrite andb_true_iff. intros [Hc Hpost]. rewrite Hc. apply IH. exact Hpost.
Qed.

Lemma strip_token (c : ascii) (core pre post : string) :
  strip_is_empty pre = true -> strip_is_empty post = true ->
  is_space c = false ->
  strip (String.append pre (String.append (String c core) post))
  = rstrip (String c core).
Proof.
  intros Hpre Hpost Hc. unfold strip. rewrite (lstrip_spaces pre _ Hpre).
  cbn [String.append lstrip]. rewrite Hc.
  change (String c (String.append core post))
    with (String.append (String c core) post).
  apply rstrip_spaces. exact Hpost.
Qed.

(** [strip_is_empty], used for the name filter, agrees with [strip]. *)
Lemma strip_is_empty_strip (s : string) :
  strip_is_empty s = true <-> strip s = EmptyString.
Proof.
  unfold strip. induction s as [|c s IH]; simpl; [tauto|].
  destruct (is_space c) eqn:Ec; simpl; [exact IH|].
  split; [discriminate|].
  destruct (rstrip s); rewrite ?Ec; discriminate.
Qed.

(** X26. [parse_count] gives no data for a missing cell and for the
    placeholders "[x]", "S" and the empty string, also when blanks
    surround them, whatever [float] would make of the text; and a value it
    does return is the one [float] reads from the cell once stripped and
    rid of double quotes and commas. *)
Theorem parse_count_placeholders
        (float : string -> option Q) (pre post token : string) :
  strip_is_empty pre = true -> strip_is_empty post = true ->
  In token ["[x]"; "S"; ""]%string ->
  parse_count float None = None /\
  parse_count float (Some (String.append pre (String.append token post)))
  = None /\
  (forall cell v,
      parse_count float (Some cell) = Some v ->
      float (remove_char "," (remove_char double_quote (strip cell)))
      = Some v).
Proof.
  intros Hpre Hpost Htoken. split; [reflexivity|]. split.
  - assert (Hstrip : strip (String.append pre (String.append token post))
                     = token).
    { destruct Htoken as [<-|[<-|[<-|[]]]].
      - rewrite (strip_token "[" "x]" pre post Hpre Hpost eq_refl).
        reflexivity.
      - rewrite (strip_token "S" "" pre post Hpre Hpost eq_refl).
        reflexivity.
      - unfold strip. rewrite (lstrip_spaces pre _ Hpre).
        cbn [String.append]. rewrite (lstrip_all_spaces post Hpost).
        reflexivity. }
    unfold parse_count. cbv zeta. rewrite Hstrip.
    destruct Htoken as [<-|[<-|[<-|[]]]]; reflexivity.
  - intros cell v. unfold parse_count. cbv zeta.
    destruct (String.eqb (strip cell) "[x]" || String.eqb (strip cell) "S"
              || String.eqb (strip cell) "")%bool; [discriminate|tauto].
Qed.

Lemma parse_count_placeholders_witness :
  strip_is_empty " " = true /\ strip_is_empty "  " = true /\
  In "[x]"%string ["[x]"; "S"; ""]%string /\
  parse_count (fun _ => Some 1) (Some " [x]  "%string) = None.
Proof.
  assert (Hpre : strip_is_empty " " = true) by reflexivity.
  assert (Hpost : strip_is_empty "  " = true) by reflexivity.
  assert (Htok : In "[x]"%string ["[x]"; "S"; ""]%string)
    by (left; reflexivity).
  split; [exact Hpre|]. split; [exact Hpost|]. split; [exact Htok|].
  exact (proj1 (proj2 (parse_count_placeholders (fun _ => Some 1)
                         " " "  " "[x]" Hpre Hpost Htok))).
Defined.
